(** * wagtailmenus: menu resolution, caching and validation

    A shallow embedding of
      - [wagtailmenus/models/menus.py]: [Menu], [MenuFromRootPage],
        [MenuWithMenuItems], [AbstractFlatMenu.get_for_site];
      - [wagtailmenus/models.py]: [MenuItem.clean].

    Django querysets are lazy descriptions of a WHERE clause: a queryset is
    modelled as a predicate on the rows of the page table together with the
    flag set by [specific()], and it is evaluated against the table only
    where the source iterates it.  Menu instances carry their
    [cached_property] slots explicitly, and every method that reads one
    threads the instance through a small state-and-exception monad. *)

From stdpp Require Import gmap strings list fin_maps sorting.

Local Open Scope Z_scope.

(** ** Pages and querysets *)

(** A row of the page table (wagtailcore.Page, a treebeard MP_Node). *)
Record Page := mkPage {
  page_id : Z;
  path : string;
  depth : Z;
  live : bool;
  expired : bool;
  show_in_menus : bool
}.

(** A page object as Python code holds it: the row, and whether it was
    loaded as an instance of its specific subclass ([type(p) is not Page]). *)
Record PageInstance := mkInst {
  row : Page;
  is_specific : bool
}.

Record QuerySet := mkQS {
  qs_where : Page -> bool;
  qs_specific : bool
}.

(** [Page.objects.all()] and [Page.objects.none()] *)
Definition Page_objects : QuerySet := mkQS (fun _ => true) false.
Definition Page_objects_none : QuerySet := mkQS (fun _ => false) false.

(** [qs.filter(cond)] *)
Definition qs_filter (cond : Page -> bool) (qs : QuerySet) : QuerySet :=
  mkQS (fun p => qs_where qs p && cond p) (qs_specific qs).

(** [a | b] and [a & b]: the WHERE clauses are combined, the result is a
    clone of the left operand and keeps its iterable class. *)
Definition qs_or (a b : QuerySet) : QuerySet :=
  mkQS (fun p => qs_where a p || qs_where b p) (qs_specific a).
Definition qs_and (a b : QuerySet) : QuerySet :=
  mkQS (fun p => qs_where a p && qs_where b p) (qs_specific a).

(** [qs.specific()] *)
Definition specific (qs : QuerySet) : QuerySet :=
  mkQS (qs_where qs) true.

Definition instantiate (spec : bool) (p : Page) : PageInstance :=
  mkInst p spec.

(** Iterating a queryset: the matching rows of the table, in table order. *)
Definition evaluate (tbl : list Page) (qs : QuerySet) : list PageInstance :=
  instantiate (qs_specific qs) <$> List.filter (qs_where qs) tbl.

(** ** app_settings

    The values of the [use_specific] options, as the tests name them
    (0 is OFF, 1 AUTO, 2 TOP_LEVEL, 3 ALWAYS). *)

Definition USE_SPECIFIC_OFF : Z := 0.
Definition USE_SPECIFIC_AUTO : Z := 1.
Definition USE_SPECIFIC_TOP_LEVEL : Z := 2.
Definition USE_SPECIFIC_ALWAYS : Z := 3.

(** ** Menu items *)

Record MenuItem := mkItem {
  item_menu : option Z;
  link_page_id : option Z;
  link_page : option PageInstance;
  link_url : option string;
  link_text : string;
  url_append : string;
  allow_subnav : bool;
  sort_order : option Z
}.

(** [item.link_page = page] *)
Definition set_link_page (pg : PageInstance) (it : MenuItem) : MenuItem :=
  mkItem (item_menu it) (link_page_id it) (Some pg) (link_url it)
         (link_text it) (url_append it) (allow_subnav it) (sort_order it).

(** Python truth values of the attributes the source tests. *)
Definition truthy_id (o : option Z) : bool :=
  match o with
  | Some i => negb (i =? 0)
  | None => false
  end.

Definition truthy_str (s : string) : bool := negb (String.eqb s "").

Definition truthy_ostr (o : option string) : bool :=
  match o with
  | Some s => truthy_str s
  | None => false
  end.

(** ** Exceptions and the instance monad *)

Inductive ValidationError :=
  | FieldErrors (error_dict : list (string * list string))
  | NonFieldError (message : string).

Inductive exn :=
  | DoesNotExist
  | AttributeError
  | Invalid (e : ValidationError).

Inductive result (A : Type) :=
  | Ok (a : A)
  | Raise (e : exn).
Arguments Ok {A} a.
Arguments Raise {A} e.

Inductive MenuClass := MenuFromRootPage | MenuWithMenuItems.

(** A menu instance.  The three [cached_*] fields are the instance
    [__dict__] entries written by [cached_property]: [None] when the
    attribute has not been computed (or was deleted). *)
Record Menu := mkMenu {
  menu_class : MenuClass;
  pk : Z;
  max_levels : Z;
  use_specific : Z;
  root_page : option PageInstance;
  menu_item_rows : list MenuItem;
  cached_top_level_items : option (list MenuItem);
  cached_pages_for_display : option QuerySet;
  cached_page_children_dict : option (gmap string (list PageInstance))
}.

Definition with_max_levels (n : Z) (m : Menu) : Menu :=
  mkMenu (menu_class m) (pk m) n (use_specific m) (root_page m)
         (menu_item_rows m) (cached_top_level_items m)
         (cached_pages_for_display m) (cached_page_children_dict m).

Definition with_use_specific (u : Z) (m : Menu) : Menu :=
  mkMenu (menu_class m) (pk m) (max_levels m) u (root_page m)
         (menu_item_rows m) (cached_top_level_items m)
         (cached_pages_for_display m) (cached_page_children_dict m).

Definition with_menu_item_rows (rows : list MenuItem) (m : Menu) : Menu :=
  mkMenu (menu_class m) (pk m) (max_levels m) (use_specific m) (root_page m)
         rows (cached_top_level_items m)
         (cached_pages_for_display m) (cached_page_children_dict m).

Definition with_top_level_items (c : option (list MenuItem)) (m : Menu) : Menu :=
  mkMenu (menu_class m) (pk m) (max_levels m) (use_specific m) (root_page m)
         (menu_item_rows m) c
         (cached_pages_for_display m) (cached_page_children_dict m).

Definition with_pages_for_display (c : option QuerySet) (m : Menu) : Menu :=
  mkMenu (menu_class m) (pk m) (max_levels m) (use_specific m) (root_page m)
         (menu_item_rows m) (cached_top_level_items m)
         c (cached_page_children_dict m).

Definition with_page_children_dict
    (c : option (gmap string (list PageInstance))) (m : Menu) : Menu :=
  mkMenu (menu_class m) (pk m) (max_levels m) (use_specific m) (root_page m)
         (menu_item_rows m) (cached_top_level_items m)
         (cached_pages_for_display m) c.

Definition M (A : Type) : Type := Menu -> result (A * Menu).

Definition ret {A} (a : A) : M A := fun m => Ok (a, m).

Definition bind {A B} (c : M A) (k : A -> M B) : M B :=
  fun m =>
    match c m with
    | Ok (a, m') => k a m'
    | Raise e => Raise e
    end.

Definition raise {A} (e : exn) : M A := fun _ => Raise e.

Definition get_self : M Menu := fun m => Ok (m, m).

Definition lift {A} (r : result A) : M A :=
  fun m =>
    match r with
    | Ok a => Ok (a, m)
    | Raise e => Raise e
    end.

Notation "x <- c ;; k" := (bind c (fun x => k))
  (at level 100, c at next level, right associativity).

(** [django.utils.functional.cached_property]: the stored value if the
    instance has one, otherwise compute, store and return. *)
Definition cached_property {A}
    (slot : Menu -> option A) (store : option A -> Menu -> Menu)
    (compute : M A) : M A :=
  fun m =>
    match slot m with
    | Some v => Ok (v, m)
    | None =>
        match compute m with
        | Ok (v, m') => Ok (v, store (Some v) m')
        | Raise e => Raise e
        end
    end.

Definition rbind {A B} (r : result A) (k : A -> result B) : result B :=
  match r with
  | Ok a => k a
  | Raise e => Raise e
  end.

Notation "x <-- r ;; k" := (rbind r (fun x => k))
  (at level 100, r at next level, right associativity).

(** Python's [s[:-n]]: everything but the last [n] characters; the empty
    string when [n] is 0 or exceeds the length. *)
Definition slice_to_minus (n : nat) (s : string) : string :=
  match n with
  | O => ""
  | _ => String.substring 0 (String.length s - n) s
  end.

(** ** Flat menus and sites *)

Record Site := mkSite {
  site_pk : Z;
  hostname : string;
  is_default_site : bool
}.

Record FlatMenu := mkFlatMenu {
  fm_pk : Z;
  site : Site;
  title : string;
  handle : string
}.

(** [QuerySet.first()] on an unordered queryset: the row with the least
    primary key, [None] when there is no row. *)
Definition first (l : list FlatMenu) : option FlatMenu :=
  fold_right
    (fun x acc =>
       match acc with
       | None => Some x
       | Some y => if fm_pk x <=? fm_pk y then Some x else Some y
       end) None l.

Section FlatMenus.

(** The rows behind [cls.objects]. *)
Variable objects : list FlatMenu.

Definition get_for_site (handle_ : string) (site_ : Site)
    (fall_back_to_default_site_menus : bool) : option FlatMenu :=
  let menu :=
    first (List.filter
             (fun fm => String.eqb (handle fm) handle_
                        && (site_pk (site fm) =? site_pk site_)) objects) in
  if match menu with None => true | Some _ => false end
     && fall_back_to_default_site_menus
     && negb (is_default_site site_)
  then
    first (List.filter
             (fun fm => String.eqb (handle fm) handle_
                        && is_default_site (site fm)) objects)
  else menu.

End FlatMenus.

(** ** The environment of a menu instance

    What the methods read besides the instance: the page table, the
    functions registered for the two hooks, and the parts of the package that
    the modelled modules import ([managers.MenuItemManager.for_display],
    [app_settings.SECTION_ROOT_DEPTH], and treebeard's [steplen]). *)
Record Env := mkEnv {
  tbl : list Page;
  page_hooks : list (Menu -> QuerySet -> QuerySet);
  menuitem_hooks : list (Menu -> list MenuItem -> list MenuItem);
  for_display : list MenuItem -> list MenuItem;
  SECTION_ROOT_DEPTH : Z;
  steplen : nat
}.

Section Menus.

Variable E : Env.

(** *** class Menu *)

Definition clear_page_cache (m : Menu) : Menu :=
  with_page_children_dict None (with_pages_for_display None m).

Definition get_base_page_queryset (m : Menu) : QuerySet :=
  fold_left (fun qs hook => hook m qs) (page_hooks E)
    (qs_filter (fun p => live p && negb (expired p) && show_in_menus p)
               Page_objects).

Definition set_max_levels (n : Z) (m : Menu) : Menu :=
  if negb (max_levels m =? n)
  then clear_page_cache (with_max_levels n m)
  else m.

Definition set_use_specific (u : Z) (m : Menu) : Menu :=
  if negb (use_specific m =? u) then
    let m1 :=
      if (USE_SPECIFIC_TOP_LEVEL <=? u)
         && (use_specific m <? USE_SPECIFIC_TOP_LEVEL)
      then with_top_level_items None (clear_page_cache m)
      else m in
    with_use_specific u m1
  else m.

(** *** class MenuItem: the [link_page] descriptor

    The related object cached on the item if there is one; otherwise
    [None] for a null foreign key, and a fetch by primary key that raises
    [DoesNotExist] when the table has no such row. *)
Definition item_link_page (item : MenuItem) : result (option PageInstance) :=
  match link_page item with
  | Some pg => Ok (Some pg)
  | None =>
      match link_page_id item with
      | None => Ok None
      | Some i =>
          match List.find (fun p => page_id p =? i) (tbl E) with
          | Some p => Ok (Some (instantiate false p))
          | None => Raise DoesNotExist
          end
      end
  end.

(** *** class MenuWithMenuItems *)

Definition get_base_menuitem_queryset (m : Menu) : list MenuItem :=
  fold_left (fun qs hook => hook m qs) (menuitem_hooks E)
    (for_display E (menu_item_rows m)).

(** [id__in=menu_items.values_list('link_page_id', flat=True)] *)
Definition id_in (ids : list (option Z)) (p : Page) : bool :=
  existsb (fun o => match o with
                    | Some i => page_id p =? i
                    | None => false
                    end) ids.

(** [{p.id: p for p in top_level_pages}] *)
Definition pages_dict_of (pages : list PageInstance) : gmap Z PageInstance :=
  fold_left (fun d p => <[page_id (row p) := p]> d) pages ∅.

Definition top_level_items_loop (pages_dict : gmap Z PageInstance)
    (menu_items : list MenuItem) : list MenuItem :=
  fold_left
    (fun menu_item_list item =>
       if negb (truthy_id (link_page_id item)) then menu_item_list ++ [item]
       else
         match link_page_id item with
         | Some i =>
             match pages_dict !! i with
             | Some pg => menu_item_list ++ [set_link_page pg item]
             | None => menu_item_list
             end
         | None => menu_item_list
         end)
    menu_items [].

Definition top_level_pages (m : Menu) : QuerySet :=
  let menu_items := get_base_menuitem_queryset m in
  let pages :=
    qs_filter (id_in (link_page_id <$> menu_items))
              (get_base_page_queryset m) in
  if USE_SPECIFIC_TOP_LEVEL <=? use_specific m then specific pages else pages.

Definition get_top_level_items (m : Menu) : list MenuItem :=
  let menu_items := get_base_menuitem_queryset m in
  let pages_dict := pages_dict_of (evaluate (tbl E) (top_level_pages m)) in
  top_level_items_loop pages_dict menu_items.

Definition top_level_items : M (list MenuItem) :=
  cached_property cached_top_level_items with_top_level_items
    (self <- get_self ;; ret (get_top_level_items self)).

(** [Page.objects.filter(depth__gt=page_depth,
      depth__lt=page_depth + self.max_levels, path__startswith=...)] *)
Definition branch (page_depth levels : Z) (pth : string) : QuerySet :=
  qs_filter (fun p => (page_depth <? depth p)
                      && (depth p <? page_depth + levels)
                      && String.prefix pth (path p))
            Page_objects.

Fixpoint pages_loop (levels : Z) (items : list MenuItem)
    (all_pages : QuerySet) : result QuerySet :=
  match items with
  | [] => Ok all_pages
  | item :: rest =>
      if truthy_id (link_page_id item) then
        lp <-- item_link_page item ;;
        match lp with
        | None => Raise AttributeError
        | Some pg =>
            let page_depth := depth (row pg) in
            if allow_subnav item && (SECTION_ROOT_DEPTH E <=? page_depth)
            then pages_loop levels rest
                   (qs_or all_pages (branch page_depth levels (path (row pg))))
            else pages_loop levels rest all_pages
        end
      else pages_loop levels rest all_pages
  end.

Definition MenuWithMenuItems_get_pages_for_display : M QuerySet :=
  self <- get_self ;;
  let all_pages := Page_objects_none in
  if max_levels self =? 1 then ret all_pages
  else
    items <- top_level_items ;;
    all_pages <- lift (pages_loop (max_levels self) items all_pages) ;;
    self <- get_self ;;
    let all_pages := qs_and all_pages (get_base_page_queryset self) in
    if use_specific self =? USE_SPECIFIC_ALWAYS
    then ret (specific all_pages)
    else ret all_pages.

(** [item_class(menu=self, link_page=p, sort_order=i,
                allow_subnav=allow_subnav)]; the other fields take their
    defaults. *)
Definition item_class (self : Menu) (p : PageInstance) (i : Z)
    (allow_subnav_ : bool) : MenuItem :=
  mkItem (Some (pk self)) (Some (page_id (row p))) (Some p) None "" ""
         allow_subnav_ (Some i).

Fixpoint add_menu_items_loop (self : Menu) (allow_subnav_ : bool)
    (pages : list PageInstance) (i : Z) (item_list : list MenuItem)
    : list MenuItem :=
  match pages with
  | [] => item_list
  | p :: rest =>
      add_menu_items_loop self allow_subnav_ rest (i + 1)
        (item_list ++ [item_class self p i allow_subnav_])
  end.

(** [item_manager.count()] is the number of rows of this menu, and
    [bulk_create] inserts the new rows after them. *)
Definition add_menu_items_for_pages (pagequeryset : QuerySet)
    (allow_subnav_ : bool) : M unit :=
  self <- get_self ;;
  let item_manager := menu_item_rows self in
  let i := Z.of_nat (length item_manager) in
  let item_list :=
    add_menu_items_loop self allow_subnav_
      (evaluate (tbl E) pagequeryset) i [] in
  fun m => Ok (tt, with_menu_item_rows (item_manager ++ item_list) m).

(** *** class MenuFromRootPage *)

Definition MenuFromRootPage_get_pages_for_display : M QuerySet :=
  self <- get_self ;;
  match root_page self with
  | None => raise AttributeError
  | Some root =>
      let pages :=
        qs_filter
          (fun p => (depth (row root) <? depth p)
                    && (depth p <=? depth (row root) + max_levels self)
                    && String.prefix (path (row root)) (path p))
          (get_base_page_queryset self) in
      if use_specific self =? USE_SPECIFIC_ALWAYS
      then ret (specific pages)
      else ret pages
  end.

(** *** The cached properties and the lookups built on them *)

Definition get_pages_for_display : M QuerySet :=
  self <- get_self ;;
  match menu_class self with
  | MenuFromRootPage => MenuFromRootPage_get_pages_for_display
  | MenuWithMenuItems => MenuWithMenuItems_get_pages_for_display
  end.

Definition pages_for_display : M QuerySet :=
  cached_property cached_pages_for_display with_pages_for_display
    get_pages_for_display.

(** [children_dict[page.path[:-page.steplen]].append(page)] on a
    [defaultdict(list)] *)
Definition children_dict_of (pages : list PageInstance)
    : gmap string (list PageInstance) :=
  fold_left
    (fun d page =>
       let k := slice_to_minus (steplen E) (path (row page)) in
       <[k := default [] (d !! k) ++ [page]]> d)
    pages ∅.

Definition page_children_dict : M (gmap string (list PageInstance)) :=
  cached_property cached_page_children_dict with_page_children_dict
    (qs <- pages_for_display ;;
     ret (children_dict_of (evaluate (tbl E) qs))).

(** [self.page_children_dict.get(page.path, [])] *)
Definition Menu_get_children_for_page (page : PageInstance)
    : M (list PageInstance) :=
  d <- page_children_dict ;;
  ret (default [] (d !! path (row page))).

(** [page.path in self.page_children_dict] *)
Definition page_has_children (page : PageInstance) : M bool :=
  d <- page_children_dict ;;
  ret (bool_decide (is_Some (d !! path (row page)))).

(** The override returns the queryset itself, which the caller iterates. *)
Definition MenuFromRootPage_get_children_for_page (page : PageInstance)
    : M (list PageInstance) :=
  self <- get_self ;;
  if max_levels self =? 1 then
    qs <- pages_for_display ;;
    ret (evaluate (tbl E) qs)
  else Menu_get_children_for_page page.

Definition get_children_for_page (page : PageInstance)
    : M (list PageInstance) :=
  self <- get_self ;;
  match menu_class self with
  | MenuFromRootPage => MenuFromRootPage_get_children_for_page page
  | MenuWithMenuItems => Menu_get_children_for_page page
  end.

(** *** MenuItem.clean (models.py) *)

Definition clean (item : MenuItem) : result unit :=
  _ <-- (if truthy_ostr (link_url item) && negb (truthy_str (link_text item))
         then Raise (Invalid (FieldErrors
                [("link_text",
                  ["This must be set if you're linking to a custom URL."])]))
         else Ok tt) ;;
  no_target <-- (if negb (truthy_ostr (link_url item))
                 then lp <-- item_link_page item ;;
                      Ok (negb (bool_decide (is_Some lp)))
                 else Ok false) ;;
  _ <-- (if no_target : bool
         then Raise (Invalid (FieldErrors
                [("link_url",
                  ["This must be set if you're not linking to a page."])]))
         else Ok tt) ;;
  both <-- (if truthy_ostr (link_url item)
            then lp <-- item_link_page item ;;
                 Ok (bool_decide (is_Some lp))
            else Ok false) ;;
  if both : bool
  then Raise (Invalid (NonFieldError
         "You cannot link to both a page and URL. Please review your link and clear any unwanted values."))
  else Ok tt.

End Menus.

(** ** A small site used to run the definitions

    A home page with two sections; "about" has two children and a
    grandchild, "news" is not shown in menus, "contact" is a leaf. *)

Definition pg_home : Page := mkPage 2 "00010001" 2 true false true.
Definition pg_about : Page := mkPage 3 "000100010001" 3 true false true.
Definition pg_team : Page := mkPage 4 "0001000100010001" 4 true false true.
Definition pg_history : Page := mkPage 5 "0001000100010002" 4 true false true.
Definition pg_founder : Page := mkPage 6 "00010001000100020001" 5 true false true.
Definition pg_news : Page := mkPage 7 "000100010002" 3 true false false.
Definition pg_contact : Page := mkPage 8 "000100010003" 3 true false true.

Definition site_pages : list Page :=
  [pg_home; pg_about; pg_team; pg_history; pg_founder; pg_news; pg_contact].

Definition env0 : Env :=
  mkEnv site_pages [] [] (fun rows => rows) 3 4.

Definition page_item (i : Z) (sub : bool) (ord : Z) : MenuItem :=
  mkItem (Some 1) (Some i) None None "" "" sub (Some ord).

Definition url_item (url text : string) (ord : Z) : MenuItem :=
  mkItem (Some 1) None None (Some url) text "" false (Some ord).

Definition main_rows : list MenuItem :=
  [page_item 2 true 0; page_item 3 true 1; page_item 7 true 2;
   url_item "https://example.org/" "Elsewhere" 3; page_item 8 false 4].

(** A main menu as [MainMenu.objects.get] returns it: nothing cached. *)
Definition main_menu (levels spec : Z) : Menu :=
  mkMenu MenuWithMenuItems 1 levels spec None main_rows None None None.

(** A children menu as [ChildrenMenu(root_page, max_levels, use_specific)]
    builds it. *)
Definition children_menu (root : Page) (levels spec : Z) : Menu :=
  mkMenu MenuFromRootPage 0 levels spec (Some (instantiate false root)) []
         None None None.

(** The instance after a method ran, for runs that do not raise. *)
Definition state_after {A} (c : M A) (m : Menu) : Menu :=
  match c m with
  | Ok (_, m') => m'
  | Raise _ => m
  end.

Definition value_of {A} (c : M A) (m : Menu) : option A :=
  match c m with
  | Ok (a, _) => Some a
  | Raise _ => None
  end.

Definition site_a : Site := mkSite 1 "a.example" true.
Definition site_b : Site := mkSite 2 "b.example" false.

Definition flat_rows : list FlatMenu :=
  [mkFlatMenu 1 site_a "Footer" "footer";
   mkFlatMenu 2 site_a "Contact" "contact";
   mkFlatMenu 3 site_b "Footer" "footer"].


(** ** The per-item rule of [top_level_items], as the specification words it

    An item without a linked page is kept as it is; an item whose linked page
    id is not a key of the resolved map is dropped; any other item gets the
    resolved page as its [link_page].  "Without a linked page" is the test of
    the source, [not item.link_page_id]: a null key (or the key 0, which no
    row has). *)
Definition resolve_item (pages_dict : gmap Z PageInstance) (item : MenuItem)
    : option MenuItem :=
  match link_page_id item with
  | None => Some item
  | Some i =>
      if i =? 0 then Some item
      else
        match pages_dict !! i with
        | None => None
        | Some pg => Some (set_link_page pg item)
        end
  end.

Section Branches.

Variable E : Env.

(** The pages one top-level item brings in: the item allows a sub-menu,
    its page [pg] lies at or below the section root depth, and [p] is
    below [pg] in the tree within the depth range. *)
Definition contributes (levels : Z) (item : MenuItem) (pg : PageInstance)
    (p : Page) : Prop :=
  truthy_id (link_page_id item) = true /\
  item_link_page E item = Ok (Some pg) /\
  allow_subnav item = true /\
  SECTION_ROOT_DEPTH E <= depth (row pg) /\
  depth (row pg) < depth p < depth (row pg) + levels /\
  String.prefix (path (row pg)) (path p) = true.

Definition pages_readable (items : list MenuItem) : Prop :=
  forall item, In item items -> truthy_id (link_page_id item) = true ->
    exists pg, item_link_page E item = Ok (Some pg).

End Branches.

(** ** Statements the properties below refer to *)

(** "With [max_levels] 1 nothing is displayed below the top level": every
    read of [pages_for_display] selects no page and every
    [get_children_for_page] is empty. *)
Definition max_levels_one_means_empty (E : Env) (m : Menu) : Prop :=
  max_levels m = 1 ->
  (forall qs m', pages_for_display E m = Ok (qs, m') ->
     evaluate (tbl E) qs = []) /\
  (forall page children m',
     get_children_for_page E page m = Ok (children, m') -> children = []).

(** Where the source asks for specific pages: [top_level_items] when
    [use_specific >= TOP_LEVEL], [get_pages_for_display] when
    [use_specific == ALWAYS].  A new value newly requires specific resolution
    when one of the two collections needs it under the new value and did not
    under the old one. *)
Definition top_level_items_need_specific (u : Z) : bool :=
  USE_SPECIFIC_TOP_LEVEL <=? u.

Definition pages_need_specific (u : Z) : bool :=
  u =? USE_SPECIFIC_ALWAYS.

Definition newly_requires_specific (old new : Z) : bool :=
  (top_level_items_need_specific new && negb (top_level_items_need_specific old))
  || (pages_need_specific new && negb (pages_need_specific old)).

(** An instance that can compute its collections: no top-level items cached
    by hand, and a root page if the menu is built from one. *)
Definition computable (m : Menu) : Prop :=
  cached_top_level_items m = None /\
  (menu_class m = MenuFromRootPage -> is_Some (root_page m)).

(** ** Instances of the example site after some reads *)

(** The main menu (AUTO, two levels) after its children index was read:
    all three collections are cached. *)
Definition main_menu_read : Menu :=
  state_after (page_children_dict env0) (main_menu 2 USE_SPECIFIC_AUTO).

(** The same menu raised to TOP_LEVEL and read again. *)
Definition main_menu_specific : Menu :=
  state_after (page_children_dict env0)
    (set_use_specific USE_SPECIFIC_TOP_LEVEL main_menu_read).

(** A main menu stored with TOP_LEVEL, after its children index was read. *)
Definition main_menu_top_read : Menu :=
  state_after (page_children_dict env0) (main_menu 2 USE_SPECIFIC_TOP_LEVEL).

Definition main_menu_deep : Menu := main_menu 3 USE_SPECIFIC_AUTO.

Definition main_menu_deep_index : gmap string (list PageInstance) :=
  default ∅ (value_of (page_children_dict env0) main_menu_deep).

Definition main_menu_deep_read : Menu :=
  state_after (page_children_dict env0) main_menu_deep.

Definition about_children : Menu := children_menu pg_about 1 USE_SPECIFIC_AUTO.

(** An item with both a page and a URL, and one with a URL but no text. *)
Definition both_item : MenuItem :=
  mkItem (Some 1) (Some 3) (Some (instantiate false pg_about))
         (Some "https://example.org/") "About" "" false (Some 0).

Definition untitled_item : MenuItem := url_item "https://example.org/" "" 0.

Definition empty_item : MenuItem :=
  mkItem (Some 1) None None None "" "" false (Some 0).

(** ** Notions used by the further properties *)

(** A page as [get_base_page_queryset] wants it before any hook runs. *)
Definition visible (p : Page) : Prop :=
  live p = true /\ expired p = false /\ show_in_menus p = true.

(** Every function registered for 'menus_modify_base_page_queryset' only
    narrows the queryset it is given. *)
Definition hooks_narrow (E : Env) : Prop :=
  Forall (fun hook : Menu -> QuerySet -> QuerySet =>
            forall m qs p, qs_where (hook m qs) p = true -> qs_where qs p = true)
         (page_hooks E).

(** ** AbstractFlatMenu.clean *)

(** A flat menu object under validation; [self_pk] is [None] until the
    object has been saved. *)
Record FlatMenuObject := mkFlatMenuObject {
  self_pk : option Z;
  self_site : Site;
  self_title : string;
  self_handle : string
}.

(** A stored row seen as an object. *)
Definition stored (fm : FlatMenu) : FlatMenuObject :=
  mkFlatMenuObject (Some (fm_pk fm)) (site fm) (title fm) (handle fm).

(** The row written when an object is saved under primary key [k]. *)
Definition row_of (k : Z) (self : FlatMenuObject) : FlatMenu :=
  mkFlatMenu k (self_site self) (self_title self) (self_handle self).

Definition unique_message : string :=
  "Site and handle must create a unique combination. A menu already exists with these same two values.".

Definition AbstractFlatMenu_clean (objects : list FlatMenu)
    (self : FlatMenuObject) : result unit :=
  let clashes :=
    List.filter
      (fun fm => (site_pk (site fm) =? site_pk (self_site self))
                 && String.eqb (handle fm) (self_handle self)) objects in
  let clashes :=
    if truthy_id (self_pk self) then
      match self_pk self with
      | Some k => List.filter (fun fm => negb (fm_pk fm =? k)) clashes
      | None => clashes
      end
    else clashes in
  match clashes with
  | _ :: _ =>
      Raise (Invalid (FieldErrors
        [("site", [unique_message]); ("handle", [unique_message])]))
  | [] => Ok tt
  end.

(** The constraint [unique_together = ("site", "handle")] on a table. *)
Definition unique_together (objects : list FlatMenu) : Prop :=
  forall (i j : nat) (a b : FlatMenu),
    objects !! i = Some a -> objects !! j = Some b ->
    site_pk (site a) = site_pk (site b) -> handle a = handle b -> i = j.

(** ** Python values

    The values that flow through the untyped parts of the code: attribute
    values set with [setattr], query arguments, keyword arguments. *)
Inductive PyVal :=
  | PyNone
  | PyBool (b : bool)
  | PyInt (z : Z)
  | PyStr (s : string).

(** Key equality of Python dictionaries: [True == 1] and [False == 0] (with
    equal hashes), strings equal strings, nothing else mixes. *)
Definition py_eq (a b : PyVal) : bool :=
  match a, b with
  | PyNone, PyNone => true
  | PyBool x, PyBool y => Bool.eqb x y
  | PyBool x, PyInt z | PyInt z, PyBool x => z =? (if x then 1 else 0)
  | PyInt x, PyInt y => x =? y
  | PyStr s, PyStr t => String.eqb s t
  | _, _ => false
  end.

(** A dictionary with such keys, in insertion order.  [d[k] = v] replaces
    the value of an equal key and otherwise appends; a dictionary display
    assigns its items from left to right. *)
Fixpoint py_setitem {V} (k : PyVal) (v : V) (d : list (PyVal * V))
    : list (PyVal * V) :=
  match d with
  | [] => [(k, v)]
  | (k', v') :: rest =>
      if py_eq k' k then (k', v) :: rest else (k', v') :: py_setitem k v rest
  end.

Definition py_dict {V} (items : list (PyVal * V)) : list (PyVal * V) :=
  fold_left (fun d kv => py_setitem (fst kv) (snd kv) d) items [].

Fixpoint py_get {V} (d : list (PyVal * V)) (k : PyVal) : option V :=
  match d with
  | [] => None
  | (k', v) :: rest => if py_eq k' k then Some v else py_get rest k
  end.

(** ** models.py *)

(** [create_page_map_from_qs]: one pass over the pages, filling a map by
    primary key and a [defaultdict(list)] by parent path. *)
Definition create_page_map_from_qs (steplen_ : nat) (page_qs : list PageInstance)
    : gmap Z PageInstance * gmap string (list PageInstance) :=
  fold_left
    (fun (acc : gmap Z PageInstance * gmap string (list PageInstance)) page =>
       let pages := <[page_id (row page) := page]> (fst acc) in
       let k := slice_to_minus steplen_ (path (row page)) in
       let pages_children :=
         <[k := default [] (snd acc !! k) ++ [page]]> (snd acc) in
       (pages, pages_children))
    page_qs (∅, ∅).




Section MenuPages.

(** [Page.relative_url] and [app_settings.ACTIVE_CLASS] *)
Variable relative_url : Page -> Site -> string.
Variable ACTIVE_CLASS : string.



End MenuPages.

Section ModelsMenu.

Variable E : Env.

(** The [title] column of a page. *)
Variable page_title : Page -> string.

(** [MenuItem.menu_text], which is also [MenuItem.__str__] *)
Definition menu_text (item : MenuItem) : result string :=
  lp <-- item_link_page E item ;;
  match lp with
  | Some pg =>
      Ok (if truthy_str (link_text item) then link_text item
          else page_title (row pg))
  | None => Ok (link_text item)
  end.

(** One row of [menu_items.page_links_for_display().values('allow_subnav',
    'link_page__path', 'link_page__depth')] *)
Record LinkValues := mkLinkValues {
  v_allow_subnav : bool;
  v_path : string;
  v_depth : Z
}.

(** [Menu.get_all_pages] of models.py, over the rows of the values query *)
Definition get_all_pages (links : list LinkValues) (max_levels_ : Z)
    (use_specific_ : bool) : QuerySet :=
  let tree_pages :=
    fold_left
      (fun tree_pages item =>
         let page_path := v_path item in
         let page_depth := v_depth item in
         let branch_pages :=
           if v_allow_subnav item && (SECTION_ROOT_DEPTH E <=? page_depth)
           then qs_filter
                  (fun p => String.prefix page_path (path p)
                            && (depth p <=? page_depth + (max_levels_ - 1)))
                  Page_objects
           else qs_filter (fun p => String.eqb (path p) page_path) Page_objects in
         qs_or tree_pages branch_pages)
      links Page_objects_none in
  let tree_pages :=
    qs_filter (fun p => live p && negb (expired p) && show_in_menus p)
              tree_pages in
  if use_specific_ then specific tree_pages else tree_pages.

Definition get_page_map (links : list LinkValues) (max_levels_ : Z)
    (use_specific_ : bool)
    : gmap Z PageInstance * gmap string (list PageInstance) :=
  let page_qs := get_all_pages links max_levels_ use_specific_ in
  create_page_map_from_qs (steplen E) (evaluate (tbl E) page_qs).

End ModelsMenu.

Section AllPagesSelection.

Variable E : Env.

(** What one link contributes to [get_all_pages]: its branch down to the
    depth limit if it allows a sub-menu and lies at the section root depth or
    below, and otherwise just the page with its path. *)
Definition link_selects (n : Z) (item : LinkValues) (p : Page) : Prop :=
  (v_allow_subnav item = true /\ SECTION_ROOT_DEPTH E <= v_depth item /\
   String.prefix (v_path item) (path p) = true /\
   depth p <= v_depth item + (n - 1))
  \/ ((v_allow_subnav item = false \/ v_depth item < SECTION_ROOT_DEPTH E) /\
      path p = v_path item).

End AllPagesSelection.

(** ** api/v1/form_fields.py *)

(** [JavascriptStyleBooleanSelect.format_value]: a lookup in a dictionary
    display, with the empty string on [KeyError]. *)
Definition format_value (value : PyVal) : string :=
  match
    py_get
      (py_dict
         [(PyBool true, "true"); (PyBool false, "false");
          (PyStr "True", "true"); (PyStr "False", "false");
          (PyStr "true", "true"); (PyStr "false", "false");
          (PyInt 1, "true"); (PyInt 0, "false");
          (PyStr "1", "true"); (PyStr "0", "false")])
      value
  with
  | Some s => s
  | None => ""
  end.

(** [JavascriptStyleBooleanSelect.value_from_datadict]; [data.get(name)] is
    [None] for a missing name. *)
Definition value_from_datadict (data : gmap string PyVal) (name : string)
    : option bool :=
  let value := default PyNone (data !! name) in
  py_get
    (py_dict
       [(PyBool true, true); (PyBool false, false);
        (PyStr "True", true); (PyStr "False", false);
        (PyStr "true", true); (PyStr "false", false);
        (PyStr "1", true); (PyStr "0", false)])
    value.

(** [BooleanChoiceField.clean] *)
Definition BooleanChoiceField_clean (value : option bool) : result bool :=
  match value with
  | None =>
      Raise (Invalid (NonFieldError "This value must be 'true' or 'false'"))
  | Some b => Ok b
  end.

(** Python's [needle in haystack] on strings *)
Fixpoint py_str_in (needle hay : string) : bool :=
  String.prefix needle hay
  || match hay with
     | EmptyString => false
     | String _ rest => py_str_in needle rest
     end.

Section ChoiceFields.

(** The values keyword arguments take here. *)
Variable V : Type.

(** [PageChoiceField.__init__] and [SiteChoiceField.__init__]: the keyword
    arguments handed to [ModelChoiceField.__init__]; [objects_none] is
    [Page.objects.none()], respectively [Site.objects.none()]. *)
Definition ModelChoiceField_kwargs (objects_none : V) (kwargs : gmap string V)
    : gmap string V :=
  if negb (py_str_in "queryset" "kwargs")
  then <["queryset" := objects_none]> kwargs
  else kwargs.

End ChoiceFields.

(** Values of the keyword arguments of the typed choice fields: plain
    values, tuples of (value, label) pairs, and the builtin [int]. *)
#[warnings="-register-all"] Inductive FieldArg :=
  | ArgValue (v : PyVal)
  | ArgChoices (choices : list (FieldArg * FieldArg))
  | ArgCoerceInt.

(** [UseSpecificChoiceField.__init__] and [MaxLevelsChoiceField.__init__],
    which differ in the choices constant and the help text: the keyword
    arguments handed to [TypedChoiceField.__init__]. *)
Definition TypedChoiceField_kwargs (CHOICES : list (FieldArg * FieldArg))
    (help_text : string) (kwargs : gmap string FieldArg)
    : gmap string FieldArg :=
  let empty_label := default (ArgValue (PyStr "-----")) (kwargs !! "empty_label") in
  let kwargs := delete "empty_label" kwargs in
  let choices := (ArgValue (PyStr ""), empty_label) :: CHOICES in
  let defaults : list (string * FieldArg) :=
    [("choices", ArgChoices choices); ("coerce", ArgCoerceInt);
     ("empty_value", ArgValue PyNone);
     ("help_text", ArgValue (PyStr help_text))] in
  fold_left
    (fun kw kv => <[fst kv := snd kv]> kw)
    (List.filter (fun kv => negb (bool_decide (is_Some (kwargs !! fst kv))))
                 defaults)
    kwargs.

(** ** api/v1/views.py *)

Record MenuGeneratorView := mkView {
  max_levels_default : PyVal;
  use_specific_default : PyVal;
  apply_active_classes_default : PyVal;
  allow_repeating_parents_default : PyVal;
  use_absolute_page_urls_default : PyVal;
  (** [None] on the classes that do not define it *)
  fall_back_to_default_site_menus_default : option PyVal
}.

(** [MenuGeneratorView.get_argument_form_defaults], with the override of
    [FlatMenuGeneratorView] *)
Definition get_argument_form_defaults (self : MenuGeneratorView)
    : gmap string PyVal :=
  let initial : gmap string PyVal :=
    <["use_absolute_page_urls" := use_absolute_page_urls_default self]>
    (<["allow_repeating_parents" := allow_repeating_parents_default self]>
    (<["apply_active_classes" := apply_active_classes_default self]>
    (<["use_specific" := use_specific_default self]>
    (<["max_levels" := max_levels_default self]> ∅)))) in
  match fall_back_to_default_site_menus_default self with
  | Some v => <["fall_back_to_default_site_menus" := v]> initial
  | None => initial
  end.

(** The ['data'] entry of [get_argument_form_kwargs]:
    [defaults.copy()] updated with [request.GET.items()] *)
Definition get_argument_form_data (self : MenuGeneratorView)
    (GET_items : list (string * string)) : gmap string PyVal :=
  let defaults := get_argument_form_defaults self in
  fold_left (fun data kv => <[fst kv := PyStr (snd kv)]> data) GET_items defaults.

Section ViewClasses.

(** [settings.DEFAULT_CHILDREN_MENU_MAX_LEVELS] and the like *)
Variables DEFAULT_CHILDREN_MENU_MAX_LEVELS DEFAULT_CHILDREN_MENU_USE_SPECIFIC
          DEFAULT_SECTION_MENU_MAX_LEVELS DEFAULT_SECTION_MENU_USE_SPECIFIC : PyVal.

Definition MainMenuGeneratorView : MenuGeneratorView :=
  mkView PyNone PyNone (PyBool true) (PyBool true) (PyBool false) None.

Definition FlatMenuGeneratorView : MenuGeneratorView :=
  mkView PyNone PyNone (PyBool true) (PyBool true) (PyBool false)
         (Some (PyBool true)).

Definition ChildrenMenuGeneratorView : MenuGeneratorView :=
  mkView DEFAULT_CHILDREN_MENU_MAX_LEVELS DEFAULT_CHILDREN_MENU_USE_SPECIFIC
         (PyBool false) (PyBool true) (PyBool false) None.

Definition SectionMenuGeneratorView : MenuGeneratorView :=
  mkView DEFAULT_SECTION_MENU_MAX_LEVELS DEFAULT_SECTION_MENU_USE_SPECIFIC
         (PyBool true) (PyBool true) (PyBool false) None.

End ViewClasses.

Inductive view_exn :=
  | KeyError (key : string)
  | NotFound.

Inductive outcome (A : Type) :=
  | Returned (a : A)
  | Raised (e : view_exn).
Arguments Returned {A} a.
Arguments Raised {A} e.

Section MenuInstance.

(** Cleaned form values, with the three constants the method uses, the
    request, and the menu objects. *)
Variables (V Req Obj : Type) (v_None v_True v_empty_tuple : V).

Record DummyContext := mkDummyContext {
  ctx_request : Req;
  ctx_current_site : V;
  ctx_current_page : V;
  ctx_section_root : V;
  ctx_current_page_ancestor_ids : V
}.

(** [cls._get_render_prepared_object(dummy_context, **data)], where [cls]
    is the [menu_class] of the view; each of the four views sets one, so
    [get_menu_class] returns it. *)
Variable get_render_prepared_object : DummyContext -> gmap string V -> option Obj.

Definition get_menu_instance (request : Req) (cleaned_data : gmap string V)
    : outcome Obj :=
  let data := cleaned_data in
  match data !! "site" with
  | None => Raised (KeyError "site")
  | Some site_ =>
      let data := delete "site" data in
      let current_page := default v_None (data !! "current_page") in
      let data := delete "current_page" data in
      let section_root := default v_None (data !! "section_root_page") in
      let data := delete "section_root_page" data in
      let ancestor_ids := default v_empty_tuple (data !! "ancestor_page_ids") in
      let data := delete "ancestor_page_ids" data in
      let dummy_context :=
        mkDummyContext request site_ current_page section_root ancestor_ids in
      let data := <["add_sub_menus_inline" := v_True]> data in
      match get_render_prepared_object dummy_context data with
      | None => Raised NotFound
      | Some menu_instance => Returned menu_instance
      end
  end.

End MenuInstance.

(** ** Template names (models/menus.py)

    [site] is what [get_site_from_request(request, fallback_to_default=True)]
    gives; the other parameters are the class attributes and settings the
    methods read. *)

Definition get_template_names (SITE_SPECIFIC_TEMPLATE_DIRS : bool)
    (site_ : option Site) (menu_short_name least_specific : string)
    : list string :=
  let template_names : list string := [] in
  let menu_str := menu_short_name in
  let template_names :=
    if SITE_SPECIFIC_TEMPLATE_DIRS then
      match site_ with
      | Some s =>
          let hostname_ := hostname s in
          template_names ++
          ["menus/" +:+ hostname_ +:+ "/" +:+ menu_str +:+ "/menu.html";
           "menus/" +:+ hostname_ +:+ "/" +:+ menu_str +:+ "_menu.html"]
      | None => template_names
      end
    else template_names in
  template_names ++
  ["menus/" +:+ menu_str +:+ "/menu.html"; least_specific].

Definition get_sub_menu_template_names (SITE_SPECIFIC_TEMPLATE_DIRS : bool)
    (site_ : option Site) (menu_short_name least_specific_sub_menu : string)
    : list string :=
  let template_names : list string := [] in
  let menu_str := menu_short_name in
  let template_names :=
    if SITE_SPECIFIC_TEMPLATE_DIRS then
      match site_ with
      | Some s =>
          let hostname_ := hostname s in
          template_names ++
          ["menus/" +:+ hostname_ +:+ "/" +:+ menu_str +:+ "/sub_menu.html";
           "menus/" +:+ hostname_ +:+ "/" +:+ menu_str +:+ "_sub_menu.html";
           "menus/" +:+ hostname_ +:+ "/sub_menu.html"]
      | None => template_names
      end
    else template_names in
  template_names ++
  ["menus/" +:+ menu_str +:+ "/sub_menu.html";
   "menus/" +:+ menu_str +:+ "_sub_menu.html";
   least_specific_sub_menu].

Definition AbstractFlatMenu_get_template_names
    (SITE_SPECIFIC_TEMPLATE_DIRS : bool) (site_ : option Site)
    (handle_ least_specific : string) : list string :=
  let template_names : list string := [] in
  let template_names :=
    if SITE_SPECIFIC_TEMPLATE_DIRS then
      match site_ with
      | Some s =>
          let hostname_ := hostname s in
          template_names ++
          ["menus/" +:+ hostname_ +:+ "/flat/" +:+ handle_ +:+ "/menu.html";
           "menus/" +:+ hostname_ +:+ "/flat/" +:+ handle_ +:+ ".html";
           "menus/" +:+ hostname_ +:+ "/" +:+ handle_ +:+ "/menu.html";
           "menus/" +:+ hostname_ +:+ "/" +:+ handle_ +:+ ".html";
           "menus/" +:+ hostname_ +:+ "/flat/menu.html";
           "menus/" +:+ hostname_ +:+ "/flat/default.html";
           "menus/" +:+ hostname_ +:+ "/flat_menu.html"]
      | None => template_names
      end
    else template_names in
  template_names ++
  ["menus/flat/" +:+ handle_ +:+ "/menu.html";
   "menus/flat/" +:+ handle_ +:+ ".html";
   "menus/" +:+ handle_ +:+ "/menu.html";
   "menus/" +:+ handle_ +:+ ".html";
   "menus/flat/default.html";
   "menus/flat/menu.html";
   least_specific].

Definition AbstractFlatMenu_get_sub_menu_template_names
    (SITE_SPECIFIC_TEMPLATE_DIRS : bool) (site_ : option Site)
    (handle_ least_specific_sub_menu : string) : list string :=
  let template_names : list string := [] in
  let template_names :=
    if SITE_SPECIFIC_TEMPLATE_DIRS then
      match site_ with
      | Some s =>
          let hostname_ := hostname s in
          template_names ++
          ["menus/" +:+ hostname_ +:+ "/flat/" +:+ handle_ +:+ "/sub_menu.html";
           "menus/" +:+ hostname_ +:+ "/flat/" +:+ handle_ +:+ "_sub_menu.html";
           "menus/" +:+ hostname_ +:+ "/" +:+ handle_ +:+ "/sub_menu.html";
           "menus/" +:+ hostname_ +:+ "/" +:+ handle_ +:+ "_sub_menu.html";
           "menus/" +:+ hostname_ +:+ "/flat/sub_menu.html";
           "menus/" +:+ hostname_ +:+ "/sub_menu.html"]
      | None => template_names
      end
    else template_names in
  template_names ++
  ["menus/flat/" +:+ handle_ +:+ "/sub_menu.html";
   "menus/flat/" +:+ handle_ +:+ "_sub_menu.html";
   "menus/" +:+ handle_ +:+ "/sub_menu.html";
   "menus/" +:+ handle_ +:+ "_sub_menu.html";
   "menus/flat/sub_menu.html";
   least_specific_sub_menu].

(** ** More instances of the example site *)

(** The pages of the three-level main menu, and the instance after they
    were read. *)
Definition main_menu_deep_pages : QuerySet :=
  default Page_objects_none (value_of (pages_for_display env0) main_menu_deep).

Definition main_menu_deep_pages_read : Menu :=
  state_after (pages_for_display env0) main_menu_deep.

(** The main menu, fresh and after its collections were read, with an item
    added for each child of "about". *)
Definition main_menu_extended : Menu :=
  state_after (add_menu_items_for_pages env0 (branch 3 2 "000100010001") true)
              (main_menu 2 USE_SPECIFIC_AUTO).

Definition main_menu_read_extended : Menu :=
  state_after (add_menu_items_for_pages env0 (branch 3 2 "000100010001") true)
              main_menu_read.

(** A flat menu that has not been saved yet. *)
Definition new_contact_menu : FlatMenuObject :=
  mkFlatMenuObject None site_b "Contact" "contact".
(** * Properties *)

(** ** Cache slots *)

Lemma cached_property_hit {A} (slot : Menu -> option A) store compute m v :
  slot m = Some v -> cached_property slot store compute m = Ok (v, m).
Proof. intros H. unfold cached_property. now rewrite H. Qed.

Lemma cached_property_miss {A} (slot : Menu -> option A) store compute m v m' :
  slot m = None -> compute m = Ok (v, m') ->
  cached_property slot store compute m = Ok (v, store (Some v) m').
Proof. intros H1 H2. unfold cached_property. now rewrite H1, H2. Qed.

Lemma set_use_specific_same (m : Menu) (u : Z) :
  use_specific m = u -> set_use_specific u m = m.
Proof.
  intros <-. unfold set_use_specific. now rewrite Z.eqb_refl.
Qed.

(** What [set_use_specific] does for a new value, by the side of the
    TOP_LEVEL threshold the two values lie on. *)
Lemma set_use_specific_crossing (m : Menu) (u : Z) :
  use_specific m < USE_SPECIFIC_TOP_LEVEL <= u ->
  set_use_specific u m =
    with_use_specific u (with_top_level_items None (clear_page_cache m)).
Proof.
  intros [Hlo Hhi]. unfold set_use_specific.
  destruct (Z.eqb_spec (use_specific m) u) as [Heq | _]; [lia |].
  cbn [negb].
  destruct (Z.leb_spec USE_SPECIFIC_TOP_LEVEL u); [| lia].
  destruct (Z.ltb_spec (use_specific m) USE_SPECIFIC_TOP_LEVEL); [| lia].
  reflexivity.
Qed.

Lemma set_use_specific_not_crossing (m : Menu) (u : Z) :
  ~ (use_specific m < USE_SPECIFIC_TOP_LEVEL <= u) ->
  use_specific m <> u ->
  set_use_specific u m = with_use_specific u m.
Proof.
  intros Hn Hne. unfold set_use_specific.
  destruct (Z.eqb_spec (use_specific m) u) as [Heq | _]; [contradiction |].
  cbn [negb].
  destruct (Z.leb_spec USE_SPECIFIC_TOP_LEVEL u);
    destruct (Z.ltb_spec (use_specific m) USE_SPECIFIC_TOP_LEVEL);
    cbn [andb]; try reflexivity.
  exfalso. apply Hn. lia.
Qed.

(** C6: [set_max_levels] with a value other than the current one stores the
    value and deletes the cached [pages_for_display] and
    [page_children_dict]; the cached [top_level_items] and every other
    attribute of the instance stay as they were. *)
Theorem set_max_levels_frame (m : Menu) (n : Z) :
  max_levels m <> n ->
  set_max_levels n m =
    mkMenu (menu_class m) (pk m) n (use_specific m) (root_page m)
           (menu_item_rows m) (cached_top_level_items m) None None.
Proof.
  intros Hne. unfold set_max_levels.
  destruct (Z.eqb_spec (max_levels m) n) as [Heq | _]; [contradiction |].
  reflexivity.
Qed.

Section CacheInvalidation.

Variable E : Env.

(** C5: raising [use_specific] from below TOP_LEVEL to TOP_LEVEL or above
    deletes the cached [top_level_items], [pages_for_display] and
    [page_children_dict]; setting a lower value deletes nothing, and every
    collection that was cached is then read back as it was, whatever the
    page table and the hooks now are: nothing is computed again. *)
Theorem set_use_specific_invalidation (m : Menu) (new : Z) :
  (use_specific m < USE_SPECIFIC_TOP_LEVEL <= new ->
     let m' := set_use_specific new m in
     use_specific m' = new /\
     cached_top_level_items m' = None /\
     cached_pages_for_display m' = None /\
     cached_page_children_dict m' = None) /\
  (new < use_specific m ->
     let m' := set_use_specific new m in
     m' = with_use_specific new m /\
     (forall items, cached_top_level_items m = Some items ->
        top_level_items E m' = Ok (items, m')) /\
     (forall qs, cached_pages_for_display m = Some qs ->
        pages_for_display E m' = Ok (qs, m')) /\
     (forall d, cached_page_children_dict m = Some d ->
        page_children_dict E m' = Ok (d, m'))).
Proof.
  split.
  - intros H m'. subst m'. rewrite set_use_specific_crossing by exact H.
    repeat split.
  - intros H m'. subst m'.
    rewrite set_use_specific_not_crossing by lia.
    split; [reflexivity |].
    repeat split; intros v Hv; apply cached_property_hit; exact Hv.
Qed.

End CacheInvalidation.

(** ** Flat menu lookup *)

Lemma first_None (l : list FlatMenu) : first l = None <-> l = [].
Proof.
  destruct l as [| x l]; cbn; [tauto |].
  split; [| intros H; discriminate H].
  repeat case_match; intros Hx; discriminate Hx.
Qed.

Lemma filter_nil_iff {A} (f : A -> bool) (l : list A) :
  List.filter f l = [] <-> forall x, In x l -> f x = false.
Proof.
  induction l as [| a l IH]; cbn.
  - tauto.
  - destruct (f a) eqn:Ha.
    + split; [intros H; discriminate H |]. intros H.
      specialize (H a (or_introl eq_refl)).
      congruence.
    + rewrite IH. split.
      * intros H x [<- | Hx]; auto.
      * intros H x Hx. apply H. now right.
Qed.

Lemma first_filter_None (f : FlatMenu -> bool) (l : list FlatMenu) :
  first (List.filter f l) = None <-> forall fm, In fm l -> f fm = false.
Proof. rewrite first_None. apply filter_nil_iff. Qed.

(** C9: [get_for_site] returns [None] exactly when no row has the handle for
    the given site and the fallback, if it applies, finds no row with the
    handle on a default site.  The fallback query replaces the first one only
    when that one found nothing, the flag is set and the site is not the
    default site; in every other case the result is that of the first query.
    The function is total: an empty result is the value [None]. *)
Theorem get_for_site_not_found
    (objects : list FlatMenu) (h : string) (s : Site) (fb : bool) :
  let for_site fm := String.eqb (handle fm) h && (site_pk (site fm) =? site_pk s) in
  let for_default fm := String.eqb (handle fm) h && is_default_site (site fm) in
  (get_for_site objects h s fb = None <->
     (forall fm, In fm objects ->
        ~ (handle fm = h /\ site_pk (site fm) = site_pk s)) /\
     (fb = true -> is_default_site s = false ->
        forall fm, In fm objects ->
          ~ (handle fm = h /\ is_default_site (site fm) = true))) /\
  (fb = false \/ is_default_site s = true
   \/ first (List.filter for_site objects) <> None ->
     get_for_site objects h s fb = first (List.filter for_site objects)) /\
  (fb = true -> is_default_site s = false ->
   first (List.filter for_site objects) = None ->
     get_for_site objects h s fb = first (List.filter for_default objects)).
Proof.
  intros for_site for_default.
  assert (Hsite : forall fm, for_site fm = false <->
            ~ (handle fm = h /\ site_pk (site fm) = site_pk s)).
  { intros fm. unfold for_site.
    destruct (String.eqb_spec (handle fm) h);
      destruct (Z.eqb_spec (site_pk (site fm)) (site_pk s)); cbn;
      intuition congruence. }
  assert (Hdef : forall fm, for_default fm = false <->
            ~ (handle fm = h /\ is_default_site (site fm) = true)).
  { intros fm. unfold for_default.
    destruct (String.eqb_spec (handle fm) h);
      destruct (is_default_site (site fm)); cbn; intuition congruence. }
  unfold get_for_site. fold for_site. fold for_default.
  destruct (first (List.filter for_site objects)) as [menu |] eqn:Hfirst.
  - cbn [andb]. split; [| split].
    + split; [intros H; discriminate H |]. intros [Hnone _]. exfalso.
      assert (Hn : first (List.filter for_site objects) = None).
      { apply first_filter_None. intros fm Hin. apply Hsite. now apply Hnone. }
      congruence.
    + reflexivity.
    + intros _ _ H. discriminate H.
  - assert (Hnone : forall fm, In fm objects ->
              ~ (handle fm = h /\ site_pk (site fm) = site_pk s)).
    { intros fm Hin. apply Hsite.
      now apply (proj1 (first_filter_None for_site objects) Hfirst). }
    destruct fb, (is_default_site s) eqn:Hds; cbn [andb negb].
    + split; [| split]; [| reflexivity | intros; discriminate].
      split; [intros _ | reflexivity]. split; [exact Hnone | intros; discriminate].
    + split; [| split].
      * rewrite first_filter_None. split.
        -- intros H. split; [exact Hnone |]. intros _ _ fm Hin.
           apply Hdef. now apply H.
        -- intros [_ H] fm Hin. apply Hdef. now apply H.
      * intros [H | [H | H]]; congruence.
      * reflexivity.
    + split; [| split]; [| reflexivity | intros; discriminate].
      split; [intros _ | reflexivity]. split; [exact Hnone | intros; discriminate].
    + split; [| split]; [| reflexivity | intros; discriminate].
      split; [intros _ | reflexivity]. split; [exact Hnone | intros; discriminate].
Qed.

(** ** MenuItem.clean *)

Section Validation.

Variable E : Env.

(** C7 as amended: the outcome of [clean] on an item whose [link_page]
    can be read.  A URL without link text is reported on the field
    [link_text]; neither URL nor page is reported on the field [link_url];
    both a URL (with its text) and a page is reported by a message that
    names no field; an item with exactly one target, and text when the
    target is a URL, passes.  [clean] returns nothing and has no access to
    the stored item, so no value is replaced. *)
Theorem clean_outcomes (item : MenuItem) (lp : option PageInstance) :
  item_link_page E item = Ok lp ->
  (truthy_ostr (link_url item) = true -> truthy_str (link_text item) = false ->
     clean E item = Raise (Invalid (FieldErrors
       [("link_text",
         ["This must be set if you're linking to a custom URL."])]))) /\
  (truthy_ostr (link_url item) = false -> lp = None ->
     clean E item = Raise (Invalid (FieldErrors
       [("link_url",
         ["This must be set if you're not linking to a page."])]))) /\
  (truthy_ostr (link_url item) = true -> truthy_str (link_text item) = true ->
   is_Some lp ->
     clean E item = Raise (Invalid (NonFieldError
       "You cannot link to both a page and URL. Please review your link and clear any unwanted values."))) /\
  (truthy_ostr (link_url item) = true -> truthy_str (link_text item) = true ->
   lp = None ->
     clean E item = Ok tt) /\
  (truthy_ostr (link_url item) = false -> is_Some lp ->
     clean E item = Ok tt).
Proof.
  intros Hlp. unfold clean. rewrite Hlp.
  repeat split.
  - intros -> ->. reflexivity.
  - intros -> ->. cbn. reflexivity.
  - intros -> -> [pg ->]. cbn. reflexivity.
  - intros -> -> ->. cbn. reflexivity.
  - intros -> [pg ->]. cbn. reflexivity.
Qed.

End Validation.

(** ** add_menu_items_for_pages *)

Section BulkAdd.

Variable E : Env.

Lemma add_menu_items_loop_spec (self : Menu) (sub : bool)
    (pages : list PageInstance) (i : Z) (acc : list MenuItem) :
  add_menu_items_loop self sub pages i acc =
    acc ++ imap (fun k p => item_class self p (i + Z.of_nat k) sub) pages.
Proof.
  revert i acc. induction pages as [| p rest IH]; intros i acc; cbn.
  - now rewrite app_nil_r.
  - rewrite IH, <- app_assoc. cbn. rewrite Z.add_0_r. do 2 f_equal.
    apply imap_ext. intros k q _. cbn. f_equal. lia.
Qed.

(** C8: [add_menu_items_for_pages] never raises; the rows of the menu
    afterwards are the rows before, unchanged and in place, followed by one
    new item per page of the queryset, in queryset order; the k-th new item
    links to the k-th page and has [sort_order] equal to the number of rows
    before the call plus k. *)
Theorem add_menu_items_for_pages_appends
    (m : Menu) (qs : QuerySet) (sub : bool) :
  let pages := evaluate (tbl E) qs in
  let count := Z.of_nat (length (menu_item_rows m)) in
  exists new_items : list MenuItem,
    add_menu_items_for_pages E qs sub m =
      Ok (tt, with_menu_item_rows (menu_item_rows m ++ new_items) m) /\
    length new_items = length pages /\
    (forall (k : nat) (p : PageInstance),
       pages !! k = Some p ->
       new_items !! k = Some (item_class m p (count + Z.of_nat k) sub)) /\
    (forall (k : nat) (it : MenuItem),
       new_items !! k = Some it ->
       sort_order it = Some (count + Z.of_nat k) /\
       link_page it = pages !! k /\
       allow_subnav it = sub /\
       item_menu it = Some (pk m)).
Proof.
  intros pages count.
  exists (imap (fun k p => item_class m p (count + Z.of_nat k) sub) pages).
  split; [| split; [| split]].
  - unfold add_menu_items_for_pages, bind, get_self.
    rewrite add_menu_items_loop_spec. reflexivity.
  - apply length_imap.
  - intros k p Hk. rewrite list_lookup_imap, Hk. reflexivity.
  - intros k it Hk. rewrite list_lookup_imap in Hk.
    destruct (pages !! k) as [p |] eqn:Hp; [| discriminate Hk].
    cbn in Hk. injection Hk as <-. cbn. auto.
Qed.

End BulkAdd.

(** ** top_level_items *)

Lemma evaluate_In (t : list Page) (qs : QuerySet) (pg : PageInstance) :
  In pg (evaluate t qs) <->
  In (row pg) t /\ qs_where qs (row pg) = true /\ is_specific pg = qs_specific qs.
Proof.
  unfold evaluate. rewrite <- list_elem_of_In, list_elem_of_fmap. split.
  - intros (p & -> & Hp). apply list_elem_of_In, filter_In in Hp. cbn. tauto.
  - intros (Hin & Hw & Hs). exists (row pg). split.
    + destruct pg as [r s]. cbn in *. now subst s.
    + apply list_elem_of_In, filter_In. tauto.
Qed.

Lemma pages_dict_fold_lookup (l : list PageInstance) (d : gmap Z PageInstance)
    (i : Z) (pg : PageInstance) :
  fold_left (fun d p => <[page_id (row p) := p]> d) l d !! i = Some pg ->
  d !! i = Some pg \/ (In pg l /\ page_id (row pg) = i).
Proof.
  revert d. induction l as [| p l IH]; intros d H; cbn in *.
  - now left.
  - apply IH in H as [H | [H1 H2]].
    + destruct (decide (page_id (row p) = i)) as [Heq | Hne].
      * subst i. rewrite lookup_insert_eq in H. injection H as ->. right. auto.
      * rewrite lookup_insert_ne in H by exact Hne. now left.
    + right. auto.
Qed.

Lemma pages_dict_fold_dom (l : list PageInstance) (d : gmap Z PageInstance)
    (i : Z) :
  is_Some (d !! i) \/ (exists p, In p l /\ page_id (row p) = i) ->
  is_Some (fold_left (fun d p => <[page_id (row p) := p]> d) l d !! i).
Proof.
  revert d. induction l as [| p l IH]; intros d H; cbn in *.
  - destruct H as [H | (p & [] & _)]. exact H.
  - apply IH. destruct (decide (page_id (row p) = i)) as [Heq | Hne].
    + left. subst i. rewrite lookup_insert_eq. eauto.
    + destruct H as [H | (q & [-> | Hq] & Hi)].
      * left. now rewrite lookup_insert_ne.
      * contradiction.
      * right. eauto.
Qed.

Lemma id_in_spec (ids : list (option Z)) (p : Page) :
  id_in ids p = true <-> In (Some (page_id p)) ids.
Proof.
  unfold id_in. rewrite existsb_exists. split.
  - intros ([i |] & Hin & Hi); [| discriminate].
    apply Z.eqb_eq in Hi. now subst i.
  - intros Hin. exists (Some (page_id p)). split; [exact Hin | apply Z.eqb_refl].
Qed.

Lemma top_level_items_loop_fold (d : gmap Z PageInstance)
    (items acc : list MenuItem) :
  fold_left
    (fun menu_item_list item =>
       if negb (truthy_id (link_page_id item)) then menu_item_list ++ [item]
       else
         match link_page_id item with
         | Some i =>
             match d !! i with
             | Some pg => menu_item_list ++ [set_link_page pg item]
             | None => menu_item_list
             end
         | None => menu_item_list
         end) items acc
  = acc ++ omap (resolve_item d) items.
Proof.
  revert acc. induction items as [| item items IH]; intros acc; cbn.
  - now rewrite app_nil_r.
  - rewrite IH. unfold resolve_item at 2, truthy_id.
    destruct (link_page_id item) as [i |]; cbn.
    + destruct (i =? 0); cbn; [now rewrite <- app_assoc |].
      destruct (d !! i); [now rewrite <- app_assoc | reflexivity].
    + now rewrite <- app_assoc.
Qed.

Lemma top_level_items_loop_omap (d : gmap Z PageInstance) (items : list MenuItem) :
  top_level_items_loop d items = omap (resolve_item d) items.
Proof. unfold top_level_items_loop. now rewrite top_level_items_loop_fold. Qed.

Lemma resolve_item_sort_order d item o :
  resolve_item d item = Some o ->
  sort_order o = sort_order item /\ link_page_id o = link_page_id item
  /\ allow_subnav o = allow_subnav item.
Proof.
  unfold resolve_item. intros H.
  repeat case_match; simplify_eq; cbn; auto.
Qed.

Lemma omap_fmap_sublist {A B} (g : A -> option A) (f : A -> B) (l : list A) :
  (forall x y, g x = Some y -> f y = f x) ->
  sublist (f <$> omap g l) (f <$> l).
Proof.
  intros Hg. induction l as [| x l IH]; cbn.
  - constructor.
  - destruct (g x) as [y |] eqn:Hy; cbn.
    + rewrite (Hg _ _ Hy). now constructor.
    + now constructor.
Qed.

Lemma sublist_Forall_keep {A} (P : A -> Prop) (l1 l2 : list A) :
  sublist l1 l2 -> Forall P l2 -> Forall P l1.
Proof.
  induction 1 as [| x l1 l2 _ IH | x l1 l2 _ IH]; intros H.
  - constructor.
  - inversion H; subst. constructor; auto.
  - inversion H; subst. auto.
Qed.

Lemma sublist_StronglySorted {A} (R : relation A) (l1 l2 : list A) :
  sublist l1 l2 -> StronglySorted R l2 -> StronglySorted R l1.
Proof.
  induction 1 as [| x l1 l2 Hsub IH | x l1 l2 _ IH]; intros H.
  - constructor.
  - inversion H; subst. constructor; [auto |].
    eapply sublist_Forall_keep; eassumption.
  - inversion H; subst. auto.
Qed.

Section TopLevel.

Variable E : Env.

Lemma top_level_pages_where (m : Menu) (p : Page) :
  qs_where (top_level_pages E m) p =
    qs_where (get_base_page_queryset E m) p
    && id_in (link_page_id <$> get_base_menuitem_queryset E m) p.
Proof. unfold top_level_pages. now destruct (_ <=? _). Qed.

Lemma top_level_items_run (m : Menu) :
  top_level_items E m =
    match cached_top_level_items m with
    | Some items => Ok (items, m)
    | None => Ok (get_top_level_items E m,
                  with_top_level_items (Some (get_top_level_items E m)) m)
    end.
Proof. unfold top_level_items, cached_property. now destruct (cached_top_level_items m). Qed.

(** C1: [top_level_items] of a model-backed menu.  The page map holds, under
    its id, each page of the table that passes the base page filter and whose
    id is the [link_page_id] of one of the menu's items, loaded as its
    specific subclass when [use_specific >= TOP_LEVEL].  The result is the
    list of the menu's items in query order where an item without a linked
    page is kept as it is, an item whose page id is not in the map is
    dropped, and any other item carries the page of the map as its
    [link_page]; nothing raises, and the first read stores the list. *)
Theorem top_level_items_resolution (m : Menu) :
  let menu_items := get_base_menuitem_queryset E m in
  let pages_dict := pages_dict_of (evaluate (tbl E) (top_level_pages E m)) in
  let out := get_top_level_items E m in
  (cached_top_level_items m = None ->
     top_level_items E m = Ok (out, with_top_level_items (Some out) m)) /\
  (forall i pg, pages_dict !! i = Some pg ->
     page_id (row pg) = i /\ In (row pg) (tbl E) /\
     qs_where (get_base_page_queryset E m) (row pg) = true /\
     In (Some i) (link_page_id <$> menu_items) /\
     is_specific pg = qs_specific (top_level_pages E m)) /\
  (forall p, In p (tbl E) ->
     qs_where (get_base_page_queryset E m) p = true ->
     In (Some (page_id p)) (link_page_id <$> menu_items) ->
     is_Some (pages_dict !! page_id p)) /\
  (USE_SPECIFIC_TOP_LEVEL <= use_specific m ->
     qs_specific (top_level_pages E m) = true) /\
  out = omap (resolve_item pages_dict) menu_items /\
  (forall item, In item menu_items -> link_page_id item = None ->
     In item out) /\
  (forall item i, In item menu_items -> link_page_id item = Some i ->
     i <> 0 -> pages_dict !! i = None ->
     forall o, In o out -> link_page_id o <> Some i) /\
  (forall item i pg, In item menu_items -> link_page_id item = Some i ->
     i <> 0 -> pages_dict !! i = Some pg ->
     In (set_link_page pg item) out) /\
  (forall o, In o out -> truthy_id (link_page_id o) = true ->
     exists i pg, link_page_id o = Some i /\ pages_dict !! i = Some pg
                  /\ link_page o = Some pg) /\
  sublist (sort_order <$> out) (sort_order <$> menu_items) /\
(forall R : relation (option Z),
   StronglySorted R (sort_order <$> menu_items) ->
   StronglySorted R (sort_order <$> out)).
Proof.
  intros menu_items pages_dict out.
  assert (Hout : out = omap (resolve_item pages_dict) menu_items).
  { subst out. unfold get_top_level_items. apply top_level_items_loop_omap. }
  assert (Hmem : forall o, In o out <->
            exists item, In item menu_items /\ resolve_item pages_dict item = Some o).
  { intros o. rewrite Hout, <- list_elem_of_In, list_elem_of_omap.
    setoid_rewrite list_elem_of_In. reflexivity. }
  assert (Hsub : sublist (sort_order <$> out) (sort_order <$> menu_items)).
  { rewrite Hout. apply omap_fmap_sublist. intros x y Hxy.
    now apply resolve_item_sort_order in Hxy. }
  split; [| split; [| split; [| split; [| split; [| split; [| split; [| split; [| split; [| split]]]]]]]]].
  - intros Hc. rewrite top_level_items_run, Hc. reflexivity.
  - intros i pg Hd. subst pages_dict. unfold pages_dict_of in Hd.
    apply pages_dict_fold_lookup in Hd as [Hd | [Hin Hid]].
    + rewrite lookup_empty in Hd. discriminate Hd.
    + apply evaluate_In in Hin as (Hin & Hw & Hs).
      rewrite top_level_pages_where in Hw.
      apply andb_true_iff in Hw as [Hw1 Hw2].
      apply id_in_spec in Hw2. rewrite Hid in Hw2. fold menu_items in Hw2.
      auto.
  - intros p Hin Hw Hids. subst pages_dict. unfold pages_dict_of.
    apply pages_dict_fold_dom. right.
    exists (instantiate (qs_specific (top_level_pages E m)) p). split; [| reflexivity].
    apply evaluate_In. cbn. split; [exact Hin |]. split; [| reflexivity].
    rewrite top_level_pages_where, Hw. cbn. now apply id_in_spec.
  - intros Hs. unfold top_level_pages.
    destruct (Z.leb_spec USE_SPECIFIC_TOP_LEVEL (use_specific m)); [reflexivity | lia].
  - exact Hout.
  - intros item Hin Hnone. apply Hmem. exists item. split; [exact Hin |].
    unfold resolve_item. now rewrite Hnone.
  - intros item i Hin Hid Hi Hd o Ho Hoid.
    apply Hmem in Ho as (it & Hit & Hres).
    pose proof (resolve_item_sort_order _ _ _ Hres) as (_ & Hlid & _).
    unfold resolve_item in Hres. rewrite <- Hlid, Hoid in Hres.
    destruct (Z.eqb_spec i 0); [contradiction |].
    rewrite Hd in Hres. discriminate Hres.
  - intros item i pg Hin Hid Hi Hd. apply Hmem. exists item. split; [exact Hin |].
    unfold resolve_item. rewrite Hid.
    destruct (Z.eqb_spec i 0); [contradiction |]. now rewrite Hd.
  - intros o Ho Ht. apply Hmem in Ho as (it & Hit & Hres).
    pose proof (resolve_item_sort_order _ _ _ Hres) as (_ & Hlid & _).
    unfold resolve_item in Hres. rewrite Hlid in Ht. unfold truthy_id in Ht.
    destruct (link_page_id it) as [i |] eqn:Hi; [| discriminate Ht].
    destruct (i =? 0); [discriminate Ht |].
    destruct (pages_dict !! i) as [pg |] eqn:Hd; [| discriminate Hres].
    injection Hres as <-. exists i, pg. cbn. rewrite Hi. auto.
  - exact Hsub.
  - intros R. now apply sublist_StronglySorted.
Qed.

End TopLevel.

(** ** pages_for_display of a model-backed menu *)

Section PagesForDisplay.

Variable E : Env.

Lemma branch_where (page_depth levels : Z) (pth : string) (p : Page) :
  qs_where (branch page_depth levels pth) p = true <->
  page_depth < depth p < page_depth + levels /\ String.prefix pth (path p) = true.
Proof.
  unfold branch, qs_filter. cbn.
  rewrite !andb_true_iff, !Z.ltb_lt. tauto.
Qed.

Lemma pages_loop_spec (levels : Z) (items : list MenuItem) (acc : QuerySet) :
  pages_readable E items ->
  exists qs,
    pages_loop E levels items acc = Ok qs /\
    qs_specific qs = qs_specific acc /\
    forall p, qs_where qs p = true <->
      qs_where acc p = true \/
      exists item pg, In item items /\ contributes E levels item pg p.
Proof.
  revert acc. induction items as [| item items IH]; intros acc Hread.
  - exists acc. cbn. split; [reflexivity |]. split; [reflexivity |].
    intros p. split; [tauto |]. intros [H | (it & pg & [] & _)]. exact H.
  - assert (Hread' : pages_readable E items).
    { intros it Hin. apply Hread. now right. }
    cbn [pages_loop].
    destruct (truthy_id (link_page_id item)) eqn:Ht.
    + destruct (Hread item (or_introl eq_refl) Ht) as [pg Hpg].
      rewrite Hpg. cbn [rbind].
      destruct (allow_subnav item && (SECTION_ROOT_DEPTH E <=? depth (row pg)))
        eqn:Hgate.
      * destruct (IH (qs_or acc (branch (depth (row pg)) levels (path (row pg))))
                     Hread') as (qs & Hqs & Hspec & Hw).
        exists qs. split; [exact Hqs |]. split; [exact Hspec |].
        apply andb_true_iff in Hgate as [Hsub Hroot]. apply Z.leb_le in Hroot.
        intros p. rewrite Hw. cbn [qs_or qs_where].
        rewrite orb_true_iff, branch_where. split.
        -- intros [[H | [Hd Hp]] | (it & pg' & Hin & Hc)].
           ++ now left.
           ++ right. exists item, pg. split; [now left |].
              unfold contributes. auto 10.
           ++ right. exists it, pg'. split; [now right | exact Hc].
        -- intros [H | (it & pg' & [<- | Hin] & Hc)].
           ++ left. now left.
           ++ left. right. destruct Hc as (_ & Hlp & _ & _ & Hd & Hp).
              rewrite Hpg in Hlp. injection Hlp as <-. auto.
           ++ right. exists it, pg'. auto.
      * destruct (IH acc Hread') as (qs & Hqs & Hspec & Hw).
        exists qs. split; [exact Hqs |]. split; [exact Hspec |].
        intros p. rewrite Hw. split.
        -- intros [H | (it & pg' & Hin & Hc)]; [now left |].
           right. exists it, pg'. split; [now right | exact Hc].
        -- intros [H | (it & pg' & [<- | Hin] & Hc)]; [now left | |].
           ++ exfalso. destruct Hc as (_ & Hlp & Hsub & Hroot & _).
              rewrite Hpg in Hlp. injection Hlp as <-.
              apply Z.leb_le in Hroot. rewrite Hsub, Hroot in Hgate.
              discriminate Hgate.
           ++ right. exists it, pg'. auto.
    + destruct (IH acc Hread') as (qs & Hqs & Hspec & Hw).
      exists qs. split; [exact Hqs |]. split; [exact Hspec |].
      intros p. rewrite Hw. split.
      * intros [H | (it & pg' & Hin & Hc)]; [now left |].
        right. exists it, pg'. split; [now right | exact Hc].
      * intros [H | (it & pg' & [<- | Hin] & Hc)]; [now left | |].
        -- destruct Hc as (Ht' & _). congruence.
        -- right. exists it, pg'. auto.
Qed.

Lemma get_top_level_items_readable (m : Menu) :
  pages_readable E (get_top_level_items E m).
Proof.
  intros o Ho Ht. unfold get_top_level_items in Ho.
  rewrite top_level_items_loop_omap in Ho.
  apply list_elem_of_In, list_elem_of_omap in Ho as (it & _ & Hres).
  pose proof (resolve_item_sort_order _ _ _ Hres) as (_ & Hlid & _).
  unfold resolve_item in Hres. rewrite Hlid in Ht. unfold truthy_id in Ht.
  destruct (link_page_id it) as [i |]; [| discriminate Ht].
  destruct (i =? 0); [discriminate Ht |].
  destruct (_ !! i) as [pg |]; [| discriminate Hres].
  injection Hres as <-. exists pg. reflexivity.
Qed.

(** C2: for a model-backed menu whose [max_levels] is not 1 (in particular
    greater than 1) and whose top-level items have their pages at hand,
    [get_pages_for_display] returns a queryset that selects exactly the
    pages that pass the base page filter and lie, for some top-level item
    with a linked page, [allow_subnav] true and page depth at least
    SECTION_ROOT_DEPTH, under that item's page at a depth strictly between
    the page's depth and that depth plus [max_levels].  An item with
    [allow_subnav] false brings in nothing.  The queryset is marked
    specific if and only if [use_specific] is ALWAYS, and the first read of
    [pages_for_display] stores it.  The base page filter is the result of the
    registered hooks on "live, not expired, shown in menus", and is just
    that when no hook is registered. *)
Theorem pages_for_display_branches
    (m : Menu) (items : list MenuItem) (m1 : Menu) :
  menu_class m = MenuWithMenuItems ->
  max_levels m <> 1 ->
  top_level_items E m = Ok (items, m1) ->
  pages_readable E items ->
  exists qs,
    get_pages_for_display E m = Ok (qs, m1) /\
    (cached_pages_for_display m = None ->
       pages_for_display E m = Ok (qs, with_pages_for_display (Some qs) m1)) /\
    qs_specific qs = (use_specific m =? USE_SPECIFIC_ALWAYS) /\
    (forall p, qs_where qs p = true <->
       (exists item pg, In item items /\ contributes E (max_levels m) item pg p)
       /\ qs_where (get_base_page_queryset E m1) p = true) /\
    (forall item pg p, In item items -> allow_subnav item = false ->
       ~ contributes E (max_levels m) item pg p) /\
    ((forall item, In item items -> allow_subnav item = false) ->
       forall p, qs_where qs p = false) /\
    (page_hooks E = [] ->
       forall p, qs_where (get_base_page_queryset E m1) p
                 = live p && negb (expired p) && show_in_menus p).
Proof.
  intros Hclass Hlevels Htop Hread.
  destruct (pages_loop_spec (max_levels m) items Page_objects_none Hread)
    as (qs0 & Hloop & Hspec0 & Hw0).
  assert (Hus : use_specific m1 = use_specific m).
  { rewrite top_level_items_run in Htop.
    destruct (cached_top_level_items m); injection Htop as _ <-; reflexivity. }
  set (qs1 := qs_and qs0 (get_base_page_queryset E m1)).
  set (qs := if use_specific m1 =? USE_SPECIFIC_ALWAYS then specific qs1 else qs1).
  assert (Hrun : get_pages_for_display E m = Ok (qs, m1)).
  { unfold get_pages_for_display, bind, get_self. rewrite Hclass.
    unfold MenuWithMenuItems_get_pages_for_display, bind, get_self.
    destruct (Z.eqb_spec (max_levels m) 1) as [Heq | _]; [contradiction |].
    rewrite Htop. unfold lift. rewrite Hloop. subst qs qs1.
    now destruct (use_specific m1 =? USE_SPECIFIC_ALWAYS). }
  assert (Hw : forall p, qs_where qs p = true <->
            (exists item pg, In item items /\ contributes E (max_levels m) item pg p)
            /\ qs_where (get_base_page_queryset E m1) p = true).
  { intros p.
    assert (Hq : qs_where qs p = qs_where qs0 p && qs_where (get_base_page_queryset E m1) p).
    { subst qs qs1. now destruct (use_specific m1 =? USE_SPECIFIC_ALWAYS). }
    rewrite Hq, andb_true_iff, Hw0. cbn. intuition discriminate. }
  exists qs. split; [exact Hrun |].
  split; [| split; [| split; [exact Hw | split; [| split]]]].
  - intros Hc. unfold pages_for_display.
    now apply cached_property_miss.
  - subst qs qs1. rewrite Hus.
    destruct (use_specific m =? USE_SPECIFIC_ALWAYS); cbn; [reflexivity |].
    rewrite Hspec0. reflexivity.
  - intros item pg p _ Hsub (_ & _ & Hs & _). congruence.
  - intros Hall p. destruct (qs_where qs p) eqn:Hp; [| reflexivity].
    apply Hw in Hp as [(item & pg & Hin & (_ & _ & Hs & _)) _].
    rewrite (Hall item Hin) in Hs. discriminate Hs.
  - intros Hno p. unfold get_base_page_queryset. rewrite Hno. reflexivity.
Qed.

End PagesForDisplay.

(** ** The children index *)

Lemma evaluate_none (t : list Page) : evaluate t Page_objects_none = [].
Proof.
  unfold evaluate. cbn. induction t as [| p t IH]; [reflexivity | exact IH].
Qed.

Section ChildrenIndex.

Variable E : Env.

Lemma get_pages_for_display_total (m : Menu) :
  computable m -> exists qs m1, get_pages_for_display E m = Ok (qs, m1).
Proof.
  intros [Hc Hroot].
  unfold get_pages_for_display, bind, get_self.
  destruct (menu_class m) eqn:Hclass.
  - destruct (Hroot eq_refl) as [root Hr].
    unfold MenuFromRootPage_get_pages_for_display, bind, get_self.
    rewrite Hr. destruct (use_specific m =? USE_SPECIFIC_ALWAYS); eauto.
  - unfold MenuWithMenuItems_get_pages_for_display, bind, get_self.
    destruct (max_levels m =? 1); [unfold ret; eauto |].
    rewrite top_level_items_run, Hc.
    destruct (pages_loop_spec E (max_levels m) (get_top_level_items E m)
                Page_objects_none (get_top_level_items_readable E m))
      as (qs0 & Hloop & _).
    unfold lift. rewrite Hloop. cbn.
    destruct (use_specific m =? USE_SPECIFIC_ALWAYS); unfold ret; eauto.
Qed.

Lemma pages_for_display_total (m : Menu) :
  computable m -> exists qs m1, pages_for_display E m = Ok (qs, m1).
Proof.
  intros Hc. unfold pages_for_display, cached_property.
  destruct (cached_pages_for_display m); [eauto |].
  destruct (get_pages_for_display_total m Hc) as (qs & m1 & ->). eauto.
Qed.

Lemma page_children_dict_total (m : Menu) :
  computable m -> exists d m1, page_children_dict E m = Ok (d, m1).
Proof.
  intros Hc. unfold page_children_dict, cached_property.
  destruct (cached_page_children_dict m); [eauto |].
  unfold bind. destruct (pages_for_display_total m Hc) as (qs & m1 & ->).
  unfold ret. eauto.
Qed.

Lemma page_children_dict_stored (m m1 : Menu)
    (d : gmap string (list PageInstance)) :
  page_children_dict E m = Ok (d, m1) ->
  cached_page_children_dict m1 = Some d /\
  (is_Some (cached_page_children_dict m) -> m1 = m).
Proof.
  unfold page_children_dict, cached_property.
  destruct (cached_page_children_dict m) as [d0 |] eqn:Hc.
  - intros H. injection H as <- <-. auto.
  - destruct (bind _ _ m) as [[v m'] | e]; intros H; [| discriminate H].
    injection H as <- <-. split; [reflexivity |]. intros [? Hx]. discriminate Hx.
Qed.

(** C10: the base-class [get_children_for_page] and [page_has_children]
    on a page whose path is not a key of the children index.  Whenever
    [page_children_dict] can be read, the first returns the empty list and
    the second False; both leave the instance exactly as reading
    [page_children_dict] leaves it, so the index read afterwards is the
    same dictionary, still without an entry for the path, and an instance
    that already held the index is not changed at all.  On an instance
    that can compute its collections the index can always be read, so
    neither call raises.  These are the methods every model-backed menu
    uses, and a menu built from a root page uses unless [max_levels] is 1. *)
Theorem children_lookup_missing_key (m : Menu) (page : PageInstance) :
  (forall d m1,
     page_children_dict E m = Ok (d, m1) ->
     d !! path (row page) = None ->
     Menu_get_children_for_page E page m = Ok ([], m1) /\
     page_has_children E page m = Ok (false, m1) /\
     page_children_dict E m1 = Ok (d, m1) /\
     Menu_get_children_for_page E page m1 = Ok ([], m1) /\
     page_has_children E page m1 = Ok (false, m1) /\
     (is_Some (cached_page_children_dict m) -> m1 = m)) /\
  (computable m ->
     exists d m1,
       page_children_dict E m = Ok (d, m1) /\
       Menu_get_children_for_page E page m
         = Ok (default [] (d !! path (row page)), m1) /\
       page_has_children E page m
         = Ok (bool_decide (is_Some (d !! path (row page))), m1)) /\
  (menu_class m = MenuWithMenuItems \/ max_levels m <> 1 ->
     get_children_for_page E page m = Menu_get_children_for_page E page m).
Proof.
  split; [| split].
  - intros d m1 Hd Hkey.
    destruct (page_children_dict_stored _ _ _ Hd) as [Hst Hsame].
    assert (Hd1 : page_children_dict E m1 = Ok (d, m1)).
    { unfold page_children_dict. now apply cached_property_hit. }
    unfold Menu_get_children_for_page, page_has_children, bind, ret.
    rewrite Hd, Hd1, Hkey. cbn.
    auto 10.
  - intros Hc. destruct (page_children_dict_total m Hc) as (d & m1 & Hd).
    exists d, m1. unfold Menu_get_children_for_page, page_has_children, bind, ret.
    rewrite Hd. auto.
  - intros Hcase. unfold get_children_for_page, bind, get_self.
    destruct (menu_class m) eqn:Hclass; [| reflexivity].
    destruct Hcase as [Hx | Hne]; [discriminate Hx |].
    unfold MenuFromRootPage_get_children_for_page, bind, get_self.
    destruct (Z.eqb_spec (max_levels m) 1); [contradiction | reflexivity].
Qed.

(** C3 as amended: what [max_levels = 1] means for an instance with nothing
    cached for the page collections.  On a model-backed menu
    [pages_for_display] selects no page, the children index is empty and
    [get_children_for_page] is empty for every page.  On a menu built from
    a root page [pages_for_display] selects the pages that pass the base
    page filter, lie one level below the root and have the root's path as
    a prefix, and [get_children_for_page] returns that whole list for every
    page, without consulting the children index. *)
Theorem max_levels_one_by_class (m : Menu) :
  max_levels m = 1 ->
  cached_pages_for_display m = None ->
  cached_page_children_dict m = None ->
  (menu_class m = MenuWithMenuItems ->
     let m1 := with_pages_for_display (Some Page_objects_none) m in
     pages_for_display E m = Ok (Page_objects_none, m1) /\
     evaluate (tbl E) Page_objects_none = [] /\
     page_children_dict E m = Ok (∅, with_page_children_dict (Some ∅) m1) /\
     forall page,
       get_children_for_page E page m
         = Ok ([], with_page_children_dict (Some ∅) m1)) /\
  (menu_class m = MenuFromRootPage ->
     forall root, root_page m = Some root ->
     exists qs,
       pages_for_display E m = Ok (qs, with_pages_for_display (Some qs) m) /\
       qs_specific qs = (use_specific m =? USE_SPECIFIC_ALWAYS)
                        || qs_specific (get_base_page_queryset E m) /\
       (forall p, qs_where qs p = true <->
          qs_where (get_base_page_queryset E m) p = true /\
          depth p = depth (row root) + 1 /\
          String.prefix (path (row root)) (path p) = true) /\
       forall page,
         get_children_for_page E page m
           = Ok (evaluate (tbl E) qs, with_pages_for_display (Some qs) m)).
Proof.
  intros Hone Hpfd Hpcd. split.
  - intros Hclass m1.
    assert (Hget : get_pages_for_display E m = Ok (Page_objects_none, m)).
    { unfold get_pages_for_display, bind, get_self. rewrite Hclass.
      unfold MenuWithMenuItems_get_pages_for_display, bind, get_self.
      rewrite Hone. reflexivity. }
    assert (Hread : pages_for_display E m = Ok (Page_objects_none, m1)).
    { unfold pages_for_display. now apply cached_property_miss. }
    assert (Hdict : page_children_dict E m
                    = Ok (∅, with_page_children_dict (Some ∅) m1)).
    { unfold page_children_dict.
      rewrite (cached_property_miss _ _ _ m ∅ m1 Hpcd); [reflexivity |].
      unfold bind. rewrite Hread. unfold ret. now rewrite evaluate_none. }
    split; [exact Hread |]. split; [apply evaluate_none |].
    split; [exact Hdict |].
    intros page. unfold get_children_for_page, bind, get_self.
    rewrite Hclass. unfold Menu_get_children_for_page, bind.
    rewrite Hdict. unfold ret. now rewrite lookup_empty.
  - intros Hclass root Hroot.
    set (pages := qs_filter
           (fun p => (depth (row root) <? depth p)
                     && (depth p <=? depth (row root) + max_levels m)
                     && String.prefix (path (row root)) (path p))
           (get_base_page_queryset E m)).
    set (qs := if use_specific m =? USE_SPECIFIC_ALWAYS
               then specific pages else pages).
    assert (Hget : get_pages_for_display E m = Ok (qs, m)).
    { unfold get_pages_for_display, bind, get_self. rewrite Hclass.
      unfold MenuFromRootPage_get_pages_for_display, bind, get_self.
      rewrite Hroot. subst qs pages.
      now destruct (use_specific m =? USE_SPECIFIC_ALWAYS). }
    assert (Hread : pages_for_display E m
                    = Ok (qs, with_pages_for_display (Some qs) m)).
    { unfold pages_for_display. now apply cached_property_miss. }
    exists qs. split; [exact Hread |]. split; [| split].
    + subst qs pages. now destruct (use_specific m =? USE_SPECIFIC_ALWAYS).
    + intros p.
      assert (Hq : qs_where qs p = qs_where pages p).
      { subst qs. now destruct (use_specific m =? USE_SPECIFIC_ALWAYS). }
      rewrite Hq. subst pages. cbn. rewrite Hone.
      rewrite !andb_true_iff, Z.ltb_lt, Z.leb_le.
      split; [intros [? [[? ?] ?]] | intros [? [? ?]]];
        repeat split; auto; lia.
    + intros page. unfold get_children_for_page, bind, get_self.
      rewrite Hclass.
      unfold MenuFromRootPage_get_children_for_page, bind, get_self.
      rewrite Hone. cbn. rewrite Hread. reflexivity.
Qed.

End ChildrenIndex.

(** * The example site *)

(** ** Cache invalidation *)

Lemma set_max_levels_frame_witness :
  max_levels main_menu_read <> 3 /\
  set_max_levels 3 main_menu_read =
    mkMenu (menu_class main_menu_read) (pk main_menu_read) 3
           (use_specific main_menu_read) (root_page main_menu_read)
           (menu_item_rows main_menu_read)
           (cached_top_level_items main_menu_read) None None.
Proof.
  assert (H : max_levels main_menu_read <> 3).
  { vm_compute. intros Heq. discriminate Heq. }
  split; [exact H | exact (set_max_levels_frame main_menu_read 3 H)].
Defined.

Lemma set_use_specific_invalidation_witness :
  (use_specific main_menu_read < USE_SPECIFIC_TOP_LEVEL <= 2 /\
   cached_top_level_items (set_use_specific 2 main_menu_read) = None /\
   cached_pages_for_display (set_use_specific 2 main_menu_read) = None) /\
  (0 < use_specific main_menu_specific /\
   set_use_specific 0 main_menu_specific
     = with_use_specific 0 main_menu_specific).
Proof.
  split.
  - assert (H : use_specific main_menu_read < USE_SPECIFIC_TOP_LEVEL <= 2).
    { vm_compute. split; [reflexivity | intros Heq; discriminate Heq]. }
    split; [exact H |].
    destruct (proj1 (set_use_specific_invalidation env0 main_menu_read 2) H)
      as (_ & H1 & H2 & _).
    split; [exact H1 | exact H2].
  - assert (H : 0 < use_specific main_menu_specific).
    { vm_compute. reflexivity. }
    split; [exact H |].
    exact (proj1 (proj2 (set_use_specific_invalidation env0 main_menu_specific 0) H)).
Defined.

(** The test's scenario: after AUTO -> TOP_LEVEL -> OFF the items read are
    the ones computed under TOP_LEVEL, with specific pages. *)
Lemma lowered_menu_serves_specific_items :
  (fmap (M := list) (fun it => is_specific <$> link_page it) <$>
     value_of (top_level_items env0)
       (set_use_specific USE_SPECIFIC_OFF main_menu_specific))
  = Some [Some true; Some true; None; Some true].
Proof. vm_compute. reflexivity. Qed.

(** [set_use_specific] deletes the page collections exactly when the new
    value crosses the TOP_LEVEL threshold from below. *)
Lemma set_use_specific_clears_iff (m : Menu) (u : Z) :
  cached_pages_for_display m <> None ->
  (cached_pages_for_display (set_use_specific u m) = None
   <-> use_specific m < USE_SPECIFIC_TOP_LEVEL <= u).
Proof.
  intros Hc. split.
  - intros H.
    destruct (decide (use_specific m < USE_SPECIFIC_TOP_LEVEL <= u)) as [Hd | Hd];
      [exact Hd |].
    destruct (decide (use_specific m = u)) as [He | He].
    + rewrite set_use_specific_same in H by exact He. contradiction.
    + rewrite set_use_specific_not_crossing in H by assumption. contradiction.
  - intros H. now rewrite set_use_specific_crossing.
Qed.

Lemma newly_requires_specific_spec (old new : Z) :
  newly_requires_specific old new = true <->
  old < USE_SPECIFIC_TOP_LEVEL <= new
  \/ (new = USE_SPECIFIC_ALWAYS /\ old <> USE_SPECIFIC_ALWAYS).
Proof.
  unfold newly_requires_specific, top_level_items_need_specific,
    pages_need_specific.
  rewrite orb_true_iff, !andb_true_iff, !negb_true_iff.
  rewrite !Z.leb_le, Z.leb_gt, Z.eqb_eq, Z.eqb_neq. lia.
Qed.

(** The invalidation of [set_use_specific] agrees with the need for specific
    pages for every pair of values but those that reach ALWAYS from
    TOP_LEVEL or above. *)
Lemma set_use_specific_clears_when_needed (m : Menu) (u : Z) :
  cached_pages_for_display m <> None ->
  ~ (USE_SPECIFIC_TOP_LEVEL <= use_specific m /\ u = USE_SPECIFIC_ALWAYS) ->
  (cached_pages_for_display (set_use_specific u m) = None
   <-> newly_requires_specific (use_specific m) u = true).
Proof.
  intros Hc Hgap. rewrite set_use_specific_clears_iff by exact Hc.
  rewrite newly_requires_specific_spec.
  unfold USE_SPECIFIC_TOP_LEVEL, USE_SPECIFIC_ALWAYS in *. lia.
Qed.

(** C4: raising a menu from TOP_LEVEL to ALWAYS after its pages were read.
    ALWAYS is the one value for which [get_pages_for_display] asks for
    specific pages, yet [set_use_specific] keeps the cached queryset, which
    is not specific: the next read serves plain pages, where a fresh
    computation under the new value yields specific ones. *)
Lemma top_level_to_always_keeps_plain_pages :
  use_specific main_menu_top_read = USE_SPECIFIC_TOP_LEVEL /\
  newly_requires_specific USE_SPECIFIC_TOP_LEVEL USE_SPECIFIC_ALWAYS = true /\
  set_use_specific USE_SPECIFIC_ALWAYS main_menu_top_read
    = with_use_specific USE_SPECIFIC_ALWAYS main_menu_top_read /\
  use_specific (set_use_specific USE_SPECIFIC_ALWAYS main_menu_top_read)
    = USE_SPECIFIC_ALWAYS /\
  (is_Some (cached_pages_for_display
              (set_use_specific USE_SPECIFIC_ALWAYS main_menu_top_read))) /\
  (fmap (M := list) is_specific <$>
     (evaluate site_pages <$>
        value_of (pages_for_display env0)
          (set_use_specific USE_SPECIFIC_ALWAYS main_menu_top_read)))
    = Some [false; false] /\
  (fmap (M := list) is_specific <$>
     (evaluate site_pages <$>
        value_of (get_pages_for_display env0)
          (set_use_specific USE_SPECIFIC_ALWAYS main_menu_top_read)))
    = Some [true; true].
Proof.
  split; [reflexivity |]. split; [reflexivity |].
  split.
  { apply set_use_specific_not_crossing.
    - vm_compute. intros [H _]. discriminate H.
    - vm_compute. intros H. discriminate H. }
  split; [reflexivity |].
  split; [vm_compute; eauto |].
  split; vm_compute; reflexivity.
Qed.

(** ** max_levels = 1 *)

(** C3, counterexample: the children menu of "about" with [max_levels] 1
    displays the two children of "about", and hands them out as the children
    of any page. *)
Lemma children_menu_one_level_not_empty :
  ~ max_levels_one_means_empty env0 about_children.
Proof.
  intros H. destruct (H eq_refl) as [_ H2].
  specialize (H2 (instantiate false pg_contact)).
  remember (get_children_for_page env0 (instantiate false pg_contact) about_children)
    as r eqn:Hr.
  vm_compute in Hr. subst r.
  specialize (H2 _ _ eq_refl). discriminate H2.
Qed.

Lemma max_levels_one_by_class_witness :
  (max_levels (main_menu 1 USE_SPECIFIC_AUTO) = 1 /\
   forall page,
     get_children_for_page env0 page (main_menu 1 USE_SPECIFIC_AUTO)
     = Ok ([], with_page_children_dict (Some ∅)
                 (with_pages_for_display (Some Page_objects_none)
                    (main_menu 1 USE_SPECIFIC_AUTO)))) /\
  (max_levels about_children = 1 /\
   exists qs,
     pages_for_display env0 about_children
       = Ok (qs, with_pages_for_display (Some qs) about_children) /\
     forall page,
       get_children_for_page env0 page about_children
       = Ok (evaluate (tbl env0) qs, with_pages_for_display (Some qs) about_children)).
Proof.
  split.
  - split; [reflexivity |].
    destruct (proj1 (max_levels_one_by_class env0 (main_menu 1 USE_SPECIFIC_AUTO)
                       eq_refl eq_refl eq_refl) eq_refl)
      as (_ & _ & _ & H).
    exact H.
  - split; [reflexivity |].
    destruct (proj2 (max_levels_one_by_class env0 about_children
                       eq_refl eq_refl eq_refl) eq_refl
                    (instantiate false pg_about) eq_refl)
      as (qs & H1 & _ & _ & H2).
    exists qs. split; [exact H1 | exact H2].
Defined.

(** ** Validation *)

(** C7, counterexample: an item with both a page and a URL (and link text)
    is rejected by a message that belongs to no field. *)
Lemma clean_both_targets_not_field_level :
  truthy_ostr (link_url both_item) = true /\
  is_Some (link_page both_item) /\
  clean env0 both_item = Raise (Invalid (NonFieldError
    "You cannot link to both a page and URL. Please review your link and clear any unwanted values.")) /\
  forall error_dict,
    clean env0 both_item <> Raise (Invalid (FieldErrors error_dict)).
Proof.
  split; [reflexivity |]. split; [cbn; eauto |]. split; [reflexivity |].
  intros d H. vm_compute in H. discriminate H.
Qed.

Lemma clean_outcomes_witness :
  (item_link_page env0 untitled_item = Ok None /\
   clean env0 untitled_item = Raise (Invalid (FieldErrors
     [("link_text", ["This must be set if you're linking to a custom URL."])]))) /\
  (item_link_page env0 empty_item = Ok None /\
   clean env0 empty_item = Raise (Invalid (FieldErrors
     [("link_url", ["This must be set if you're not linking to a page."])]))) /\
  (item_link_page env0 both_item = Ok (Some (instantiate false pg_about)) /\
   clean env0 both_item = Raise (Invalid (NonFieldError
     "You cannot link to both a page and URL. Please review your link and clear any unwanted values."))) /\
  (item_link_page env0 (page_item 3 true 0) = Ok (Some (instantiate false pg_about)) /\
   clean env0 (page_item 3 true 0) = Ok tt).
Proof.
  split; [| split; [| split]].
  - split; [reflexivity |].
    exact (proj1 (clean_outcomes env0 untitled_item None eq_refl) eq_refl eq_refl).
  - split; [reflexivity |].
    exact (proj1 (proj2 (clean_outcomes env0 empty_item None eq_refl))
             eq_refl eq_refl).
  - split; [reflexivity |].
    exact (proj1 (proj2 (proj2 (clean_outcomes env0 both_item _ eq_refl)))
             eq_refl eq_refl (ex_intro _ _ eq_refl)).
  - split; [reflexivity |].
    exact (proj2 (proj2 (proj2 (proj2 (clean_outcomes env0 (page_item 3 true 0) _ eq_refl))))
             eq_refl (ex_intro _ _ eq_refl)).
Defined.

(** ** Resolution on the example site *)

(** The first read of [top_level_items]: the item for "news" (not shown in
    menus) is dropped, the URL item is kept, the others carry their pages. *)
Lemma top_level_items_resolution_witness :
  cached_top_level_items (main_menu 2 USE_SPECIFIC_AUTO) = None /\
  top_level_items env0 (main_menu 2 USE_SPECIFIC_AUTO)
    = Ok (get_top_level_items env0 (main_menu 2 USE_SPECIFIC_AUTO),
          with_top_level_items
            (Some (get_top_level_items env0 (main_menu 2 USE_SPECIFIC_AUTO)))
            (main_menu 2 USE_SPECIFIC_AUTO)) /\
  (sort_order <$> get_top_level_items env0 (main_menu 2 USE_SPECIFIC_AUTO))
    = [Some 0; Some 1; Some 3; Some 4].
Proof.
  split; [reflexivity |]. split.
  - exact (proj1 (top_level_items_resolution env0 (main_menu 2 USE_SPECIFIC_AUTO))
             eq_refl).
  - vm_compute. reflexivity.
Defined.

Lemma pages_for_display_branches_witness :
  menu_class (main_menu 2 USE_SPECIFIC_AUTO) = MenuWithMenuItems /\
  max_levels (main_menu 2 USE_SPECIFIC_AUTO) <> 1 /\
  exists qs,
    get_pages_for_display env0 (main_menu 2 USE_SPECIFIC_AUTO)
      = Ok (qs, with_top_level_items
                  (Some (get_top_level_items env0 (main_menu 2 USE_SPECIFIC_AUTO)))
                  (main_menu 2 USE_SPECIFIC_AUTO)) /\
    qs_specific qs = false.
Proof.
  assert (H : max_levels (main_menu 2 USE_SPECIFIC_AUTO) <> 1).
  { cbn. intros Heq. discriminate Heq. }
  split; [reflexivity |]. split; [exact H |].
  destruct (pages_for_display_branches env0 (main_menu 2 USE_SPECIFIC_AUTO)
              (get_top_level_items env0 (main_menu 2 USE_SPECIFIC_AUTO))
              (with_top_level_items
                 (Some (get_top_level_items env0 (main_menu 2 USE_SPECIFIC_AUTO)))
                 (main_menu 2 USE_SPECIFIC_AUTO))
              eq_refl H eq_refl
              (get_top_level_items_readable env0 (main_menu 2 USE_SPECIFIC_AUTO)))
    as (qs & Hrun & _ & Hs & _).
  exists qs. split; [exact Hrun | exact Hs].
Defined.

(** The reference scenario in small: two levels show the two children of
    "about"; three levels add the grandchild; "contact" has no sub-menu and
    "home" lies above the section root depth. *)
Lemma pages_for_display_on_site :
  (page_id <$> (row <$> default []
     (evaluate site_pages <$>
        value_of (pages_for_display env0) (main_menu 2 USE_SPECIFIC_AUTO))))
    = [4; 5] /\
  (page_id <$> (row <$> default []
     (evaluate site_pages <$>
        value_of (pages_for_display env0)
          (set_max_levels 3 main_menu_read))))
    = [4; 5; 6].
Proof. split; vm_compute; reflexivity. Qed.

Lemma add_menu_items_for_pages_appends_witness :
  exists new_items,
    add_menu_items_for_pages env0 (branch 3 2 "000100010001") true
      (main_menu 2 USE_SPECIFIC_AUTO)
      = Ok (tt, with_menu_item_rows (main_rows ++ new_items)
                  (main_menu 2 USE_SPECIFIC_AUTO)) /\
    (sort_order <$> new_items) = [Some 5; Some 6] /\
    (fmap (M := list) (fun it => page_id <$> (row <$> link_page it)) new_items)
      = [Some 4; Some 5].
Proof.
  destruct (add_menu_items_for_pages_appends env0 (main_menu 2 USE_SPECIFIC_AUTO)
              (branch 3 2 "000100010001") true)
    as (new_items & Hrun & Hlen & Hnth & _).
  exists new_items. split; [exact Hrun |].
  pose proof (Hnth 0%nat _ eq_refl) as H0.
  pose proof (Hnth 1%nat _ eq_refl) as H1.
  destruct new_items as [| a [| b [| c rest]]]; try discriminate Hlen.
  cbn in H0, H1. injection H0 as ->. injection H1 as ->.
  split; reflexivity.
Defined.

Lemma get_for_site_not_found_witness :
  (get_for_site flat_rows "contact" site_b true
     = Some (mkFlatMenu 2 site_a "Contact" "contact")) /\
  get_for_site flat_rows "contact" site_b false = None /\
  get_for_site flat_rows "footer" site_b true
     = Some (mkFlatMenu 3 site_b "Footer" "footer").
Proof.
  split; [| split].
  - exact (proj2 (proj2 (get_for_site_not_found flat_rows "contact" site_b true))
             eq_refl eq_refl eq_refl).
  - apply (proj1 (get_for_site_not_found flat_rows "contact" site_b false)).
    split.
    + intros fm Hin [Hh Hs]. cbn in Hin.
      destruct Hin as [<- | [<- | [<- | []]]]; cbn in Hh, Hs; discriminate.
    + intros Hfb. discriminate Hfb.
  - apply (proj1 (proj2 (get_for_site_not_found flat_rows "footer" site_b true))).
    right. right. intros H. discriminate H.
Defined.

Lemma children_lookup_missing_key_witness :
  page_children_dict env0 main_menu_deep
    = Ok (main_menu_deep_index, main_menu_deep_read) /\
  main_menu_deep_index !! path pg_contact = None /\
  Menu_get_children_for_page env0 (instantiate false pg_contact) main_menu_deep
    = Ok ([], main_menu_deep_read) /\
  page_has_children env0 (instantiate false pg_contact) main_menu_deep
    = Ok (false, main_menu_deep_read) /\
  page_children_dict env0 main_menu_deep_read
    = Ok (main_menu_deep_index, main_menu_deep_read).
Proof.
  assert (Hd : page_children_dict env0 main_menu_deep
               = Ok (main_menu_deep_index, main_menu_deep_read)).
  { vm_compute. reflexivity. }
  assert (Hk : main_menu_deep_index !! path (row (instantiate false pg_contact)) = None).
  { vm_compute. reflexivity. }
  destruct (proj1 (children_lookup_missing_key env0 main_menu_deep
                     (instantiate false pg_contact)) _ _ Hd Hk)
    as (H1 & H2 & H3 & _).
  split; [exact Hd |]. split; [exact Hk |]. split; [exact H1 |].
  split; [exact H2 | exact H3].
Defined.

(** The index of the three-level main menu: "about" has its two children,
    "history" its one, and no other path is a key. *)
Lemma children_index_on_site :
  (fmap (M := list) (fun p => page_id (row p)) <$>
     main_menu_deep_index !! path pg_about) = Some [4; 5] /\
  (fmap (M := list) (fun p => page_id (row p)) <$>
     main_menu_deep_index !! path pg_history) = Some [6] /\
  main_menu_deep_index !! path pg_home = None.
Proof. repeat split; vm_compute; reflexivity. Qed.

(** * Further properties *)

(** ** The children index groups the displayed pages by parent path *)

Section ChildrenGrouping.

Variable E : Env.

Lemma children_dict_fold (pages : list PageInstance)
    (d : gmap string (list PageInstance)) (k : string) :
  let add := fun (d : gmap string (list PageInstance)) (page : PageInstance) =>
    let key := slice_to_minus (steplen E) (path (row page)) in
    <[key := default [] (d !! key) ++ [page]]> d in
  default [] (fold_left add pages d !! k)
    = default [] (d !! k)
      ++ List.filter
           (fun pg => String.eqb (slice_to_minus (steplen E) (path (row pg))) k)
           pages
  /\ (is_Some (fold_left add pages d !! k) <->
      is_Some (d !! k)
      \/ exists pg, In pg pages
                    /\ slice_to_minus (steplen E) (path (row pg)) = k).
Proof.
  intros add. revert d. induction pages as [| page pages IH]; intros d.
  - cbn. rewrite app_nil_r. split; [reflexivity |].
    split; [tauto |]. intros [H | (pg & [] & _)]. exact H.
  - cbn [fold_left List.filter]. destruct (IH (add d page)) as [IH1 IH2].
    rewrite IH1, IH2. clear IH IH1 IH2. subst add. cbn beta zeta.
    destruct (String.eqb_spec (slice_to_minus (steplen E) (path (row page))) k)
      as [Heq | Hne].
    + subst k. rewrite lookup_insert_eq. cbn. rewrite <- app_assoc. cbn.
      split; [reflexivity |]. split.
      * intros _. right. exists page. split; [now left | reflexivity].
      * intros _. left. eauto.
    + rewrite lookup_insert_ne by exact Hne. split; [reflexivity |]. split.
      * intros [H | (pg & Hin & Hk)]; [now left |].
        right. exists pg. split; [now right | exact Hk].
      * intros [H | (pg & [<- | Hin] & Hk)]; [now left | contradiction |].
        right. eauto.
Qed.

Lemma children_dict_of_lookup (pages : list PageInstance) (k : string) :
  default [] (children_dict_of E pages !! k)
    = List.filter
        (fun pg => String.eqb (slice_to_minus (steplen E) (path (row pg))) k)
        pages
  /\ (is_Some (children_dict_of E pages !! k) <->
      exists pg, In pg pages /\ slice_to_minus (steplen E) (path (row pg)) = k).
Proof.
  pose proof (children_dict_fold pages ∅ k) as H. cbn zeta in H.
  destruct H as [H1 H2]. rewrite lookup_empty in H1, H2.
  unfold children_dict_of. split; [exact H1 |].
  rewrite H2. split; [| now right].
  intros [[? H] | H]; [discriminate H | exact H].
Qed.

(** X1: on an instance whose children index is not cached yet, the base
    [get_children_for_page] of a page returns exactly the pages of
    [pages_for_display] whose path without its last [steplen] characters is
    the page's path, in the order of the queryset, and stores the index. *)
Theorem get_children_for_page_groups_by_parent
    (m m1 : Menu) (qs : QuerySet) (page : PageInstance) :
  cached_page_children_dict m = None ->
  pages_for_display E m = Ok (qs, m1) ->
  Menu_get_children_for_page E page m
    = Ok (List.filter
            (fun pg => String.eqb (slice_to_minus (steplen E) (path (row pg)))
                                  (path (row page)))
            (evaluate (tbl E) qs),
          with_page_children_dict
            (Some (children_dict_of E (evaluate (tbl E) qs))) m1).
Proof.
  intros Hc Hp.
  assert (Hd : page_children_dict E m
               = Ok (children_dict_of E (evaluate (tbl E) qs),
                     with_page_children_dict
                       (Some (children_dict_of E (evaluate (tbl E) qs))) m1)).
  { unfold page_children_dict. apply cached_property_miss; [exact Hc |].
    unfold bind. rewrite Hp. reflexivity. }
  unfold Menu_get_children_for_page, bind. rewrite Hd. unfold ret.
  now rewrite (proj1 (children_dict_of_lookup _ _)).
Qed.

(** X2: under the same conditions [page_has_children] answers True exactly
    when [get_children_for_page] has something to return, and the two leave
    the instance in the same state. *)
Theorem page_has_children_iff_children
    (m m1 : Menu) (qs : QuerySet) (page : PageInstance) :
  cached_page_children_dict m = None ->
  pages_for_display E m = Ok (qs, m1) ->
  exists (b : bool) (children : list PageInstance) (m2 : Menu),
    page_has_children E page m = Ok (b, m2) /\
    Menu_get_children_for_page E page m = Ok (children, m2) /\
    (b = true <-> children <> []).
Proof.
  intros Hc Hp.
  assert (Hd : page_children_dict E m
               = Ok (children_dict_of E (evaluate (tbl E) qs),
                     with_page_children_dict
                       (Some (children_dict_of E (evaluate (tbl E) qs))) m1)).
  { unfold page_children_dict. apply cached_property_miss; [exact Hc |].
    unfold bind. rewrite Hp. reflexivity. }
  destruct (children_dict_of_lookup (evaluate (tbl E) qs) (path (row page)))
    as [H1 H2].
  eexists _, _, _. split; [| split].
  - unfold page_has_children, bind. rewrite Hd. reflexivity.
  - unfold Menu_get_children_for_page, bind. rewrite Hd. reflexivity.
  - rewrite bool_decide_eq_true, H2, H1. split.
    + intros (pg & Hin & Hk) Hnil.
      assert (Hf : In pg (List.filter
                (fun pg => String.eqb (slice_to_minus (steplen E) (path (row pg)))
                                      (path (row page)))
                (evaluate (tbl E) qs))).
      { apply filter_In. split; [exact Hin |]. now apply String.eqb_eq. }
      rewrite Hnil in Hf. exact Hf.
    + intros Hne.
      destruct (List.filter _ (evaluate (tbl E) qs)) as [| pg rest] eqn:Hf;
        [contradiction |].
      assert (Hin : In pg (pg :: rest)) by now left.
      rewrite <- Hf in Hin. apply filter_In in Hin as [Hin Hk].
      exists pg. split; [exact Hin |]. now apply String.eqb_eq.
Qed.

End ChildrenGrouping.

(** ** Cached collections are computed once *)




(** ** The two setters *)

(** X4: [set_max_levels] and [set_use_specific] can be applied in either
    order with the same resulting instance, and applying one of them twice
    with the same value is the same as applying it once. *)
Theorem setters_commute_and_are_idempotent (m : Menu) (n u : Z) :
  set_max_levels n (set_use_specific u m)
    = set_use_specific u (set_max_levels n m) /\
  set_max_levels n (set_max_levels n m) = set_max_levels n m /\
  set_use_specific u (set_use_specific u m) = set_use_specific u m.
Proof.
  destruct m as [c k ml us rp rows tli pfd pcd].
  unfold set_max_levels, set_use_specific.
  cbn [max_levels use_specific].
  destruct (ml =? n) eqn:E1; destruct (us =? u) eqn:E2;
    destruct (USE_SPECIFIC_TOP_LEVEL <=? u) eqn:E3;
    destruct (us <? USE_SPECIFIC_TOP_LEVEL) eqn:E4;
    repeat progress
      (cbn [negb andb max_levels use_specific menu_class pk root_page
            menu_item_rows cached_top_level_items cached_pages_for_display
            cached_page_children_dict clear_page_cache with_max_levels
            with_use_specific with_top_level_items with_pages_for_display
            with_page_children_dict];
       rewrite ?E1, ?E2, ?E3, ?E4, ?Z.eqb_refl);
    try (destruct (Z.ltb_spec u USE_SPECIFIC_TOP_LEVEL) as [Hlt | Hge];
         [apply Z.leb_le in E3; lia |]);
    cbn [negb andb];
    repeat split; reflexivity.
Qed.

(** ** What the page queries select *)

Section Selection.

Variable E : Env.

Lemma base_page_queryset_no_hooks (m : Menu) (p : Page) :
  page_hooks E = [] ->
  qs_where (get_base_page_queryset E m) p
    = live p && negb (expired p) && show_in_menus p
  /\ qs_specific (get_base_page_queryset E m) = false.
Proof. intros H. unfold get_base_page_queryset. rewrite H. now cbn. Qed.

Lemma narrowing_fold (m : Menu) (p : Page)
    (hooks : list (Menu -> QuerySet -> QuerySet)) (qs : QuerySet) :
  Forall (fun hook : Menu -> QuerySet -> QuerySet =>
            forall m qs p, qs_where (hook m qs) p = true ->
                           qs_where qs p = true) hooks ->
  qs_where (fold_left (fun qs hook => hook m qs) hooks qs) p = true ->
  qs_where qs p = true.
Proof.
  revert qs. induction hooks as [| h hooks IH]; intros qs Hall H;
    cbn in H; [exact H |].
  inversion Hall as [| ? ? Hh Hrest]; subst.
  apply (Hh m). now apply IH.
Qed.

Lemma base_page_queryset_narrow (m : Menu) (p : Page) :
  hooks_narrow E ->
  qs_where (get_base_page_queryset E m) p = true -> visible p.
Proof.
  unfold hooks_narrow, get_base_page_queryset. intros Hn H.
  apply (narrowing_fold m p _ _ Hn) in H. cbn in H.
  apply andb_true_iff in H as [H Hs]. apply andb_true_iff in H as [Hl He].
  apply negb_true_iff in He. now repeat split.
Qed.

(** X5: [get_pages_for_display] of a menu built from a root page.  With a
    root page it never raises, leaves the instance alone and selects exactly
    the pages of the base queryset that lie below the root, at most
    [max_levels] levels down, with the root's path as a prefix; so it
    selects nothing when [max_levels] is not positive.  Without a root page
    it raises. *)
Theorem root_menu_pages_for_display (m : Menu) :
  menu_class m = MenuFromRootPage ->
  (forall root, root_page m = Some root ->
     exists qs,
       get_pages_for_display E m = Ok (qs, m) /\
       (forall p, qs_where qs p = true <->
          qs_where (get_base_page_queryset E m) p = true /\
          depth (row root) < depth p <= depth (row root) + max_levels m /\
          String.prefix (path (row root)) (path p) = true) /\
       (max_levels m <= 0 -> forall p, qs_where qs p = false) /\
       (use_specific m = USE_SPECIFIC_ALWAYS -> qs_specific qs = true)) /\
  (root_page m = None -> get_pages_for_display E m = Raise AttributeError).
Proof.
  intros Hclass. split.
  - intros root Hroot.
    set (pages := qs_filter
           (fun p => (depth (row root) <? depth p)
                     && (depth p <=? depth (row root) + max_levels m)
                     && String.prefix (path (row root)) (path p))
           (get_base_page_queryset E m)).
    set (qs := if use_specific m =? USE_SPECIFIC_ALWAYS
               then specific pages else pages).
    assert (Hw : forall p, qs_where qs p = true <->
              qs_where (get_base_page_queryset E m) p = true /\
              depth (row root) < depth p <= depth (row root) + max_levels m /\
              String.prefix (path (row root)) (path p) = true).
    { intros p.
      assert (Hq : qs_where qs p = qs_where pages p).
      { subst qs. now destruct (use_specific m =? USE_SPECIFIC_ALWAYS). }
      rewrite Hq. subst pages. cbn.
      rewrite !andb_true_iff, Z.ltb_lt, Z.leb_le. tauto. }
    exists qs. split; [| split; [exact Hw | split]].
    + unfold get_pages_for_display, bind, get_self. rewrite Hclass.
      unfold MenuFromRootPage_get_pages_for_display, bind, get_self.
      rewrite Hroot. subst qs pages.
      now destruct (use_specific m =? USE_SPECIFIC_ALWAYS).
    + intros Hle p. destruct (qs_where qs p) eqn:Hp; [| reflexivity].
      apply Hw in Hp. lia.
    + intros Hu. subst qs. rewrite Hu. reflexivity.
  - intros Hroot. unfold get_pages_for_display, bind, get_self. rewrite Hclass.
    unfold MenuFromRootPage_get_pages_for_display, bind, get_self.
    now rewrite Hroot.
Qed.

Lemma pages_loop_mono (n n' : Z) (items : list MenuItem)
    (acc acc' q q' : QuerySet) :
  n <= n' ->
  (forall p, qs_where acc p = true -> qs_where acc' p = true) ->
  pages_loop E n items acc = Ok q ->
  pages_loop E n' items acc' = Ok q' ->
  forall p, qs_where q p = true -> qs_where q' p = true.
Proof.
  intros Hle. revert acc acc'.
  induction items as [| item items IH]; intros acc acc' Hacc H H'.
  - cbn in H, H'. injection H as <-. injection H' as <-. exact Hacc.
  - cbn [pages_loop] in H, H'.
    destruct (truthy_id (link_page_id item)); [| eapply IH; eassumption].
    destruct (item_link_page E item) as [[pg |] | e]; cbn [rbind] in H, H';
      try discriminate H.
    destruct (allow_subnav item && (SECTION_ROOT_DEPTH E <=? depth (row pg)));
      [| eapply IH; eassumption].
    eapply IH; [| exact H | exact H'].
    intros p. cbn [qs_or qs_where]. rewrite !orb_true_iff, !branch_where.
    intros [Hp | [Hd Hpre]]; [left; now apply Hacc |]. right. split; [lia | exact Hpre].
Qed.

Lemma pages_loop_shallow (n : Z) (items : list MenuItem) (acc q : QuerySet) :
  n <= 1 ->
  pages_loop E n items acc = Ok q ->
  forall p, qs_where q p = true -> qs_where acc p = true.
Proof.
  intros Hle. revert acc.
  induction items as [| item items IH]; intros acc H.
  - cbn in H. injection H as <-. auto.
  - cbn [pages_loop] in H.
    destruct (truthy_id (link_page_id item)); [| now apply IH].
    destruct (item_link_page E item) as [[pg |] | e]; cbn [rbind] in H;
      try discriminate H.
    destruct (allow_subnav item && (SECTION_ROOT_DEPTH E <=? depth (row pg)));
      [| now apply IH].
    intros p Hp. apply (IH _ H) in Hp. cbn [qs_or qs_where] in Hp.
    apply orb_true_iff in Hp as [Hp | Hp]; [exact Hp |].
    apply branch_where in Hp. lia.
Qed.

Lemma get_top_level_items_levels (m : Menu) (n : Z) :
  page_hooks E = [] -> menuitem_hooks E = [] ->
  get_top_level_items E (with_max_levels n m) = get_top_level_items E m.
Proof.
  intros Hp Hi.
  unfold get_top_level_items, top_level_pages, get_base_menuitem_queryset,
    get_base_page_queryset.
  rewrite Hp, Hi. reflexivity.
Qed.

Lemma menu_with_items_pages_inv (m m1 : Menu) (qs : QuerySet) :
  menu_class m = MenuWithMenuItems ->
  get_pages_for_display E m = Ok (qs, m1) ->
  (max_levels m = 1 /\ forall p, qs_where qs p = false)
  \/ (max_levels m <> 1 /\
      exists items q,
        top_level_items E m = Ok (items, m1) /\
        pages_loop E (max_levels m) items Page_objects_none = Ok q /\
        forall p, qs_where qs p
                  = qs_where q p && qs_where (get_base_page_queryset E m1) p).
Proof.
  intros Hclass. unfold get_pages_for_display, bind, get_self. rewrite Hclass.
  unfold MenuWithMenuItems_get_pages_for_display, bind, get_self, ret, lift.
  destruct (Z.eqb_spec (max_levels m) 1) as [Hone | Hne].
  - intros H. injection H as <- _. left. split; [exact Hone | reflexivity].
  - destruct (top_level_items E m) as [[items m'] | e] eqn:Ht;
      [| intros H; discriminate H].
    destruct (pages_loop E (max_levels m) items Page_objects_none) as [q | e]
      eqn:Hq; [| intros H; discriminate H].
    intros H. right. split; [exact Hne |]. exists items, q.
    destruct (use_specific m' =? USE_SPECIFIC_ALWAYS); injection H as <- <-;
      (split; [reflexivity |]); (split; [exact Hq |]); reflexivity.
Qed.

Lemma root_menu_pages_inv (m m1 : Menu) (qs : QuerySet) :
  menu_class m = MenuFromRootPage ->
  get_pages_for_display E m = Ok (qs, m1) ->
  exists root,
    root_page m = Some root /\
    forall p, qs_where qs p
              = qs_where (get_base_page_queryset E m) p
                && ((depth (row root) <? depth p)
                    && (depth p <=? depth (row root) + max_levels m)
                    && String.prefix (path (row root)) (path p)).
Proof.
  intros Hclass. unfold get_pages_for_display, bind, get_self. rewrite Hclass.
  unfold MenuFromRootPage_get_pages_for_display, bind, get_self, raise.
  destruct (root_page m) as [root |]; [| intros H; discriminate H].
  intros H. exists root. split; [reflexivity |].
  destruct (use_specific m =? USE_SPECIFIC_ALWAYS); injection H as <- _;
    reflexivity.
Qed.

(** X6: when no hook is registered, raising [max_levels] never takes a page
    away: every page selected by [get_pages_for_display] for [n] levels is
    selected for any [n' >= n], for both kinds of menu. *)
Theorem pages_for_display_grows_with_max_levels
    (m m1 m1' : Menu) (n n' : Z) (qs qs' : QuerySet) :
  page_hooks E = [] -> menuitem_hooks E = [] ->
  n <= n' ->
  get_pages_for_display E (with_max_levels n m) = Ok (qs, m1) ->
  get_pages_for_display E (with_max_levels n' m) = Ok (qs', m1') ->
  forall p, qs_where qs p = true -> qs_where qs' p = true.
Proof.
  intros Hp Hi Hle H H' p Hsel.
  assert (Hbase : forall x, qs_where (get_base_page_queryset E x) p
                            = live p && negb (expired p) && show_in_menus p).
  { intros x. exact (proj1 (base_page_queryset_no_hooks x p Hp)). }
  destruct (menu_class m) eqn:Hclass.
  - apply root_menu_pages_inv in H as (root & Hr & Hw); [| exact Hclass].
    apply root_menu_pages_inv in H' as (root' & Hr' & Hw'); [| exact Hclass].
    cbn [root_page with_max_levels] in Hr, Hr'. rewrite Hr in Hr'.
    injection Hr' as <-.
    rewrite Hw in Hsel. rewrite Hw'. rewrite Hbase in *.
    cbn [max_levels with_max_levels] in *.
    rewrite !andb_true_iff, Z.ltb_lt, Z.leb_le in *.
    repeat split; try tauto. lia.
  - apply menu_with_items_pages_inv in H; [| exact Hclass].
    apply menu_with_items_pages_inv in H'; [| exact Hclass].
    cbn [max_levels with_max_levels] in H, H'.
    destruct H as [[_ Hnone] | (Hn & items & q & Ht & Hq & Hw)].
    { rewrite Hnone in Hsel. discriminate Hsel. }
    rewrite Hw, Hbase in Hsel. apply andb_true_iff in Hsel as [Hqp Hvis].
    assert (Hitems : forall k its mk,
              top_level_items E (with_max_levels k m) = Ok (its, mk) ->
              its = match cached_top_level_items m with
                    | Some c => c
                    | None => get_top_level_items E m
                    end).
    { intros k its mk Hrun. rewrite top_level_items_run in Hrun.
      cbn [cached_top_level_items with_max_levels] in Hrun.
      destruct (cached_top_level_items m); injection Hrun as <- _;
        [reflexivity |]. now apply get_top_level_items_levels. }
    destruct H' as [[Hone' _] | (Hn' & items' & q' & Ht' & Hq' & Hw')].
    + exfalso. subst n'.
      apply (pages_loop_shallow n items _ _ ltac:(lia) Hq) in Hqp.
      discriminate Hqp.
    + rewrite Hw', Hbase, Hvis, andb_true_r.
      rewrite (Hitems _ _ _ Ht) in Hq. rewrite (Hitems _ _ _ Ht') in Hq'.
      exact (pages_loop_mono n n' _ _ _ q q' Hle (fun p H => H) Hq Hq' p Hqp).
Qed.

End Selection.

(** ** Hidden pages never reach a menu *)

Section Visibility.

Variable E : Env.

(** X7: as long as the registered hooks only narrow the base page queryset,
    no page that is not live, is expired or is not shown in menus gets into a
    menu: neither as the page attached to a top-level item, nor among the
    pages that [get_pages_for_display] selects, for either kind of menu and
    whatever is cached. *)
Theorem hidden_pages_are_never_displayed (m : Menu) :
  hooks_narrow E ->
  (forall item i pg,
     In item (get_top_level_items E m) ->
     link_page_id item = Some i -> i <> 0 -> link_page item = Some pg ->
     visible (row pg)) /\
  (forall qs m1 pg,
     get_pages_for_display E m = Ok (qs, m1) ->
     In pg (evaluate (tbl E) qs) -> visible (row pg)).
Proof.
  intros Hn. split.
  - intros item i pg Hin Hid Hi Hlp.
    unfold get_top_level_items in Hin.
    rewrite top_level_items_loop_omap in Hin.
    apply list_elem_of_In, list_elem_of_omap in Hin as (it & _ & Hres).
    pose proof (resolve_item_sort_order _ _ _ Hres) as (_ & Hlid & _).
    unfold resolve_item in Hres. rewrite <- Hlid, Hid in Hres.
    destruct (Z.eqb_spec i 0); [contradiction |].
    destruct (pages_dict_of _ !! i) as [pg' |] eqn:Hd; [| discriminate Hres].
    injection Hres as <-. cbn in Hlp. injection Hlp as ->.
    unfold pages_dict_of in Hd.
    apply pages_dict_fold_lookup in Hd as [Hd | [Hd _]].
    + rewrite lookup_empty in Hd. discriminate Hd.
    + apply evaluate_In in Hd as (_ & Hw & _).
      rewrite top_level_pages_where in Hw.
      apply andb_true_iff in Hw as [Hw _].
      eapply base_page_queryset_narrow; eassumption.
  - intros qs m1 pg Hrun Hin. apply evaluate_In in Hin as (_ & Hw & _).
    revert Hrun. unfold get_pages_for_display, bind, get_self.
    destruct (menu_class m).
    + unfold MenuFromRootPage_get_pages_for_display, bind, get_self, raise.
      destruct (root_page m) as [root |]; [| intros H; discriminate H].
      intros H.
      assert (Hb : qs_where (get_base_page_queryset E m) (row pg) = true).
      { destruct (use_specific m =? USE_SPECIFIC_ALWAYS); injection H as <- _;
          cbn in Hw; apply andb_true_iff in Hw; tauto. }
      eapply base_page_queryset_narrow; eassumption.
    + unfold MenuWithMenuItems_get_pages_for_display, bind, get_self, ret, lift.
      destruct (max_levels m =? 1).
      { intros H. injection H as <- _. discriminate Hw. }
      destruct (top_level_items E m) as [[items m'] | e]; [| intros H; discriminate H].
      destruct (pages_loop E (max_levels m) items Page_objects_none) as [q | e];
        [| intros H; discriminate H].
      intros H.
      assert (Hb : qs_where (get_base_page_queryset E m') (row pg) = true).
      { destruct (use_specific m' =? USE_SPECIFIC_ALWAYS); injection H as <- _;
          cbn in Hw; apply andb_true_iff in Hw; tauto. }
      eapply base_page_queryset_narrow; eassumption.
Qed.


End Visibility.

(** ** Adding menu items in bulk *)

Section BulkAddMore.

Variable E : Env.

Lemma with_menu_item_rows_twice (rows rows' : list MenuItem) (m : Menu) :
  with_menu_item_rows rows' (with_menu_item_rows rows m)
    = with_menu_item_rows rows' m.
Proof. reflexivity. Qed.

(** X9: adding the pages of one queryset and then those of another leaves
    the menu with the rows it had, followed by one item per page of the
    first and then of the second queryset, numbered consecutively from the
    original row count: two batches give what one batch of all the pages
    would give. *)
Theorem add_menu_items_for_pages_in_two_batches
    (m : Menu) (qs1 qs2 : QuerySet) (sub : bool) :
  let count := Z.of_nat (length (menu_item_rows m)) in
  (_ <- add_menu_items_for_pages E qs1 sub ;;
   add_menu_items_for_pages E qs2 sub) m
  = Ok (tt,
        with_menu_item_rows
          (menu_item_rows m
           ++ imap (fun k p => item_class m p (count + Z.of_nat k) sub)
                   (evaluate (tbl E) qs1 ++ evaluate (tbl E) qs2))
          m).
Proof.
  intros count.
  unfold add_menu_items_for_pages, bind, get_self.
  rewrite !add_menu_items_loop_spec. cbn [app].
  cbn [menu_item_rows with_menu_item_rows].
  rewrite with_menu_item_rows_twice. f_equal. f_equal. f_equal.
  rewrite imap_app, (app_assoc (menu_item_rows m)). subst count. f_equal.
  apply imap_ext. intros k p _. cbn beta.
  unfold item_class. cbn [pk with_menu_item_rows]. f_equal. f_equal.
  rewrite length_app, length_imap. lia.
Qed.

(** X10: [add_menu_items_for_pages] touches nothing but the rows: the three
    cached collections stay as they are, so an instance that has already
    read its top-level items keeps serving the list from before the
    addition. *)
Theorem add_menu_items_for_pages_keeps_caches
    (m m' : Menu) (qs : QuerySet) (sub : bool) :
  add_menu_items_for_pages E qs sub m = Ok (tt, m') ->
  cached_top_level_items m' = cached_top_level_items m /\
  cached_pages_for_display m' = cached_pages_for_display m /\
  cached_page_children_dict m' = cached_page_children_dict m /\
  max_levels m' = max_levels m /\ use_specific m' = use_specific m /\
  (forall items, cached_top_level_items m = Some items ->
     top_level_items E m' = Ok (items, m')).
Proof.
  unfold add_menu_items_for_pages, bind, get_self. intros H.
  injection H as <-. cbn. repeat split.
  intros items Hc. rewrite top_level_items_run. cbn. now rewrite Hc.
Qed.

(** X11: if the [sort_order] values of the rows a menu has are all below the
    number of rows, every item added by [add_menu_items_for_pages] gets a
    [sort_order] above all of them and different from that of every other
    new item: the new items sort after the old ones, in the order of the
    pages. *)
Theorem added_items_sort_last
    (m m' : Menu) (qs : QuerySet) (sub : bool) :
  Forall (fun it => exists s, sort_order it = Some s
                              /\ s < Z.of_nat (length (menu_item_rows m)))
         (menu_item_rows m) ->
  add_menu_items_for_pages E qs sub m = Ok (tt, m') ->
  forall (i j : nat) (a b : MenuItem) (sa sb : Z),
    menu_item_rows m' !! i = Some a -> menu_item_rows m' !! j = Some b ->
    (length (menu_item_rows m) <= j)%nat -> (i < j)%nat ->
    sort_order a = Some sa -> sort_order b = Some sb ->
    sa < sb.
Proof.
  intros Hold Hrun i j a b sa sb Ha Hb Hj Hij Hsa Hsb.
  unfold add_menu_items_for_pages, bind, get_self in Hrun.
  rewrite add_menu_items_loop_spec in Hrun. cbn [app] in Hrun.
  injection Hrun as <-.
  cbn [menu_item_rows with_menu_item_rows] in Ha, Hb.
  set (count := Z.of_nat (length (menu_item_rows m))) in *.
  assert (Hnew : forall n x,
            imap (fun k p => item_class m p (count + Z.of_nat k) sub)
                 (evaluate (tbl E) qs) !! n = Some x ->
            sort_order x = Some (count + Z.of_nat n)).
  { intros n x Hn. rewrite list_lookup_imap in Hn.
    destruct (evaluate (tbl E) qs !! n); [| discriminate Hn].
    cbn in Hn. injection Hn as <-. reflexivity. }
  rewrite lookup_app_r in Hb by exact Hj.
  pose proof (Hnew _ _ Hb) as Hsb'.
  rewrite Hsb in Hsb'. injection Hsb' as ->.
  destruct (decide (i < length (menu_item_rows m))%nat) as [Hi | Hi].
  - rewrite lookup_app_l in Ha by exact Hi.
    destruct (Forall_lookup_1 _ _ _ _ Hold Ha) as (s & Hs & Hlt).
    rewrite Hsa in Hs. injection Hs as ->. subst count. lia.
  - rewrite lookup_app_r in Ha by lia.
    pose proof (Hnew _ _ Ha) as Hsa'.
    rewrite Hsa in Hsa'. injection Hsa' as ->. lia.
Qed.

End BulkAddMore.

(** ** Flat menus: validation and lookup *)

Lemma first_cons (a : FlatMenu) (l : list FlatMenu) :
  first (a :: l)
  = match first l with
    | None => Some a
    | Some y => if fm_pk a <=? fm_pk y then Some a else Some y
    end.
Proof. reflexivity. Qed.

Lemma first_Some (l : list FlatMenu) (x : FlatMenu) :
  first l = Some x -> In x l /\ forall y, In y l -> fm_pk x <= fm_pk y.
Proof.
  revert x. induction l as [| a l IH]; intros x H; [discriminate H |].
  rewrite first_cons in H. destruct (first l) as [y |] eqn:Hf.
  - destruct (IH y eq_refl) as [Hin Hmin].
    destruct (Z.leb_spec (fm_pk a) (fm_pk y)); injection H as <-.
    + split; [now left |]. intros z [<- | Hz]; [lia |].
      specialize (Hmin z Hz). lia.
    + split; [now right |]. intros z [<- | Hz]; [lia | auto].
  - injection H as <-. apply first_None in Hf. subst l.
    split; [now left |]. intros z [<- | []]. lia.
Qed.

Lemma filter_unique_singleton (objects : list FlatMenu) (f : FlatMenu -> bool)
    (i : nat) (a : FlatMenu) :
  objects !! i = Some a -> f a = true ->
  (forall j b, objects !! j = Some b -> f b = true -> j = i) ->
  List.filter f objects = [a].
Proof.
  revert i. induction objects as [| x l IH]; intros i Hi Ha Hu; [discriminate Hi |].
  destruct i as [| i]; cbn in Hi.
  - injection Hi as ->. cbn. rewrite Ha. f_equal.
    apply filter_nil_iff. intros y Hy.
    destruct (f y) eqn:Hfy; [| reflexivity].
    apply list_elem_of_In, list_elem_of_lookup in Hy as [j Hj].
    specialize (Hu (S j) y Hj Hfy). discriminate Hu.
  - cbn. destruct (f x) eqn:Hfx.
    + specialize (Hu 0%nat x eq_refl Hfx). discriminate Hu.
    + apply (IH i Hi Ha). intros j b Hj Hb.
      specialize (Hu (S j) b Hj Hb). now injection Hu.
Qed.

Lemma flat_menu_clean_ok_iff
    (objects : list FlatMenu) (self : FlatMenuObject) :
  AbstractFlatMenu_clean objects self = Ok tt <->
  forall fm, In fm objects ->
    ~ (site_pk (site fm) = site_pk (self_site self) /\
       handle fm = self_handle self /\
       (truthy_id (self_pk self) = true -> self_pk self <> Some (fm_pk fm))).
Proof.
  set (same := fun fm => (site_pk (site fm) =? site_pk (self_site self))
                         && String.eqb (handle fm) (self_handle self)).
  assert (Hsame : forall fm, same fm = true <->
            site_pk (site fm) = site_pk (self_site self)
            /\ handle fm = self_handle self).
  { intros fm. unfold same. rewrite andb_true_iff, Z.eqb_eq.
    now rewrite String.eqb_eq. }
  unfold AbstractFlatMenu_clean. fold same.
  destruct (self_pk self) as [k |] eqn:Hpk; cbn [truthy_id].
  + destruct (negb (k =? 0)) eqn:Hk.
    * destruct (List.filter _ (List.filter same objects)) as [| x rest] eqn:Hf.
      -- split; [intros _ | reflexivity].
         intros fm Hin (Hs & Hh & Hne).
         assert (Hx : In fm (List.filter (fun fm => negb (fm_pk fm =? k))
                               (List.filter same objects))).
         { apply filter_In. split.
           - apply filter_In. split; [exact Hin |]. apply Hsame. auto.
           - apply negb_true_iff, Z.eqb_neq. intros Heq. apply Hne; congruence. }
         rewrite Hf in Hx. exact Hx.
      -- split; [intros H; discriminate H |]. intros Hno. exfalso.
         assert (Hx : In x (x :: rest)) by now left.
         rewrite <- Hf in Hx. apply filter_In in Hx as [Hx Hxk].
         apply filter_In in Hx as [Hx Hxs]. apply Hsame in Hxs as [Hs Hh].
         apply (Hno x Hx). split; [exact Hs |]. split; [exact Hh |].
         intros _ Heq. injection Heq as ->.
         rewrite Z.eqb_refl in Hxk. discriminate Hxk.
    * destruct (List.filter same objects) as [| x rest] eqn:Hf.
      -- split; [intros _ | reflexivity].
         intros fm Hin (Hs & Hh & _).
         assert (Hx : In fm (List.filter same objects)).
         { apply filter_In. split; [exact Hin |]. apply Hsame. auto. }
         rewrite Hf in Hx. exact Hx.
      -- split; [intros H; discriminate H |]. intros Hno. exfalso.
         assert (Hx : In x (x :: rest)) by now left.
         rewrite <- Hf in Hx. apply filter_In in Hx as [Hx Hxs].
         apply Hsame in Hxs as [Hs Hh].
         apply (Hno x Hx). split; [exact Hs |]. split; [exact Hh |].
         intros Ht. discriminate Ht.
  + destruct (List.filter same objects) as [| x rest] eqn:Hf.
    * split; [intros _ | reflexivity].
      intros fm Hin (Hs & Hh & _).
      assert (Hx : In fm (List.filter same objects)).
      { apply filter_In. split; [exact Hin |]. apply Hsame. auto. }
      rewrite Hf in Hx. exact Hx.
    * split; [intros H; discriminate H |]. intros Hno. exfalso.
      assert (Hx : In x (x :: rest)) by now left.
      rewrite <- Hf in Hx. apply filter_In in Hx as [Hx Hxs].
      apply Hsame in Hxs as [Hs Hh].
      apply (Hno x Hx). split; [exact Hs |]. split; [exact Hh |].
      intros Ht. discriminate Ht.
Qed.

(** X12: [AbstractFlatMenu.clean] passes exactly when no row other than
    the object itself (recognised by its primary key, if it has one) has the
    object's site and handle, and otherwise reports the same message on the
    fields [site] and [handle].  For an object that was never saved this is
    exactly when [get_for_site] without fallback finds nothing for its
    handle and site. *)
Theorem flat_menu_clean_rejects_clashes
    (objects : list FlatMenu) (self : FlatMenuObject) :
  let clash fm :=
    site_pk (site fm) = site_pk (self_site self) /\
    handle fm = self_handle self /\
    (truthy_id (self_pk self) = true -> self_pk self <> Some (fm_pk fm)) in
  (AbstractFlatMenu_clean objects self = Ok tt <->
     forall fm, In fm objects -> ~ clash fm) /\
  (AbstractFlatMenu_clean objects self <> Ok tt ->
     AbstractFlatMenu_clean objects self
       = Raise (Invalid (FieldErrors
           [("site", [unique_message]); ("handle", [unique_message])]))) /\
  (self_pk self = None ->
     (AbstractFlatMenu_clean objects self = Ok tt <->
      get_for_site objects (self_handle self) (self_site self) false = None)).
Proof.
  intros clash. split; [| split].
  - apply flat_menu_clean_ok_iff.
  - unfold AbstractFlatMenu_clean.
    destruct (if truthy_id (self_pk self) then _ else _); [congruence | reflexivity].
  - intros Hpk. unfold AbstractFlatMenu_clean, get_for_site. rewrite Hpk.
    cbn [truthy_id]. rewrite andb_false_r. cbn [andb].
    rewrite first_None.
    rewrite (filter_ext
               (fun fm => String.eqb (handle fm) (self_handle self)
                          && (site_pk (site fm) =? site_pk (self_site self)))
               (fun fm => (site_pk (site fm) =? site_pk (self_site self))
                          && String.eqb (handle fm) (self_handle self)))
      by (intros fm; apply andb_comm).
    destruct (List.filter _ objects); split; intros H;
      reflexivity || discriminate H.
Qed.

(** X13: whatever [get_for_site] returns is a row of the table with the
    requested handle; it belongs to the given site, or else the fallback
    was asked for, the given site is not the default site, and the row
    belongs to a default site.  When the site has a row of its own with the
    handle, a default site's row is never returned. *)
Theorem get_for_site_returns_only_matching_menus
    (objects : list FlatMenu) (h : string) (s : Site) (fb : bool)
    (fm : FlatMenu) :
  get_for_site objects h s fb = Some fm ->
  In fm objects /\ handle fm = h /\
  (site_pk (site fm) = site_pk s
   \/ (fb = true /\ is_default_site s = false
       /\ is_default_site (site fm) = true
       /\ forall own, In own objects -> handle own = h ->
            site_pk (site own) <> site_pk s)).
Proof.
  unfold get_for_site.
  set (for_site := fun fm => String.eqb (handle fm) h
                             && (site_pk (site fm) =? site_pk s)).
  destruct (first (List.filter for_site objects)) as [menu |] eqn:Hown.
  - cbn [andb]. intros H. injection H as ->.
    apply first_Some in Hown as [Hin _]. apply filter_In in Hin as [Hin Hf].
    unfold for_site in Hf. apply andb_true_iff in Hf as [Hh Hs].
    apply String.eqb_eq in Hh. apply Z.eqb_eq in Hs. auto.
  - destruct fb, (is_default_site s) eqn:Hds; cbn [andb negb];
      try (intros H; discriminate H).
    intros H. apply first_Some in H as [Hin _].
    apply filter_In in Hin as [Hin Hf].
    apply andb_true_iff in Hf as [Hh Hd]. apply String.eqb_eq in Hh.
    split; [exact Hin |]. split; [exact Hh |]. right.
    repeat split; try assumption.
    intros own Hoin Hoh Hos.
    pose proof (proj1 (first_filter_None for_site objects) Hown own Hoin) as Hno.
    unfold for_site in Hno. rewrite Hoh, Hos, String.eqb_refl, Z.eqb_refl in Hno.
    discriminate Hno.
Qed.

(** X14: on a table that satisfies [unique_together], validation and lookup
    fit together: a stored menu with a non-zero primary key always passes
    [clean], [get_for_site] returns exactly the stored menu of a site and
    handle, and saving an object that passed [clean] keeps the table
    unique, after which [get_for_site] finds the new row. *)
Theorem unique_flat_menus_validate_and_resolve (objects : list FlatMenu) :
  unique_together objects ->
  (forall fm, In fm objects -> fm_pk fm <> 0 ->
     AbstractFlatMenu_clean objects (stored fm) = Ok tt) /\
  (forall fm fb, In fm objects ->
     get_for_site objects (handle fm) (site fm) fb = Some fm) /\
  (forall self k, self_pk self = None ->
     AbstractFlatMenu_clean objects self = Ok tt ->
     unique_together (objects ++ [row_of k self]) /\
     forall fb,
       get_for_site (objects ++ [row_of k self])
                    (self_handle self) (self_site self) fb
         = Some (row_of k self)).
Proof.
  intros Hu.
  assert (Hlookup : forall (objs : list FlatMenu) fm fb,
            unique_together objs -> In fm objs ->
            get_for_site objs (handle fm) (site fm) fb = Some fm).
  { intros objs fm fb Huo Hin.
    apply list_elem_of_In, list_elem_of_lookup in Hin as [i Hi].
    unfold get_for_site.
    rewrite (filter_unique_singleton objs _ i fm Hi).
    - reflexivity.
    - now rewrite String.eqb_refl, Z.eqb_refl.
    - intros j b Hj Hb. apply andb_true_iff in Hb as [Hh Hs].
      apply String.eqb_eq in Hh. apply Z.eqb_eq in Hs.
      exact (Huo j i b fm Hj Hi Hs Hh). }
  split; [| split].
  - intros fm Hin Hpk.
    apply (proj2 (flat_menu_clean_ok_iff objects (stored fm))).
    intros b Hb (Hs & Hh & Hne). cbn in Hs, Hh, Hne.
    apply list_elem_of_In, list_elem_of_lookup in Hin as [i Hi].
    apply list_elem_of_In, list_elem_of_lookup in Hb as [j Hj].
    pose proof (Hu j i b fm Hj Hi Hs Hh) as ->.
    rewrite Hi in Hj. injection Hj as ->.
    apply Hne; [| reflexivity].
    apply negb_true_iff, Z.eqb_neq. exact Hpk.
  - intros fm fb Hin. now apply Hlookup.
  - intros self k Hpk Hclean.
    pose proof (proj1 (flat_menu_clean_ok_iff objects self) Hclean) as Hno.
    assert (Hu' : unique_together (objects ++ [row_of k self])).
    { intros i j a b Hi Hj Hs Hh.
      assert (Hnew : forall n x, (objects ++ [row_of k self]) !! n = Some x ->
                (n < length objects)%nat /\ objects !! n = Some x
                \/ n = length objects /\ x = row_of k self).
      { intros n x Hn. destruct (decide (n < length objects)%nat) as [Hlt | Hge].
        - left. split; [exact Hlt |]. now rewrite lookup_app_l in Hn.
        - right. rewrite lookup_app_r in Hn by lia.
          destruct (n - length objects)%nat as [| n'] eqn:Hd; [| discriminate Hn].
          injection Hn as <-. split; [lia | reflexivity]. }
      destruct (Hnew i a Hi) as [[_ Hia] | [-> ->]];
        destruct (Hnew j b Hj) as [[_ Hjb] | [-> ->]].
      - exact (Hu i j a b Hia Hjb Hs Hh).
      - exfalso. apply (Hno a).
        + apply list_elem_of_In, list_elem_of_lookup. eauto.
        + cbn in Hs, Hh. rewrite Hpk. split; [exact Hs |]. split; [exact Hh |].
          intros Ht. discriminate Ht.
      - exfalso. apply (Hno b).
        + apply list_elem_of_In, list_elem_of_lookup. eauto.
        + cbn in Hs, Hh. rewrite Hpk. split; [now symmetry |].
          split; [now symmetry |]. intros Ht. discriminate Ht.
      - reflexivity. }
    split; [exact Hu' |]. intros fb.
    apply (Hlookup (objects ++ [row_of k self]) (row_of k self) fb Hu').
    apply in_or_app. right. now left.
Qed.

(** ** models.py: the page map, repeated items, menu text *)

Lemma NoDup_fmap_In_inj {A B} (f : A -> B) (l : list A) (a b : A) :
  NoDup (f <$> l) -> In a l -> In b l -> f a = f b -> a = b.
Proof.
  induction l as [| x l IH]; intros Hnd Ha Hb Hf; [destruct Ha |].
  cbn in Hnd. apply NoDup_cons in Hnd as [Hx Hnd].
  destruct Ha as [-> | Ha], Hb as [-> | Hb].
  - reflexivity.
  - exfalso. apply Hx. rewrite Hf. apply list_elem_of_fmap.
    exists b. split; [reflexivity | now apply list_elem_of_In].
  - exfalso. apply Hx. rewrite <- Hf. apply list_elem_of_fmap.
    exists a. split; [reflexivity | now apply list_elem_of_In].
  - now apply IH.
Qed.

Section PageMap.

Variable E : Env.

Lemma create_page_map_fold (pages : list PageInstance)
    (a : gmap Z PageInstance) (b : gmap string (list PageInstance)) :
  fold_left
    (fun (acc : gmap Z PageInstance * gmap string (list PageInstance)) page =>
       let pages := <[page_id (row page) := page]> (fst acc) in
       let k := slice_to_minus (steplen E) (path (row page)) in
       let pages_children :=
         <[k := default [] (snd acc !! k) ++ [page]]> (snd acc) in
       (pages, pages_children))
    pages (a, b)
  = (fold_left (fun d p => <[page_id (row p) := p]> d) pages a,
     fold_left
       (fun d page =>
          let k := slice_to_minus (steplen E) (path (row page)) in
          <[k := default [] (d !! k) ++ [page]]> d)
       pages b).
Proof.
  revert a b. induction pages as [| p pages IH]; intros a b; [reflexivity |].
  cbn [fold_left]. cbn zeta. cbn [fst snd]. apply IH.
Qed.

(** X15: [create_page_map_from_qs] builds, in one pass, the map by primary
    key and the same children index as [Menu.page_children_dict] builds from
    the same pages.  Every page is listed under its parent path, each list
    holds exactly the pages with that parent path in their original order,
    and when the primary keys are distinct every page is found under its
    own key. *)
Theorem create_page_map_from_qs_indexes_every_page (pages : list PageInstance) :
  let result := create_page_map_from_qs (steplen E) pages in
  snd result = children_dict_of E pages /\
  (forall k,
     default [] (snd result !! k)
       = List.filter
           (fun pg => String.eqb (slice_to_minus (steplen E) (path (row pg))) k)
           pages) /\
  (forall pg, In pg pages ->
     In pg (default [] (snd result
                        !! slice_to_minus (steplen E) (path (row pg))))) /\
  (forall i pg, fst result !! i = Some pg ->
     In pg pages /\ page_id (row pg) = i) /\
  (NoDup ((fun pg => page_id (row pg)) <$> pages) ->
     forall pg, In pg pages -> fst result !! page_id (row pg) = Some pg).
Proof.
  intros result.
  assert (Hres : result = (pages_dict_of pages, children_dict_of E pages)).
  { subst result. unfold create_page_map_from_qs. apply create_page_map_fold. }
  rewrite Hres. cbn [fst snd].
  assert (Hlook : forall i pg, pages_dict_of pages !! i = Some pg ->
            In pg pages /\ page_id (row pg) = i).
  { intros i pg H. unfold pages_dict_of in H.
    apply pages_dict_fold_lookup in H as [H | H]; [| exact H].
    rewrite lookup_empty in H. discriminate H. }
  split; [reflexivity |]. split; [| split; [| split]].
  - intros k. apply children_dict_of_lookup.
  - intros pg Hin. rewrite (proj1 (children_dict_of_lookup E pages _)).
    apply filter_In. split; [exact Hin | apply String.eqb_refl].
  - exact Hlook.
  - intros Hnd pg Hin.
    destruct (pages_dict_fold_dom pages ∅ (page_id (row pg))) as [pg' Hpg'].
    { right. eauto. }
    fold (pages_dict_of pages) in Hpg'. rewrite Hpg'. f_equal.
    destruct (Hlook _ _ Hpg') as [Hin' Hid].
    exact (NoDup_fmap_In_inj (fun pg => page_id (row pg)) pages pg' pg
             Hnd Hin' Hin Hid).
Qed.

End PageMap.

Section RepeatedItems.

Variable relative_url : Page -> Site -> string.
Variable ACTIVE_CLASS : string.


End RepeatedItems.

Section MenuText.

Variable E : Env.
Variable page_title : Page -> string.

(** X17: an item that passes [MenuItem.clean] always has a text to show:
    [menu_text] returns the item's own link text when there is one, the
    title of the linked page otherwise, and the result is not empty as long
    as the linked page has a title. *)
Theorem validated_item_has_menu_text (item : MenuItem) :
  clean E item = Ok tt ->
  (forall pg, item_link_page E item = Ok (Some pg) -> page_title (row pg) <> "") ->
  exists text,
    menu_text E page_title item = Ok text /\ text <> "" /\
    (truthy_str (link_text item) = true -> text = link_text item) /\
    (truthy_str (link_text item) = false ->
     exists pg, item_link_page E item = Ok (Some pg)
                /\ text = page_title (row pg)).
Proof.
  intros Hclean Htitle. unfold clean in Hclean. unfold menu_text.
  assert (Hstr : forall s, truthy_str s = true -> s <> "").
  { intros s H ->. discriminate H. }
  destruct (truthy_ostr (link_url item)) eqn:Hurl;
    destruct (truthy_str (link_text item)) eqn:Htext;
    cbn [andb negb rbind] in Hclean; try discriminate Hclean;
    destruct (item_link_page E item) as [[pg |] | e] eqn:Hlp;
    cbn [rbind] in Hclean |- *; try discriminate Hclean.
  - eexists. split; [reflexivity |].
    split; [now apply Hstr |]. split; [reflexivity | intros H; discriminate H].
  - eexists. split; [reflexivity |].
    split; [now apply Hstr |]. split; [reflexivity | intros H; discriminate H].
  - eexists. split; [reflexivity |].
    split; [now apply Htitle |]. split; [intros H; discriminate H |].
    intros _. eauto.
Qed.

End MenuText.

(** ** models.py: get_all_pages *)

Section AllPages.

Variable E : Env.

Lemma get_all_pages_fold (n : Z) (links : list LinkValues) (acc : QuerySet) :
  let step := fun tree_pages item =>
    let page_path := v_path item in
    let page_depth := v_depth item in
    let branch_pages :=
      if v_allow_subnav item && (SECTION_ROOT_DEPTH E <=? page_depth)
      then qs_filter
             (fun p => String.prefix page_path (path p)
                       && (depth p <=? page_depth + (n - 1)))
             Page_objects
      else qs_filter (fun p => String.eqb (path p) page_path) Page_objects in
    qs_or tree_pages branch_pages in
  qs_specific (fold_left step links acc) = qs_specific acc /\
  forall p, qs_where (fold_left step links acc) p = true <->
    qs_where acc p = true \/ exists item, In item links /\ link_selects E n item p.
Proof.
  intros step. revert acc. induction links as [| item links IH]; intros acc.
  - cbn. split; [reflexivity |]. intros p. split; [tauto |].
    intros [H | (it & [] & _)]. exact H.
  - cbn [fold_left]. destruct (IH (step acc item)) as [IHs IHw].
    split; [rewrite IHs; reflexivity |]. intros p. rewrite IHw. clear IH IHs IHw.
    assert (Hstep : qs_where (step acc item) p = true <->
              qs_where acc p = true \/ link_selects E n item p).
    { subst step. cbn beta zeta. unfold link_selects.
      destruct (v_allow_subnav item) eqn:Hsub;
        destruct (Z.leb_spec (SECTION_ROOT_DEPTH E) (v_depth item)); cbn;
        rewrite orb_true_iff, ?andb_true_iff, ?Z.leb_le, ?String.eqb_eq;
        intuition (try discriminate; try lia). }
    rewrite Hstep. split.
    + intros [[H | H] | (it & Hin & Hsel)].
      * now left.
      * right. exists item. split; [now left | exact H].
      * right. exists it. split; [now right | exact Hsel].
    + intros [H | (it & [<- | Hin] & Hsel)].
      * left. now left.
      * left. now right.
      * right. eauto.
Qed.

(** X18: [Menu.get_all_pages] of models.py selects exactly the live,
    unexpired pages shown in menus that are the page of one of the menu's
    links or, for a link that allows a sub-menu and lies at the section root
    depth or below, have the link's path as a prefix and a depth of at most
    the link's depth plus [max_levels - 1].  The queryset is specific
    exactly when [use_specific] is set, it only grows with [max_levels], and
    it contains every visible page that the newer [get_pages_for_display]
    takes from the branch of such a link. *)
Theorem get_all_pages_selects
    (links : list LinkValues) (n : Z) (spec : bool) :
  qs_specific (get_all_pages E links n spec) = spec /\
  (forall p, qs_where (get_all_pages E links n spec) p = true <->
     visible p /\ exists item, In item links /\ link_selects E n item p) /\
  (forall n' p, n <= n' ->
     qs_where (get_all_pages E links n spec) p = true ->
     qs_where (get_all_pages E links n' spec) p = true) /\
  (forall item p, In item links ->
     v_allow_subnav item = true -> SECTION_ROOT_DEPTH E <= v_depth item ->
     visible p ->
     qs_where (branch (v_depth item) n (v_path item)) p = true ->
     qs_where (get_all_pages E links n spec) p = true).
Proof.
  assert (Hw : forall k p, qs_where (get_all_pages E links k spec) p = true <->
            visible p /\ exists item, In item links /\ link_selects E k item p).
  { intros k p. unfold get_all_pages.
    destruct (get_all_pages_fold k links Page_objects_none) as [_ Hf].
    cbn zeta in Hf.
    assert (Hq : forall q, qs_where (if spec then specific q else q) p
                           = qs_where q p) by (intros q; now destruct spec).
    rewrite Hq. cbn [qs_filter qs_where]. rewrite andb_true_iff, Hf.
    unfold visible. cbn [Page_objects_none qs_where].
    rewrite !andb_true_iff, negb_true_iff.
    intuition discriminate. }
  split; [| split; [exact (Hw n) | split]].
  - unfold get_all_pages.
    destruct (get_all_pages_fold n links Page_objects_none) as [Hs _].
    cbn zeta in Hs. destruct spec; [reflexivity |].
    cbn [qs_filter qs_specific]. rewrite Hs. reflexivity.
  - intros n' p Hle Hp. apply Hw. apply Hw in Hp as [Hv (item & Hin & Hsel)].
    split; [exact Hv |]. exists item. split; [exact Hin |].
    destruct Hsel as [(H1 & H2 & H3 & H4) | H]; [left | now right].
    repeat split; try assumption. lia.
  - intros item p Hin Hsub Hroot Hv Hb. apply Hw. split; [exact Hv |].
    exists item. split; [exact Hin |]. left.
    apply branch_where in Hb as [Hd Hpre].
    repeat split; try assumption. lia.
Qed.

End AllPages.

(** ** api/v1/form_fields.py: the boolean select *)

(** Evaluate a dictionary display and unfold the lookup of a key in it. *)
Ltac py_lookup :=
  repeat match goal with
         | |- context [py_dict ?l] =>
             let d := eval vm_compute in (py_dict l) in
             change (py_dict l) with d
         end;
  cbn [py_get py_eq Bool.eqb In].

Ltac py_cases s :=
  repeat match goal with
         | |- context [String.eqb ?a s] => destruct (String.eqb_spec a s)
         end.

Ltac py_close :=
  subst; repeat split; auto 10; intros H; try discriminate H;
  repeat destruct H as [H | H]; try discriminate H; try congruence;
  try (destruct H).

(** The spellings of a truth value that the widget knows. *)
Lemma parse_value_spec (v : PyVal) (b : bool) :
  py_get
    (py_dict
       [(PyBool true, true); (PyBool false, false);
        (PyStr "True", true); (PyStr "False", false);
        (PyStr "true", true); (PyStr "false", false);
        (PyStr "1", true); (PyStr "0", false)]) v = Some b
  <-> In v (if b
            then [PyBool true; PyInt 1; PyStr "True"; PyStr "true"; PyStr "1"]
            else [PyBool false; PyInt 0; PyStr "False"; PyStr "false"; PyStr "0"]).
Proof.
  destruct v as [| x | z | s]; py_lookup.
  - destruct b; py_lookup; py_close.
  - destruct x, b; py_lookup; py_close.
  - destruct (Z.eqb_spec z 1) as [-> | H1];
      [| destruct (Z.eqb_spec z 0) as [-> | H0]];
      destruct b; py_lookup; py_close.
  - py_cases s; destruct b; py_lookup; py_close.
Qed.

Lemma format_value_spec (v : PyVal) :
  (format_value v = "true" <->
   In v [PyBool true; PyInt 1; PyStr "True"; PyStr "true"; PyStr "1"]) /\
  (format_value v = "false" <->
   In v [PyBool false; PyInt 0; PyStr "False"; PyStr "false"; PyStr "0"]) /\
  (format_value v = "true" \/ format_value v = "false" \/ format_value v = "").
Proof.
  unfold format_value. destruct v as [| x | z | s]; py_lookup.
  - py_close.
  - destruct x; py_close.
  - destruct (Z.eqb_spec z 1) as [-> | H1];
      [| destruct (Z.eqb_spec z 0) as [-> | H0]]; py_close.
  - py_cases s; py_close.
Qed.

(** X19: [format_value] and [value_from_datadict] of the boolean select
    know the same spellings: a submitted value is formatted as 'true'
    (respectively 'false') exactly when it is parsed as True (respectively
    False), and as the empty string exactly when it is parsed as None.
    Formatting always gives one of these three strings, formatting a
    formatted value changes nothing, and parsing the formatted value gives
    what parsing the value gave. *)
Theorem boolean_select_parses_what_it_formats
    (data : gmap string PyVal) (name : string) (v : PyVal) :
  data !! name = Some v ->
  (format_value v = "true" <-> value_from_datadict data name = Some true) /\
  (format_value v = "false" <-> value_from_datadict data name = Some false) /\
  (format_value v = "" <-> value_from_datadict data name = None) /\
  format_value (PyStr (format_value v)) = format_value v /\
  value_from_datadict (<[name := PyStr (format_value v)]> data) name
    = value_from_datadict data name.
Proof.
  intros Hv. unfold value_from_datadict. rewrite lookup_insert_eq, Hv.
  cbn [default from_option id].
  destruct (format_value_spec v) as (Ht & Hf & Hcases).
  pose proof (parse_value_spec v true) as Pt.
  pose proof (parse_value_spec v false) as Pf.
  cbv iota in Pt, Pf.
  split; [now rewrite Ht, Pt |]. split; [now rewrite Hf, Pf |].
  assert (Hnone : format_value v = "" <->
            py_get
              (py_dict
                 [(PyBool true, true); (PyBool false, false);
                  (PyStr "True", true); (PyStr "False", false);
                  (PyStr "true", true); (PyStr "false", false);
                  (PyStr "1", true); (PyStr "0", false)]) v = None).
  { destruct (py_get _ v) as [[|] |] eqn:Hp.
    - rewrite (proj2 Ht (proj1 Pt eq_refl)). split; intros H; discriminate H.
    - rewrite (proj2 Hf (proj1 Pf eq_refl)). split; intros H; discriminate H.
    - split; [reflexivity |]. intros _.
      destruct Hcases as [H | [H | H]]; [| | exact H].
      + apply Ht, Pt in H. discriminate H.
      + apply Hf, Pf in H. discriminate H. }
  split; [exact Hnone |].
  destruct Hcases as [H | [H | H]]; rewrite H.
  - split; [reflexivity |]. apply Ht, Pt in H. now rewrite H.
  - split; [reflexivity |]. apply Hf, Pf in H. now rewrite H.
  - split; [reflexivity |]. apply Hnone in H. now rewrite H.
Qed.

(** X20: [BooleanChoiceField.clean] applied to what the widget reads from
    the submitted data returns True or False exactly for the ten spellings
    of the two truth values (the booleans, 1 and 0, and the strings 'True',
    'true', '1', 'False', 'false', '0'), and raises a validation error for
    every other value and for a missing name; it never guesses. *)
Theorem boolean_choice_field_accepts_only_known_spellings
    (data : gmap string PyVal) (name : string) :
  (forall b,
     BooleanChoiceField_clean (value_from_datadict data name) = Ok b <->
     exists v, data !! name = Some v /\
       In v (if b
             then [PyBool true; PyInt 1; PyStr "True"; PyStr "true"; PyStr "1"]
             else [PyBool false; PyInt 0; PyStr "False"; PyStr "false";
                   PyStr "0"])) /\
  ((forall b, BooleanChoiceField_clean (value_from_datadict data name) <> Ok b) ->
   BooleanChoiceField_clean (value_from_datadict data name)
     = Raise (Invalid (NonFieldError "This value must be 'true' or 'false'"))) /\
  (data !! name = None ->
   BooleanChoiceField_clean (value_from_datadict data name)
     = Raise (Invalid (NonFieldError "This value must be 'true' or 'false'"))).
Proof.
  unfold value_from_datadict. split; [| split].
  - intros b. destruct (data !! name) as [v |] eqn:Hv; cbn [default from_option id].
    + destruct (py_get _ v) as [b' |] eqn:Hp; cbn.
      * split.
        -- intros H. injection H as ->. exists v. split; [reflexivity |].
           now apply parse_value_spec.
        -- intros (v' & Hv' & Hin). injection Hv' as <-.
           apply parse_value_spec in Hin. congruence.
      * split; [intros H; discriminate H |].
        intros (v' & Hv' & Hin). injection Hv' as <-.
        apply parse_value_spec in Hin. congruence.
    + cbn. split; [intros H; discriminate H |].
      intros (v' & Hv' & _). discriminate Hv'.
  - intros Hno. destruct (py_get _ _) as [b |]; [| reflexivity].
    exfalso. now apply (Hno b).
  - intros ->. reflexivity.
Qed.

(** ** api/v1/views.py: argument data *)

Lemma find_app_first {A} (f : A -> bool) (l1 l2 : list A) :
  List.find f (l1 ++ l2)
  = match List.find f l1 with
    | Some x => Some x
    | None => List.find f l2
    end.
Proof.
  induction l1 as [| a l1 IH]; [reflexivity |].
  cbn [app List.find]. now destruct (f a).
Qed.

Lemma update_fold_lookup (items : list (string * string))
    (d : gmap string PyVal) (k : string) :
  fold_left (fun data kv => <[fst kv := PyStr (snd kv)]> data) items d !! k
  = match List.find (fun kv => String.eqb (fst kv) k) (rev items) with
    | Some kv => Some (PyStr (snd kv))
    | None => d !! k
    end.
Proof.
  revert d. induction items as [| [k' s] items IH]; intros d; [reflexivity |].
  cbn [fold_left rev]. rewrite IH, find_app_first. cbn [fst snd].
  destruct (List.find _ (rev items)) as [kv |]; [reflexivity |].
  cbn [List.find fst snd].
  destruct (String.eqb_spec k' k) as [-> | Hne].
  - now rewrite lookup_insert_eq.
  - now rewrite lookup_insert_ne.
Qed.

(** X21: the data the argument form receives.  Every option of the view
    has an entry; a name that the query string does not mention keeps the
    view's default, and a name it mentions takes the value of its last
    item there, as a string, whatever the default was. *)
Theorem query_arguments_override_view_defaults
    (self : MenuGeneratorView) (GET_items : list (string * string)) :
  let data := get_argument_form_data self GET_items in
  (forall k, In k ["max_levels"; "use_specific"; "apply_active_classes";
                   "allow_repeating_parents"; "use_absolute_page_urls"] ->
     is_Some (data !! k)) /\
  (is_Some (fall_back_to_default_site_menus_default self) ->
     is_Some (data !! "fall_back_to_default_site_menus")) /\
  (forall k, (forall s, ~ In (k, s) GET_items) ->
     data !! k = get_argument_form_defaults self !! k) /\
  (forall k s front back, GET_items = front ++ (k, s) :: back ->
     (forall s', ~ In (k, s') back) ->
     data !! k = Some (PyStr s)).
Proof.
  intros data.
  assert (Hdata : forall k, data !! k
            = match List.find (fun kv => String.eqb (fst kv) k) (rev GET_items) with
              | Some kv => Some (PyStr (snd kv))
              | None => get_argument_form_defaults self !! k
              end).
  { intros k. apply update_fold_lookup. }
  assert (Hdef : forall k, is_Some (get_argument_form_defaults self !! k) ->
            is_Some (data !! k)).
  { intros k H. rewrite Hdata. destruct (List.find _ _); eauto. }
  split; [| split; [| split]].
  - intros k Hk. apply Hdef. unfold get_argument_form_defaults.
    cbn in Hk.
    destruct (fall_back_to_default_site_menus_default self);
      destruct Hk as [<- | [<- | [<- | [<- | [<- | []]]]]];
      vm_compute; eauto.
  - intros [v Hv]. apply Hdef. unfold get_argument_form_defaults.
    rewrite Hv, lookup_insert_eq. eauto.
  - intros k Hno. rewrite Hdata.
    destruct (List.find _ (rev GET_items)) as [[k' s] |] eqn:Hf; [| reflexivity].
    apply find_some in Hf as [Hin Heq]. cbn in Heq.
    apply String.eqb_eq in Heq. subst k'.
    apply in_rev in Hin. now apply Hno in Hin.
  - intros k s front back -> Hback. rewrite Hdata.
    rewrite rev_app_distr. cbn [rev]. rewrite <- app_assoc, find_app_first.
    destruct (List.find _ (rev back)) as [[k' s'] |] eqn:Hf.
    + apply find_some in Hf as [Hin Heq]. cbn in Heq.
      apply String.eqb_eq in Heq. subst k'. apply in_rev in Hin.
      now apply Hback in Hin.
    + cbn [app List.find fst snd]. now rewrite String.eqb_refl.
Qed.

Section ViewDefaults.

Variables CML CUS SML SUS : PyVal.

(** X22: a boolean option that the items of the query string do not
    mention is read by the boolean select and accepted by
    [BooleanChoiceField.clean] as the view's own default, whenever that
    default is a boolean.  For the four views this means: active classes
    are applied except in the children menu view, parents may repeat, page
    URLs are relative, and the flat menu view falls back to the default
    site. *)
Theorem boolean_view_defaults_are_accepted (GET_items : list (string * string)) :
  let read view name :=
    BooleanChoiceField_clean
      (value_from_datadict (get_argument_form_data view GET_items) name) in
  (forall view name b,
     (forall s, ~ In (name, s) GET_items) ->
     get_argument_form_defaults view !! name = Some (PyBool b) ->
     read view name = Ok b) /\
  forall view,
    In view [MainMenuGeneratorView; FlatMenuGeneratorView;
             ChildrenMenuGeneratorView CML CUS;
             SectionMenuGeneratorView SML SUS] ->
    ((forall s, ~ In ("apply_active_classes", s) GET_items) ->
       (read view "apply_active_classes" = Ok false <->
        view = ChildrenMenuGeneratorView CML CUS) /\
       (read view "apply_active_classes" = Ok true <->
        view <> ChildrenMenuGeneratorView CML CUS)) /\
    ((forall s, ~ In ("allow_repeating_parents", s) GET_items) ->
       read view "allow_repeating_parents" = Ok true) /\
    ((forall s, ~ In ("use_absolute_page_urls", s) GET_items) ->
       read view "use_absolute_page_urls" = Ok false) /\
    ((forall s, ~ In ("fall_back_to_default_site_menus", s) GET_items) ->
       view = FlatMenuGeneratorView ->
       read view "fall_back_to_default_site_menus" = Ok true).
Proof.
  intros read.
  assert (Hd : forall view name, (forall s, ~ In (name, s) GET_items) ->
            get_argument_form_data view GET_items !! name
            = get_argument_form_defaults view !! name).
  { intros view name Hno. unfold get_argument_form_data.
    rewrite update_fold_lookup.
    destruct (List.find _ (rev GET_items)) as [[k' s] |] eqn:Hf; [| reflexivity].
    apply find_some in Hf as [Hin Heq]. cbn in Heq.
    apply String.eqb_eq in Heq. subst k'.
    apply in_rev in Hin. now apply Hno in Hin. }
  subst read. cbn beta. unfold value_from_datadict. split.
  { intros view name b Hno Hdef. rewrite (Hd _ _ Hno), Hdef.
    now destruct b. }
  intros view Hview.
  destruct Hview as [<- | [<- | [<- | [<- | []]]]];
    (split; [| split; [| split]]); intros Hno; try intros Hflat;
    try discriminate Hflat; rewrite (Hd _ _ Hno);
    try (vm_compute; reflexivity);
    match goal with
    | |- context [BooleanChoiceField_clean ?a] =>
        let r := eval vm_compute in (BooleanChoiceField_clean a) in
        replace (BooleanChoiceField_clean a) with r by (vm_compute; reflexivity)
    end;
    unfold MainMenuGeneratorView, FlatMenuGeneratorView,
           ChildrenMenuGeneratorView, SectionMenuGeneratorView;
    split; split; intros H; try discriminate H; try reflexivity;
    try (intros H'; discriminate H'); now contradiction H.
Qed.

End ViewDefaults.

(** ** api/v1/views.py: get_menu_instance *)

Section MenuInstanceProps.

Variables (V Req Obj : Type) (v_None v_True v_empty_tuple : V).
Variable render : DummyContext V Req -> gmap string V -> option Obj.

(** X23: [get_menu_instance] raises [KeyError] when the cleaned data has no
    site, whatever else it holds.  Otherwise the menu class is called once,
    with a context made of the request, the site and the current page,
    section root and ancestor ids of the data (None, None and the empty
    tuple when absent), and with the remaining values as keyword arguments:
    none of those four names is among them, [add_sub_menus_inline] is True
    even if the data said otherwise, and every other value is passed on
    unchanged.  The result is the object the class returns, and [NotFound]
    when it returns None. *)
Theorem get_menu_instance_prepares_the_call
    (request : Req) (cleaned_data : gmap string V) :
  (cleaned_data !! "site" = None ->
     get_menu_instance V Req Obj v_None v_True v_empty_tuple render
       request cleaned_data = Raised (KeyError "site")) /\
  (forall site_, cleaned_data !! "site" = Some site_ ->
     exists (ctx : DummyContext V Req) (kwargs : gmap string V),
       get_menu_instance V Req Obj v_None v_True v_empty_tuple render
         request cleaned_data
         = match render ctx kwargs with
           | Some menu_instance => Returned menu_instance
           | None => Raised NotFound
           end /\
       ctx = mkDummyContext V Req request site_
               (default v_None (cleaned_data !! "current_page"))
               (default v_None (cleaned_data !! "section_root_page"))
               (default v_empty_tuple (cleaned_data !! "ancestor_page_ids")) /\
       kwargs !! "add_sub_menus_inline" = Some v_True /\
       (forall k, In k ["site"; "current_page"; "section_root_page";
                        "ancestor_page_ids"] -> kwargs !! k = None) /\
       (forall k, ~ In k ["site"; "current_page"; "section_root_page";
                          "ancestor_page_ids"; "add_sub_menus_inline"] ->
          kwargs !! k = cleaned_data !! k)).
Proof.
  split.
  - intros H. unfold get_menu_instance. now rewrite H.
  - intros site_ Hsite. unfold get_menu_instance. rewrite Hsite.
    eexists _, _. split; [| split; [| split; [| split]]].
    + cbv zeta. reflexivity.
    + f_equal.
      * now rewrite lookup_delete_ne.
      * now rewrite !lookup_delete_ne.
      * now rewrite !lookup_delete_ne.
    + apply lookup_insert_eq.
    + intros k Hk. cbn in Hk.
      destruct Hk as [<- | [<- | [<- | [<- | []]]]];
        rewrite lookup_insert_ne by discriminate;
        rewrite ?lookup_delete_eq;
        repeat (rewrite lookup_delete_ne by discriminate;
                rewrite ?lookup_delete_eq);
        reflexivity.
    + intros k Hk. cbn in Hk.
      rewrite lookup_insert_ne by (intros <-; tauto).
      rewrite !lookup_delete_ne by (intros <-; tauto). reflexivity.
Qed.

End MenuInstanceProps.

(** ** api/v1/form_fields.py: keyword arguments of the choice fields *)

Lemma string_prefix_spec (n h : string) :
  String.prefix n h = true <-> exists b, h = n +:+ b.
Proof.
  revert h. induction n as [| c n IH]; intros h.
  - split; [intros _; now exists h | intros _; now destruct h].
  - destruct h as [| c' h]; cbn [String.prefix].
    + split; [intros H; discriminate H | intros [b H]; discriminate H].
    + destruct (Ascii.ascii_dec c c') as [-> | Hne].
      * rewrite IH. split; intros [b Hb]; exists b; [cbn; now rewrite Hb |].
        cbn in Hb. now injection Hb.
      * split; [intros H; discriminate H |].
        intros [b Hb]. cbn in Hb. injection Hb as Hc _. congruence.
Qed.

Lemma py_str_in_spec (n h : string) :
  py_str_in n h = true <-> exists a b, h = a +:+ n +:+ b.
Proof.
  induction h as [| c h IH].
  - cbn [py_str_in]. rewrite orb_false_r, string_prefix_spec. split.
    + intros [b Hb]. now exists "", b.
    + intros (a & b & Hab). destruct a as [| ? ?]; [| discriminate Hab].
      now exists b.
  - cbn [py_str_in]. rewrite orb_true_iff, IH, string_prefix_spec. split.
    + intros [[b Hb] | (a & b & Hab)].
      * now exists "", b.
      * exists (String c a), b. cbn. now rewrite Hab.
    + intros (a & b & Hab). destruct a as [| c' a].
      * left. now exists b.
      * right. cbn in Hab. injection Hab as _ ->. now exists a, b.
Qed.

(** X24: [PageChoiceField] and [SiteChoiceField] test whether the word
    'queryset' occurs in the word 'kwargs', which it does not: whatever
    keyword arguments the caller passes, a queryset among them included, the
    field is built with the empty queryset, and every other argument is
    passed on unchanged. *)
Theorem model_choice_fields_always_use_the_empty_queryset
    (V : Type) (objects_none : V) (kwargs : gmap string V) :
  (py_str_in "queryset" "kwargs" = true <->
   exists a b, "kwargs" = a +:+ "queryset" +:+ b) /\
  ModelChoiceField_kwargs V objects_none kwargs !! "queryset" = Some objects_none /\
  (forall k, k <> "queryset" ->
     ModelChoiceField_kwargs V objects_none kwargs !! k = kwargs !! k).
Proof.
  split; [apply py_str_in_spec |].
  unfold ModelChoiceField_kwargs.
  replace (py_str_in "queryset" "kwargs") with false by reflexivity.
  cbn [negb]. split.
  - apply lookup_insert_eq.
  - intros k Hk. now apply lookup_insert_ne.
Qed.

(** X25: the keyword arguments [UseSpecificChoiceField] and
    [MaxLevelsChoiceField] pass on.  [empty_label] never gets through; the
    four arguments [choices], [coerce], [empty_value] and [help_text] are
    always present; an argument the caller gave keeps the caller's value,
    and one the caller left out gets the field's default, where the default
    choices are the empty choice, labelled by the caller's [empty_label] or
    by '-----', followed by the choices of the setting.  A caller who gives
    both [choices] and [empty_label] thus loses the label. *)
Theorem typed_choice_fields_fill_in_defaults
    (CHOICES : list (FieldArg * FieldArg)) (help_text : string)
    (kwargs : gmap string FieldArg) :
  let out := TypedChoiceField_kwargs CHOICES help_text kwargs in
  let label := default (ArgValue (PyStr "-----")) (kwargs !! "empty_label") in
  out !! "empty_label" = None /\
  (forall k v, k <> "empty_label" -> kwargs !! k = Some v -> out !! k = Some v) /\
  (kwargs !! "choices" = None ->
     out !! "choices"
       = Some (ArgChoices ((ArgValue (PyStr ""), label) :: CHOICES))) /\
  (kwargs !! "coerce" = None -> out !! "coerce" = Some ArgCoerceInt) /\
  (kwargs !! "empty_value" = None ->
     out !! "empty_value" = Some (ArgValue PyNone)) /\
  (kwargs !! "help_text" = None ->
     out !! "help_text" = Some (ArgValue (PyStr help_text))) /\
  (forall k, ~ In k ["empty_label"; "choices"; "coerce"; "empty_value";
                     "help_text"] -> out !! k = kwargs !! k).
Proof.
  intros out label. subst out. unfold TypedChoiceField_kwargs. fold label.
  set (kw := delete "empty_label" kwargs).
  assert (Hkw : forall k, k <> "empty_label" -> kw !! k = kwargs !! k).
  { intros k Hk. subst kw. now rewrite lookup_delete_ne. }
  assert (Hkw0 : kw !! "empty_label" = None).
  { subst kw. apply lookup_delete_eq. }
  rewrite <- (Hkw "choices"), <- (Hkw "coerce"), <- (Hkw "empty_value"),
    <- (Hkw "help_text") by discriminate.
  assert (Hgen : forall k v, k <> "empty_label" -> kwargs !! k = Some v ->
            kw !! k = Some v).
  { intros k v Hk H. now rewrite Hkw. }
  assert (Hrest : forall k, k <> "empty_label" -> kwargs !! k = kw !! k).
  { intros k Hk. now rewrite Hkw. }
  clearbody kw. cbn [List.filter fst snd].
  destruct (kw !! "choices") as [c |] eqn:Hc;
    destruct (kw !! "coerce") as [co |] eqn:Hco;
    destruct (kw !! "empty_value") as [ev |] eqn:Hev;
    destruct (kw !! "help_text") as [ht |] eqn:Hht;
    cbn [bool_decide decide_rel negb fold_left fst snd];
    repeat match goal with
           | |- context [bool_decide (is_Some ?o)] =>
               first [ rewrite (bool_decide_eq_true_2 (is_Some o)) by eauto
                     | rewrite (bool_decide_eq_false_2 (is_Some o))
                         by (intros [? Hx]; discriminate Hx) ]
           end;
    cbn [negb fold_left fst snd];
    (split; [simplify_map_eq; done |]);
    (split; [intros k v Hk Hv; apply Hgen in Hv; [| exact Hk];
             destruct (decide (k = "choices")) as [-> |];
             [simplify_map_eq; done |];
             destruct (decide (k = "coerce")) as [-> |];
             [simplify_map_eq; done |];
             destruct (decide (k = "empty_value")) as [-> |];
             [simplify_map_eq; done |];
             destruct (decide (k = "help_text")) as [-> |];
             [simplify_map_eq; done |];
             simplify_map_eq; done |]);
    (repeat split; try (intros Hx; try discriminate Hx; simplify_map_eq; done));
    intros k Hk; cbn in Hk; rewrite Hrest by (intros ->; tauto);
    repeat (rewrite lookup_insert_ne by (intros <-; tauto)); reflexivity.
Qed.

(** ** models/menus.py: template names *)

(** X26: the four methods that list template names keep the order their
    docstrings ask for.  The least specific name always comes last; the
    names for the site, each of them below [menus/<hostname>/], are put in
    front of the general names and appear only when
    [SITE_SPECIFIC_TEMPLATE_DIRS] is set and a site was found; the general
    names are the same in every case and do not depend on the site. *)
Theorem template_names_end_with_the_least_specific
    (SITE_SPECIFIC_TEMPLATE_DIRS : bool) (site_ : option Site)
    (name least_specific : string) :
  forall names_of,
    In names_of [get_template_names; get_sub_menu_template_names;
                 AbstractFlatMenu_get_template_names;
                 AbstractFlatMenu_get_sub_menu_template_names] ->
    let names := names_of SITE_SPECIFIC_TEMPLATE_DIRS site_ name least_specific in
    let general := names_of false None name least_specific in
    last names = Some least_specific /\
    names_of false site_ name least_specific = general /\
    names_of true None name least_specific = general /\
    exists for_site,
      names = for_site ++ general /\
      (for_site <> [] <->
       SITE_SPECIFIC_TEMPLATE_DIRS = true /\ is_Some site_) /\
      (forall s n, site_ = Some s -> In n for_site ->
         exists rest, n = "menus/" +:+ hostname s +:+ "/" +:+ rest).
Proof.
  intros names_of Hin names general. subst names general.
  destruct Hin as [<- | [<- | [<- | [<- | []]]]];
    unfold get_template_names, get_sub_menu_template_names,
           AbstractFlatMenu_get_template_names,
           AbstractFlatMenu_get_sub_menu_template_names;
    destruct SITE_SPECIFIC_TEMPLATE_DIRS, site_ as [s0 |];
    cbn [app]; (split; [reflexivity |]); (split; [reflexivity |]);
    (split; [reflexivity |]);
    match goal with
    | |- exists for_site, ?X = for_site ++ ?Y /\ _ =>
        exists (firstn (length X - length Y) X)
    end;
    cbn [length Nat.sub firstn app]; (split; [reflexivity |]);
    (split;
     [ split;
       [ intros H; first [ now contradiction H | split; [reflexivity | eauto] ]
       | intros [Hf [x Hx]]; first [ discriminate Hf | discriminate Hx
                                   | intros H; discriminate H ] ]
     | intros s n Hs Hn; cbn [In] in Hn;
       first [ discriminate Hs | injection Hs as -> ];
       repeat (destruct Hn as [<- | Hn]; [eexists; reflexivity |]);
       destruct Hn ]).
Qed.

(** ** The added properties on the example site *)

(** The children index of the three-level main menu: "about" has its two
    children under it. *)
Lemma get_children_for_page_groups_by_parent_witness :
  cached_page_children_dict main_menu_deep = None /\
  pages_for_display env0 main_menu_deep
    = Ok (main_menu_deep_pages, main_menu_deep_pages_read) /\
  (page_id <$> (row <$> default []
     (value_of (Menu_get_children_for_page env0 (instantiate false pg_about))
               main_menu_deep)))
    = [4; 5].
Proof.
  assert (Hp : pages_for_display env0 main_menu_deep
               = Ok (main_menu_deep_pages, main_menu_deep_pages_read)).
  { vm_compute. reflexivity. }
  split; [reflexivity |]. split; [exact Hp |].
  unfold value_of.
  rewrite (get_children_for_page_groups_by_parent env0 main_menu_deep
             main_menu_deep_pages_read main_menu_deep_pages
             (instantiate false pg_about) eq_refl Hp).
  vm_compute. reflexivity.
Defined.

Lemma page_has_children_iff_children_witness :
  cached_page_children_dict main_menu_deep = None /\
  pages_for_display env0 main_menu_deep
    = Ok (main_menu_deep_pages, main_menu_deep_pages_read) /\
  exists (b : bool) (children : list PageInstance) (m2 : Menu),
    page_has_children env0 (instantiate false pg_contact) main_menu_deep
      = Ok (b, m2) /\
    Menu_get_children_for_page env0 (instantiate false pg_contact) main_menu_deep
      = Ok (children, m2) /\
    (b = true <-> children <> []).
Proof.
  assert (Hp : pages_for_display env0 main_menu_deep
               = Ok (main_menu_deep_pages, main_menu_deep_pages_read)).
  { vm_compute. reflexivity. }
  split; [reflexivity |]. split; [exact Hp |].
  exact (page_has_children_iff_children env0 main_menu_deep
           main_menu_deep_pages_read main_menu_deep_pages
           (instantiate false pg_contact) eq_refl Hp).
Defined.

(** The children menu of "about" with one level: the two children are
    selected, the grandchild is not. *)
Lemma root_menu_pages_for_display_witness :
  menu_class about_children = MenuFromRootPage /\
  exists qs,
    get_pages_for_display env0 about_children = Ok (qs, about_children) /\
    qs_where qs pg_team = true /\ qs_where qs pg_founder = false.
Proof.
  split; [reflexivity |].
  destruct (proj1 (root_menu_pages_for_display env0 about_children eq_refl)
              _ eq_refl) as (qs & Hrun & Hw & _).
  exists qs. split; [exact Hrun |]. split.
  - apply Hw. split; [reflexivity |]. split; [cbn; lia | reflexivity].
  - destruct (qs_where qs pg_founder) eqn:H; [| reflexivity].
    apply Hw in H. destruct H as (_ & [_ Hd] & _). cbn in Hd. lia.
Defined.

Lemma pages_for_display_grows_with_max_levels_witness :
  page_hooks env0 = [] /\ menuitem_hooks env0 = [] /\ 2 <= 3 /\
  forall p,
    qs_where (default Page_objects_none
                (value_of (get_pages_for_display env0)
                          (with_max_levels 2 main_menu_deep))) p = true ->
    qs_where (default Page_objects_none
                (value_of (get_pages_for_display env0)
                          (with_max_levels 3 main_menu_deep))) p = true.
Proof.
  split; [reflexivity |]. split; [reflexivity |]. split; [lia |].
  apply (pages_for_display_grows_with_max_levels env0 main_menu_deep
           (state_after (get_pages_for_display env0)
                        (with_max_levels 2 main_menu_deep))
           (state_after (get_pages_for_display env0)
                        (with_max_levels 3 main_menu_deep))
           2 3 _ _ eq_refl eq_refl); [lia | |]; vm_compute; reflexivity.
Defined.

Lemma hidden_pages_are_never_displayed_witness :
  hooks_narrow env0 /\
  get_pages_for_display env0 main_menu_deep
    = Ok (main_menu_deep_pages,
          state_after (get_pages_for_display env0) main_menu_deep) /\
  forall pg, In pg (evaluate (tbl env0) main_menu_deep_pages) ->
    visible (row pg).
Proof.
  assert (Hn : hooks_narrow env0) by apply Forall_nil_2.
  assert (Hp : get_pages_for_display env0 main_menu_deep
               = Ok (main_menu_deep_pages,
                     state_after (get_pages_for_display env0) main_menu_deep)).
  { vm_compute. reflexivity. }
  split; [exact Hn |]. split; [exact Hp |].
  intros pg.
  exact (proj2 (hidden_pages_are_never_displayed env0 main_menu_deep Hn)
           _ _ pg Hp).
Defined.


(** Adding items to an instance that has read its collections: the rows
    grow, the cached top-level items do not. *)
Lemma add_menu_items_for_pages_keeps_caches_witness :
  add_menu_items_for_pages env0 (branch 3 2 "000100010001") true main_menu_read
    = Ok (tt, main_menu_read_extended) /\
  length (menu_item_rows main_menu_read_extended) = 7%nat /\
  cached_top_level_items main_menu_read_extended
    = cached_top_level_items main_menu_read /\
  (length <$> value_of (top_level_items env0) main_menu_read_extended)
    = Some 4%nat.
Proof.
  assert (Hrun : add_menu_items_for_pages env0 (branch 3 2 "000100010001") true
                   main_menu_read = Ok (tt, main_menu_read_extended)).
  { vm_compute. reflexivity. }
  split; [exact Hrun |]. split; [vm_compute; reflexivity |].
  destruct (add_menu_items_for_pages_keeps_caches env0 main_menu_read
              main_menu_read_extended _ true Hrun)
    as (Ht & _ & _ & _ & _ & _).
  split; [exact Ht |]. vm_compute. reflexivity.
Defined.

Lemma added_items_sort_last_witness :
  Forall (fun it => exists s, sort_order it = Some s
                              /\ s < Z.of_nat (length main_rows))
         main_rows /\
  add_menu_items_for_pages env0 (branch 3 2 "000100010001") true
    (main_menu 2 USE_SPECIFIC_AUTO) = Ok (tt, main_menu_extended) /\
  (sort_order <$> menu_item_rows main_menu_extended)
    = [Some 0; Some 1; Some 2; Some 3; Some 4; Some 5; Some 6] /\
  4 < 5.
Proof.
  assert (Hold : Forall (fun it => exists s, sort_order it = Some s
                              /\ s < Z.of_nat (length main_rows)) main_rows).
  { repeat constructor; eexists; (split; [reflexivity | cbn; lia]). }
  assert (Hrun : add_menu_items_for_pages env0 (branch 3 2 "000100010001") true
                   (main_menu 2 USE_SPECIFIC_AUTO)
                 = Ok (tt, main_menu_extended)).
  { vm_compute. reflexivity. }
  split; [exact Hold |]. split; [exact Hrun |].
  split; [vm_compute; reflexivity |].
  apply (added_items_sort_last env0 (main_menu 2 USE_SPECIFIC_AUTO)
           main_menu_extended _ true Hold Hrun 4%nat 5%nat
           (page_item 8 false 4)
           (item_class (main_menu 2 USE_SPECIFIC_AUTO)
                       (instantiate false pg_team) 5 true));
    try (vm_compute; reflexivity); cbn; lia.
Defined.

Lemma get_for_site_returns_only_matching_menus_witness :
  get_for_site flat_rows "contact" site_b true
    = Some (mkFlatMenu 2 site_a "Contact" "contact") /\
  In (mkFlatMenu 2 site_a "Contact" "contact") flat_rows /\
  (forall own, In own flat_rows -> handle own = "contact" ->
     site_pk (site own) <> site_pk site_b).
Proof.
  destruct (get_for_site_returns_only_matching_menus flat_rows "contact"
              site_b true (mkFlatMenu 2 site_a "Contact" "contact") eq_refl)
    as (Hin & _ & [Hs | (_ & _ & _ & Hown)]).
  - discriminate Hs.
  - split; [reflexivity |]. split; [exact Hin | exact Hown].
Defined.

Lemma flat_rows_unique : unique_together flat_rows.
Proof.
  intros i j a b Hi Hj Hs Hh.
  destruct i as [| [| [| i]]]; destruct j as [| [| [| j]]];
    cbn in Hi, Hj; try discriminate Hi; try discriminate Hj;
    injection Hi as <-; injection Hj as <-; cbn in Hs, Hh;
    try reflexivity; try discriminate Hs; discriminate Hh.
Defined.

(** The stored menus validate, and a new "contact" menu for the second
    site validates, is saved, and is then found instead of the default
    site's. *)
Lemma unique_flat_menus_validate_and_resolve_witness :
  unique_together flat_rows /\
  AbstractFlatMenu_clean flat_rows (stored (mkFlatMenu 3 site_b "Footer" "footer"))
    = Ok tt /\
  AbstractFlatMenu_clean flat_rows new_contact_menu = Ok tt /\
  unique_together (flat_rows ++ [row_of 4 new_contact_menu]) /\
  get_for_site (flat_rows ++ [row_of 4 new_contact_menu]) "contact" site_b true
    = Some (row_of 4 new_contact_menu).
Proof.
  destruct (unique_flat_menus_validate_and_resolve flat_rows flat_rows_unique)
    as (Hstored & _ & Hnew).
  split; [exact flat_rows_unique |]. split.
  - apply Hstored; [right; right; left; reflexivity | cbn; lia].
  - assert (Hc : AbstractFlatMenu_clean flat_rows new_contact_menu = Ok tt)
      by reflexivity.
    destruct (Hnew new_contact_menu 4 eq_refl Hc) as [Hu Hg].
    split; [exact Hc |]. split; [exact Hu | exact (Hg true)].
Defined.

Lemma validated_item_has_menu_text_witness :
  clean env0 (page_item 3 true 1) = Ok tt /\
  menu_text env0 (fun _ => "About") (page_item 3 true 1) = Ok "About".
Proof.
  assert (Hc : clean env0 (page_item 3 true 1) = Ok tt)
    by (vm_compute; reflexivity).
  split; [exact Hc |].
  destruct (validated_item_has_menu_text env0 (fun _ => "About")
              (page_item 3 true 1) Hc)
    as (text & Ht & _ & _ & Hno).
  - intros pg _ H. discriminate H.
  - destruct (Hno eq_refl) as (pg & _ & ->). exact Ht.
Defined.

Lemma boolean_select_parses_what_it_formats_witness :
  ({["apply_active_classes" := PyStr "True"]} : gmap string PyVal)
    !! "apply_active_classes" = Some (PyStr "True") /\
  format_value (PyStr "True") = "true" /\
  value_from_datadict {["apply_active_classes" := PyStr "True"]}
                      "apply_active_classes" = Some true.
Proof.
  assert (Hv : ({["apply_active_classes" := PyStr "True"]} : gmap string PyVal)
                 !! "apply_active_classes" = Some (PyStr "True"))
    by (vm_compute; reflexivity).
  split; [exact Hv |]. split; [reflexivity |].
  apply (proj1 (boolean_select_parses_what_it_formats _ _ _ Hv)).
  reflexivity.
Defined.

(** The names tried for the main menu of the second site. *)
Lemma template_names_end_with_the_least_specific_witness :
  In get_template_names
     [get_template_names; get_sub_menu_template_names;
      AbstractFlatMenu_get_template_names;
      AbstractFlatMenu_get_sub_menu_template_names] /\
  last (get_template_names true (Some site_b) "main" "menus/main_menu.html")
    = Some "menus/main_menu.html" /\
  get_template_names true (Some site_b) "main" "menus/main_menu.html"
    = ["menus/b.example/main/menu.html"; "menus/b.example/main_menu.html";
       "menus/main/menu.html"; "menus/main_menu.html"].
Proof.
  pose proof (template_names_end_with_the_least_specific true (Some site_b)
                "main" "menus/main_menu.html" get_template_names
                (or_introl eq_refl)) as H.
  cbv zeta in H. destruct H as (Hlast & _).
  split; [left; reflexivity |]. split; [exact Hlast | reflexivity].
Defined.

(** ** Further runs on the example site *)


(** A second "footer" menu for the first site is rejected. *)
Lemma flat_menu_clean_rejects_clashes_witness :
  AbstractFlatMenu_clean flat_rows (mkFlatMenuObject None site_a "Other" "footer")
    <> Ok tt /\
  AbstractFlatMenu_clean flat_rows (mkFlatMenuObject None site_a "Other" "footer")
    = Raise (Invalid (FieldErrors
        [("site", [unique_message]); ("handle", [unique_message])])).
Proof.
  assert (Hne : AbstractFlatMenu_clean flat_rows
                  (mkFlatMenuObject None site_a "Other" "footer") <> Ok tt).
  { intros H. vm_compute in H. discriminate H. }
  split; [exact Hne |].
  pose proof (flat_menu_clean_rejects_clashes flat_rows
                (mkFlatMenuObject None site_a "Other" "footer")) as H.
  cbv zeta in H. exact (proj1 (proj2 H) Hne).
Defined.

(** The page map of the whole example site. *)
Lemma create_page_map_from_qs_indexes_every_page_witness :
  NoDup ((fun pg => page_id (row pg)) <$> evaluate site_pages Page_objects) /\
  In (instantiate false pg_about) (evaluate site_pages Page_objects) /\
  fst (create_page_map_from_qs 4 (evaluate site_pages Page_objects)) !! 3
    = Some (instantiate false pg_about) /\
  (page_id <$> (row <$> default []
     (snd (create_page_map_from_qs 4 (evaluate site_pages Page_objects))
        !! "000100010001")))
    = [4; 5].
Proof.
  assert (Hnd : NoDup ((fun pg => page_id (row pg))
                         <$> evaluate site_pages Page_objects)).
  { apply (bool_decide_eq_true_1 _). vm_compute. reflexivity. }
  assert (Hin : In (instantiate false pg_about)
                   (evaluate site_pages Page_objects)).
  { vm_compute. right. left. reflexivity. }
  pose proof (create_page_map_from_qs_indexes_every_page env0
                (evaluate site_pages Page_objects)) as H.
  cbv zeta in H. destruct H as (_ & Hk & _ & _ & Hpk).
  split; [exact Hnd |]. split; [exact Hin |]. split.
  - exact (Hpk Hnd _ Hin).
  - change 4%nat with (steplen env0). rewrite (Hk "000100010001").
    vm_compute. reflexivity.
Defined.


(** The older selection on the example site: a link to "about" with two
    levels selects "team". *)
Lemma get_all_pages_selects_witness :
  visible pg_team /\
  qs_where (branch 3 2 "000100010001") pg_team = true /\
  qs_where (get_all_pages env0 [mkLinkValues true "000100010001" 3] 2 false)
           pg_team = true.
Proof.
  assert (Hv : visible pg_team) by (repeat split).
  split; [exact Hv |]. split; [reflexivity |].
  apply (proj2 (proj2 (proj2 (get_all_pages_selects env0
                                [mkLinkValues true "000100010001" 3] 2 false)))
           (mkLinkValues true "000100010001" 3) pg_team);
    [left; reflexivity | reflexivity | cbn; lia | exact Hv | reflexivity].
Defined.

Lemma boolean_choice_field_accepts_only_known_spellings_witness :
  BooleanChoiceField_clean
    (value_from_datadict {["use_absolute_page_urls" := PyInt 1]}
                         "use_absolute_page_urls") = Ok true /\
  BooleanChoiceField_clean
    (value_from_datadict {["use_absolute_page_urls" := PyInt 1]}
                         "apply_active_classes")
    = Raise (Invalid (NonFieldError "This value must be 'true' or 'false'")).
Proof.
  split.
  - apply (proj1 (boolean_choice_field_accepts_only_known_spellings
                    {["use_absolute_page_urls" := PyInt 1]}
                    "use_absolute_page_urls") true).
    exists (PyInt 1). split; [vm_compute; reflexivity |].
    right. left. reflexivity.
  - apply (proj2 (proj2 (boolean_choice_field_accepts_only_known_spellings
                           {["use_absolute_page_urls" := PyInt 1]}
                           "apply_active_classes"))).
    vm_compute. reflexivity.
Defined.

(** The last of two values given for [max_levels] wins. *)
Lemma query_arguments_override_view_defaults_witness :
  get_argument_form_data FlatMenuGeneratorView
    [("max_levels", "2"); ("max_levels", "3")] !! "max_levels"
    = Some (PyStr "3") /\
  get_argument_form_data FlatMenuGeneratorView
    [("max_levels", "2"); ("max_levels", "3")] !! "apply_active_classes"
    = Some (PyBool true).
Proof.
  pose proof (query_arguments_override_view_defaults FlatMenuGeneratorView
                [("max_levels", "2"); ("max_levels", "3")]) as H.
  cbv zeta in H. destruct H as (_ & _ & Hdef & Hlast).
  split.
  - apply (Hlast "max_levels" "3" [("max_levels", "2")] []);
      [reflexivity | intros s' []].
  - rewrite Hdef; [vm_compute; reflexivity |].
    intros s [H | [H | []]]; discriminate H.
Defined.

Lemma boolean_view_defaults_are_accepted_witness :
  BooleanChoiceField_clean
    (value_from_datadict
       (get_argument_form_data
          (ChildrenMenuGeneratorView (PyInt 1) (PyInt 1))
          [("max_levels", "2")])
       "apply_active_classes")
    = Ok false.
Proof.
  pose proof (boolean_view_defaults_are_accepted (PyInt 1) (PyInt 1)
                (PyInt 2) (PyInt 1) [("max_levels", "2")]) as H.
  cbv zeta in H. destruct H as [Hgen _].
  apply (Hgen (ChildrenMenuGeneratorView (PyInt 1) (PyInt 1))
              "apply_active_classes" false).
  - intros s [H | []]. discriminate H.
  - vm_compute. reflexivity.
Defined.

(** A call without a site fails before the menu class is asked. *)
Lemma get_menu_instance_prepares_the_call_witness :
  get_menu_instance nat unit nat 0%nat 1%nat 2%nat (fun _ _ => Some 5%nat) tt
    {["max_levels" := 3%nat]}
    = Raised (KeyError "site").
Proof.
  apply (proj1 (get_menu_instance_prepares_the_call nat unit nat 0%nat 1%nat
                  2%nat (fun _ _ => Some 5%nat) tt {["max_levels" := 3%nat]})).
  vm_compute. reflexivity.
Defined.

(** A queryset passed by the caller (7) is replaced by the empty one (0). *)
Lemma model_choice_fields_always_use_the_empty_queryset_witness :
  ModelChoiceField_kwargs nat 0%nat {["queryset" := 7%nat]} !! "queryset"
    = Some 0%nat.
Proof.
  exact (proj1 (proj2 (model_choice_fields_always_use_the_empty_queryset
                         nat 0%nat {["queryset" := 7%nat]}))).
Defined.

(** With only a label given, the default choices start with that label. *)
Lemma typed_choice_fields_fill_in_defaults_witness :
  TypedChoiceField_kwargs [] "help" {["empty_label" := ArgValue (PyStr "Any")]}
    !! "choices"
    = Some (ArgChoices [(ArgValue (PyStr ""), ArgValue (PyStr "Any"))]).
Proof.
  pose proof (typed_choice_fields_fill_in_defaults [] "help"
                {["empty_label" := ArgValue (PyStr "Any")]}) as H.
  cbv zeta in H. destruct H as (_ & _ & Hc & _).
  rewrite Hc; vm_compute; reflexivity.
Defined.
